(** * mysqlbackup.py: command construction, hang watcher and executor

    A shallow embedding of [src/mysqlbackup.py].  Python strings are
    [string], the parsed [args] namespace is a record, the file system is
    a finite set of existing paths, and every effect of the script
    ([delegator.run], [logger.*], [time.sleep], [Path.mkdir]/[unlink]/
    [rmdir], [sys.exit]) is threaded through a small state-and-exception
    monad. *)

From Stdlib Require Import ZArith Ascii String DecimalString Decimal DecimalN.
From stdpp Require Import base decidable option list strings gmap sets.

Local Open Scope Z_scope.

(** ** Python string operations *)

Module Py.

Definition nl : ascii := "010"%char.
Definition sp : ascii := " "%char.
Definition NL : string := String nl "".

(** [s.replace(c, d)] for one-character patterns. *)
Fixpoint replace (c d : ascii) (s : string) : string :=
  match s with
  | EmptyString => EmptyString
  | String a s' => String (if Ascii.eqb a c then d else a) (replace c d s')
  end.

(** [sep.join(l)]. *)
Fixpoint join (sep : string) (l : list string) : string :=
  match l with
  | [] => ""
  | [x] => x
  | x :: l' => x +:+ sep +:+ join sep l'
  end.

(** [s.split(c)] for a one-character separator: never the empty list. *)
Fixpoint split (c : ascii) (s : string) : list string :=
  match s with
  | EmptyString => [""]
  | String a s' =>
      if Ascii.eqb a c then "" :: split c s'
      else match split c s' with
           | w :: ws => String a w :: ws
           | [] => [String a ""]
           end
  end.

(** [l.remove(x)]: drops the first occurrence, [None] stands for the
    [ValueError] raised when there is none. *)
Fixpoint remove (x : string) (l : list string) : option (list string) :=
  match l with
  | [] => None
  | y :: l' => if String.eqb y x then Some l'
               else option_map (cons y) (remove x l')
  end.

(** [s.replace(c, '')]. *)
Fixpoint delete (c : ascii) (s : string) : string :=
  match s with
  | EmptyString => EmptyString
  | String a s' => if Ascii.eqb a c then delete c s' else String a (delete c s')
  end.

(** The one-line form of a template: [s.replace(newline, ' ')]. *)
Definition flat (s : string) : string := replace nl sp s.

(** [needle in hay]. *)
Fixpoint contains (needle hay : string) : bool :=
  String.prefix needle hay ||
  match hay with
  | EmptyString => false
  | String _ hay' => contains needle hay'
  end.

(** [str(n)] for a Python int. *)
Definition str (n : Z) : string := NilZero.string_of_int (Z.to_int n).

(** Truthiness of [None]-or-string attributes. *)
Definition truthy (o : option string) : bool :=
  match o with
  | Some s => negb (String.eqb s "")
  | None => false
  end.

(** What an f-string prints for such an attribute. *)
Definition fmt (o : option string) : string :=
  match o with
  | Some s => s
  | None => "None"
  end.

End Py.

(** The double quote, which the templates of the script contain. *)
Definition dq : string := String "034"%char "".

(** The Prop counterpart of [Py.contains]. *)
Definition occurs_in (needle hay : string) : Prop :=
  ∃ pre post, hay = pre +:+ needle +:+ post.

(** ** Data model *)

(** [args.tool.name] after the aliases have been resolved
    (lines 145-152 and 168): one of four names. *)
Inductive Tool := Mysqldump | Mysqlpump | Xtrabackup | Mydumper.

Global Instance Tool_eq_dec : EqDecision Tool.
Proof. solve_decision. Defined.

Definition tool_name (t : Tool) : string :=
  match t with
  | Mysqldump => "mysqldump"
  | Mysqlpump => "mysqlpump"
  | Xtrabackup => "xtrabackup"
  | Mydumper => "mydumper"
  end.

(** The [args] namespace.  [args.extra] is a list of strings as parsed and
    a single string once [add_extra_args] has run, hence the parameter.
    Paths are the strings [pathlib] prints for them. *)
Record Args (X : Type) := mkArgs {
  host : string;
  port : Z;
  socket : option string;
  user : string;
  password : string;
  login_path : option string;
  databases : list string;
  tables : list string;
  config : option string;
  tool : Tool;
  backup_dir : string;
  backup_file : string;
  backup_log : string;
  extra : X;
  incremental : bool;
  just_insert : bool;
  no_data : bool;
  threads : Z;
  debug : bool;
  reset : bool
}.

Arguments mkArgs {X}.
Arguments host {X}. Arguments port {X}. Arguments socket {X}.
Arguments user {X}. Arguments password {X}. Arguments login_path {X}.
Arguments databases {X}. Arguments tables {X}. Arguments config {X}.
Arguments tool {X}. Arguments backup_dir {X}. Arguments backup_file {X}.
Arguments backup_log {X}. Arguments extra {X}. Arguments incremental {X}.
Arguments just_insert {X}. Arguments no_data {X}. Arguments threads {X}.
Arguments debug {X}. Arguments reset {X}.

(** [args.extra = e]. *)
Definition set_extra {X Y} (a : Args X) (e : Y) : Args Y :=
  mkArgs (host a) (port a) (socket a) (user a) (password a) (login_path a)
    (databases a) (tables a) (config a) (tool a) (backup_dir a)
    (backup_file a) (backup_log a) e (incremental a) (just_insert a)
    (no_data a) (threads a) (debug a) (reset a).

(** [args.backup_file = f]. *)
Definition set_backup_file {X} (a : Args X) (f : string) : Args X :=
  mkArgs (host a) (port a) (socket a) (user a) (password a) (login_path a)
    (databases a) (tables a) (config a) (tool a) (backup_dir a)
    f (backup_log a) (extra a) (incremental a) (just_insert a)
    (no_data a) (threads a) (debug a) (reset a).

(** [args.backup_log = l]. *)
Definition set_backup_log {X} (a : Args X) (l : string) : Args X :=
  mkArgs (host a) (port a) (socket a) (user a) (password a) (login_path a)
    (databases a) (tables a) (config a) (tool a) (backup_dir a)
    (backup_file a) l (extra a) (incremental a) (just_insert a)
    (no_data a) (threads a) (debug a) (reset a).

(** [args.password = p]. *)
Definition set_password {X} (a : Args X) (p : string) : Args X :=
  mkArgs (host a) (port a) (socket a) (user a) p (login_path a)
    (databases a) (tables a) (config a) (tool a) (backup_dir a)
    (backup_file a) (backup_log a) (extra a) (incremental a) (just_insert a)
    (no_data a) (threads a) (debug a) (reset a).

(** [args.databases = d; args.tables = t]. *)
Definition set_filters {X} (a : Args X) (d t : list string) : Args X :=
  mkArgs (host a) (port a) (socket a) (user a) (password a) (login_path a)
    d t (config a) (tool a) (backup_dir a)
    (backup_file a) (backup_log a) (extra a) (incremental a) (just_insert a)
    (no_data a) (threads a) (debug a) (reset a).

(** What [delegator.run] hands back. *)
Record Resp := mkResp { return_code : Z; out : string; err : string }.

(** A call of [delegator.run]: the command line and the value given for
    [MYSQL_PWD] in [env], if any. *)
Record Cmd := mkCmd { cmd_line : string; cmd_env : option string }.

(** The child either ends with a response or the operator interrupts it. *)
Inductive ShOutcome := Done (r : Resp) | Interrupted.

Inductive Level := Debug | Info | Warning | Error.

Global Instance Level_eq_dec : EqDecision Level.
Proof. solve_decision. Defined.

Inductive Exn :=
| SystemExit (code : Z)
| ValueError
| FileNotFoundError
| OSError
| KeyboardInterrupt.

(** [Fuel] is the model running out of loop fuel; no Python run ends so. *)
Inductive Result (A : Type) :=
| Ok (a : A)
| Raised (e : Exn)
| Fuel.

Arguments Ok {A}. Arguments Raised {A}. Arguments Fuel {A}.

(** What one thread of the script has done so far: the paths that exist,
    the log records, the commands run and the sleeps, each oldest first. *)
Record World := mkWorld {
  fs : gset string;
  log : list (Level * string);
  ran : list Cmd;
  slept : list Z
}.

(** What the script cannot decide: the platform, the working directory,
    the clock, and how the [n]-th child process of a thread ends and
    leaves the file system. *)
Record Env := mkEnv {
  windows : bool;
  cwd : string;
  script_dir : string;
  now : string;
  sh : nat → gset string → ShOutcome * gset string
}.

Definition M (A : Type) : Type := World → Result A * World.

Global Instance M_ret : MRet M := λ A a w, (Ok a, w).

Global Instance M_bind : MBind M := λ A B f m w,
  match m w with
  | (Ok a, w') => f a w'
  | (Raised e, w') => (Raised e, w')
  | (Fuel, w') => (Fuel, w')
  end.

(** The status the interpreter exits with when the main thread ends so. *)
Definition exit_status {A} (r : Result A) : option Z :=
  match r with
  | Ok _ => Some 0
  | Raised (SystemExit c) => Some c
  | Raised KeyboardInterrupt => Some 130
  | Raised _ => Some 1
  | Fuel => None
  end.

(** ** Effects *)

Section Script.

Context (E : Env).

(** [logger.debug/info/warning/error(msg)]. *)
Definition logger (l : Level) (msg : string) : M unit := λ w,
  (Ok (), mkWorld (fs w) (log w ++ [(l, msg)]) (ran w) (slept w)).

(** [if args.debug: logger.debug(msg)]. *)
Definition debug_log (d : bool) (msg : string) : M unit :=
  if d then logger Debug msg else mret ().

(** [delegator.run(command, env=...)]: the command is recorded, the child
    does what the environment says; an interrupt surfaces as
    [KeyboardInterrupt]. *)
Definition run (command : string) (env : option string) : M Resp := λ w,
  let w' o := mkWorld o (log w) (ran w ++ [mkCmd command env]) (slept w) in
  match sh E (length (ran w)) (fs w) with
  | (Done r, o) => (Ok r, w' o)
  | (Interrupted, o) => (Raised KeyboardInterrupt, w' o)
  end.

(** [time.sleep(n)]. *)
Definition sleep (n : Z) : M unit := λ w,
  (Ok (), mkWorld (fs w) (log w) (ran w) (slept w ++ [n])).

(** [sys.exit(code)], and any other [raise]. *)
Definition raise {A} (e : Exn) : M A := λ w, (Raised e, w).

Definition sys_exit {A} (code : Z) : M A := raise (SystemExit code).

(** [p / name] on paths: an absolute [name] replaces [p]. *)
Definition path_join (p name : string) : string :=
  if String.prefix "/" name then name else p +:+ "/" +:+ name.

(** [p.absolute()]. *)
Definition absolute (p : string) : string :=
  if String.prefix "/" p then p else path_join (cwd E) p.

(** [p.exists()]. *)
Definition path_exists (p : string) : M bool := λ w,
  (Ok (bool_decide (p ∈ fs w)), w).

(** [p.mkdir(parents=True, exist_ok=True)]. *)
Definition mkdir (p : string) : M unit := λ w,
  (Ok (), mkWorld (fs w ∪ {[p]}) (log w) (ran w) (slept w)).

(** [p.unlink()]: [FileNotFoundError] when there is nothing to remove. *)
Definition unlink (p : string) : M unit := λ w,
  if bool_decide (p ∈ fs w)
  then (Ok (), mkWorld (fs w ∖ {[p]}) (log w) (ran w) (slept w))
  else (Raised FileNotFoundError, w).

(** [p.rmdir()]: [OSError] unless [p] exists and nothing lives below it. *)
Definition rmdir (p : string) : M unit := λ w,
  if bool_decide (p ∈ fs w) &&
     forallb (λ q, negb (String.prefix (p +:+ "/") q)) (elements (fs w))
  then (Ok (), mkWorld (fs w ∖ {[p]}) (log w) (ran w) (slept w))
  else (Raised OSError, w).

(** [try: body except KeyboardInterrupt: handler]. *)
Definition try_except_KeyboardInterrupt {A} (body handler : M A) : M A := λ w,
  match body w with
  | (Raised KeyboardInterrupt, w') => handler w'
  | rw => rw
  end.

(** [if b: body]. *)
Definition when (b : bool) (body : M unit) : M unit :=
  if b then body else mret ().

(** Truthiness of a list. *)
Definition nonempty {A} (l : list A) : bool :=
  match l with [] => false | _ => true end.

(** [for x in l: body(x)]. *)
Fixpoint for_each {A} (l : list A) (body : A → M unit) : M unit :=
  match l with
  | [] => mret ()
  | x :: l' => body x ;; for_each l' body
  end.

(** ** The script *)

(** [add_extra_args] (lines 207-221). *)
Definition add_extra_args (args : Args (list string)) : Args string :=
  let extra_ := Py.join "" (extra args) in
  let extra_ :=
    if bool_decide (tool args ∈ [Mysqldump; Mysqlpump; Mydumper]) then
      let extra_ :=
        if just_insert args && bool_decide (tool args ∈ [Mysqldump; Mysqlpump])
        then extra_ +:+ " --skip-add-drop-table --skip-add-locks --no-create-info"
        else extra_ in
      if no_data args then
        match tool args with
        | Mysqldump =>
            extra_ +:+ " --no-data --skip-lock-tables --skip-add-drop-database --skip-add-drop-table " +:+
            "--skip-add-drop-trigger"
        | Mysqlpump => extra_ +:+ " --skip-dump-rows"
        | _ => extra_ +:+ " --no-data --no-locks"
        end
      else extra_
    else extra_ in
  set_extra args extra_.

(** [config_login_path] (lines 369-393). *)
Definition config_login_path (args : Args string) : M unit :=
  let c_command :=
    if negb (reset args) then
      Py.flat (Py.NL +:+
        "                    mysql_config_editor print -G " +:+ Py.fmt (login_path args) +:+ " | grep password" +:+ Py.NL +:+
        "                ")
    else
      Py.flat (Py.NL +:+
        "                    mysql_config_editor remove -G " +:+ Py.fmt (login_path args) +:+ Py.NL +:+
        "                ") in
  debug_log (debug args) c_command ;;
  resp ← run c_command None ;
  when (negb (return_code resp =? 0) || reset args) (
    let s_command :=
      Py.flat (Py.NL +:+
        "                    mysql_config_editor set --login-path=" +:+ Py.fmt (login_path args) +:+ " --host=" +:+ host args +:+ " --password " +:+ Py.NL +:+
        "                    --user=" +:+ user args +:+ " --port=" +:+ Py.str (port args) +:+ Py.NL +:+
        "                ") in
    let s_command :=
      if Py.truthy (socket args)
      then s_command +:+ " --socket=" +:+ Py.fmt (socket args)
      else s_command in
    debug_log (debug args) s_command ;;
    let set_msg := if negb (reset args) then "unset" else "reset" in
    logger Info ("Login path " +:+ set_msg +:+ ", please enter the password for backup.") ;;
    _ ← run s_command None ;
    mret ()).

(** [get_connect_args] (lines 224-236). *)
Definition get_connect_args (args : Args string) : M string :=
  let connect_args := "" in
  let connect_args :=
    if Py.truthy (config args)
    then connect_args +:+ " --defaults-file=" +:+ Py.fmt (config args)
    else connect_args in
  let connect_args :=
    if Py.truthy (socket args)
    then connect_args +:+ " --socket=" +:+ Py.fmt (socket args)
    else connect_args in
  if Py.truthy (login_path args) then
    config_login_path args ;;
    mret (connect_args +:+ " --login-path=" +:+ Py.fmt (login_path args))
  else
    mret (connect_args +:+ " --host=" +:+ host args +:+ " --port=" +:+ Py.str (port args) +:+
          " --user=" +:+ user args).

(** The polling query [c_command] of [check_hung] (lines 243-247). *)
Definition hang_query (args : Args string) (connect_args : string) : string :=
  Py.flat (Py.NL +:+
    "            mysql " +:+ connect_args +:+ " " +:+ extra args +:+ " " +:+ Py.NL +:+
    "            --skip-column-names -e " +:+ dq +:+ "select id from information_schema.processlist " +:+ Py.NL +:+
    "            where info='FLUSH TABLES WITH READ LOCK' and user='" +:+ user args +:+ "';" +:+ dq +:+ Py.NL +:+
    "        ").

(** [kill_command.format(connect_args=..., extra=..., thread_id=...)]
    (lines 248-250 and 267-271): the template is flattened before it is
    filled in. *)
Definition kill_command_fill (connect_args extra_ thread_id : string) : string :=
  Py.flat (Py.NL +:+ "        mysql ") +:+ connect_args +:+ " " +:+ extra_ +:+
  " --skip-column-names -e " +:+ dq +:+ "kill " +:+ thread_id +:+ ";" +:+ dq +:+ " " +:+
  Py.flat (Py.NL +:+ "    ").

(** [thread_ids] (lines 260-261). *)
Definition thread_ids_of (resp : Resp) : M (list string) :=
  match Py.remove "" (Py.split Py.nl (out resp)) with
  | Some thread_ids => mret thread_ids
  | None => raise ValueError
  end.

(** The kill of one reported thread (lines 267-278). *)
Definition kill_thread (args : Args string) (connect_args t_id : string) : M unit :=
  let kill_command_fill := kill_command_fill connect_args (extra args) t_id in
  debug_log (debug args) kill_command_fill ;;
  resp ← run kill_command_fill (Some (password args)) ;
  if return_code resp =? 0
  then logger Info ("Successfully kill thread: " +:+ t_id)
  else logger Error ("Failed to kill thread: " +:+ t_id).

(** The body of the polling loop up to [i += 1] (lines 255-281). *)
Definition check_hung_body (args : Args string) (connect_args c_command : string)
    (i : Z) : M unit :=
  debug_log (debug args) ("Check hang " +:+ Py.str i +:+ " times.") ;;
  debug_log (debug args) c_command ;;
  resp ← run c_command (Some (password args)) ;
  if (return_code resp =? 0) && (3 <? i) then
    thread_ids ← thread_ids_of resp ;
    when (nonempty thread_ids) (
      logger Info ("Found hang thread: [" +:+ Py.join "|" thread_ids +:+ "], " +:+
                   "now killing it.")) ;;
    for_each thread_ids (kill_thread args connect_args)
  else if negb (return_code resp =? 0) then
    logger Error ("Failed to check hang: " +:+ err resp) ;;
    sys_exit 1
  else mret ().

(** [while i < 180: ...; i += 1; time.sleep(1)] (lines 254-283). *)
Fixpoint check_hung_loop (args : Args string) (connect_args c_command : string)
    (fuel : nat) (i : Z) : M unit :=
  match fuel with
  | O => if i <? 180 then λ w, (Fuel, w) else mret ()
  | S fuel' =>
      if i <? 180 then
        check_hung_body args connect_args c_command i ;;
        let i := i + 1 in
        sleep 1 ;;
        check_hung_loop args connect_args c_command fuel' i
      else mret ()
  end.

(** [check_hung] (lines 239-284). *)
Definition check_hung (args : Args string) : M unit :=
  connect_args ← get_connect_args args ;
  let c_command := hang_query args connect_args in
  let i := 1 in
  debug_log (debug args) c_command ;;
  check_hung_loop args connect_args c_command 180 i.

(** [check_command] (lines 287-297). *)
Definition check_command (command : string) : M unit :=
  let c_command :=
    if windows E then "where " +:+ command else "which " +:+ command in
  resp ← run c_command None ;
  when (negb (return_code resp =? 0)) (
    logger Error ("Could not find command: " +:+ command) ;;
    sys_exit 1).

(** The connection check of [pre_backup] (lines 323-327). *)
Definition connect_query (args : Args string) (connect_args : string) : string :=
  Py.flat (Py.NL +:+
    "        mysql " +:+ connect_args +:+ " " +:+ extra args +:+ " --skip-column-names " +:+ Py.NL +:+
    "        -e " +:+ dq +:+ "select count(concat(table_schema, '.', table_name)) from information_schema.tables " +:+ Py.NL +:+
    "        where table_schema not in ('sys','information_schema','performance_schema');" +:+ dq +:+ Py.NL +:+
    "    ").

(** [pre_backup] (lines 300-336).  The [map] of line 328 is never
    consumed and changes nothing. *)
Definition pre_backup (args : Args string) : M unit :=
  check_command (tool_name (tool args)) ;;
  check_command "lz4" ;;
  connect_args ← get_connect_args args ;
  let program := tool_name (tool args) +:+ " " +:+ connect_args +:+ " " +:+ extra args in
  let command :=
    if windows E then "tasklist -v | findstr %" +:+ program +:+ "%"
    else "ps -ef | grep -v grep | grep -E '" +:+ program in
  debug_log (debug args) command ;;
  resp ← run command None ;
  when (return_code resp =? 0) (
    logger Error ("Another backup process is running: " +:+ out resp) ;;
    sys_exit 1) ;;
  connect_args ← get_connect_args args ;
  let command := connect_query args connect_args in
  debug_log (debug args) command ;;
  resp ← run command (Some (password args)) ;
  when (negb (return_code resp =? 0)) (
    logger Error ("Could not connect to mysql server: " +:+ host args +:+ ":" +:+ Py.str (port args) +:+ ". " +:+
                  "Got error: " +:+ err resp) ;;
    sys_exit 1).

Definition xtrabackup_filter_error : string :=
  "We dont suggest use xtrabackup to backup specify databases or tables, " +:+
  "please ues other tool for doing this. ignore these options".

(** [add_filter_args] (lines 339-366). *)
Definition add_filter_args (args : Args string) : M string :=
  let filter_args := "" in
  filter_args ←
    (if nonempty (databases args) then
       match tool args with
       | Mysqldump => mret (filter_args +:+ " --databases " +:+ Py.join " " (databases args))
       | Mysqlpump => mret (filter_args +:+ " --include-databases " +:+ Py.join " " (databases args))
       | Mydumper => mret (filter_args +:+ (" --regex '" +:+ Py.join "\.|" (databases args) +:+ "\.'"))
       | Xtrabackup => logger Error xtrabackup_filter_error ;; sys_exit 1
       end
     else mret filter_args) ;
  filter_args ←
    (if nonempty (tables args) then
       match tool args with
       | Mysqldump => mret (filter_args +:+ " --tables " +:+ Py.join " " (tables args))
       | Mysqlpump => mret (filter_args +:+ " --include-tables " +:+ Py.join " " (tables args))
       | Mydumper => mret (filter_args +:+ " --tables-list " +:+ Py.join "," (tables args))
       | Xtrabackup => logger Error xtrabackup_filter_error ;; sys_exit 1
       end
     else mret filter_args) ;
  let filter_args :=
    if negb (nonempty (databases args)) && negb (nonempty (tables args))
    then " --all-databases" else filter_args in
  mret filter_args.

(** [delete_fail_backup_file] (lines 396-403). *)
Definition delete_fail_backup_file {A} (args : Args string) : M A :=
  logger Info ("Deleting backup file: " +:+ backup_file args) ;;
  unlink (backup_file args) ;;
  there ← path_exists (backup_file args) ;
  (if negb there then logger Info "Delete success."
   else logger Info "Delete fail.") ;;
  sys_exit 1.

(** The text appended to [command] for each tool (lines 419-460); for
    xtrabackup, [command] already carries the password option. *)
Definition backup_command (args : Args string)
    (command filter_args tmp_dir history_dir : string) : string :=
  match tool args with
  | Mysqldump =>
      command +:+ Py.flat (" " +:+ Py.NL +:+
        "            --master-data=2 --single-transaction --set-gtid-purged=AUTO --skip-tz-utc --complete-insert " +:+ Py.NL +:+
        "            --hex-blob --default-character-set utf8mb4 --routines --events --triggers --add-drop-table " +:+ Py.NL +:+
        "            --max-allowed-packet=256M --log-error=" +:+ backup_log args +:+ " " +:+ filter_args +:+ " | lz4 -z -9 -c " +:+ Py.NL +:+
        "            > " +:+ backup_file args +:+ Py.NL +:+
        "        ")
  | Mysqlpump =>
      command +:+ Py.flat (Py.NL +:+
        "            --default-parallelism=" +:+ Py.str (threads args) +:+ " --single-transaction --set-gtid-purged=ON --skip-tz-utc " +:+ Py.NL +:+
        "            --add-drop-table --complete-insert --extended-insert=1000 --hex-blob --default-character-set utf8mb4" +:+ Py.NL +:+
        "            --routines --events --triggers --log-error-file=" +:+ backup_log args +:+ " " +:+ filter_args +:+ " | lz4 -z -9 -c" +:+ Py.NL +:+
        "            > " +:+ backup_file args +:+ Py.NL +:+
        "        ")
  | Mydumper =>
      command +:+ Py.flat (Py.NL +:+
        "            --threads " +:+ Py.str (threads args) +:+ " --trx-consistency-only --use-savepoints --triggers --events --routines " +:+ Py.NL +:+
        "            --skip-definer --compress --rows 100000 --skip-tz-utc --complete-insert --set-names utf8mb4 " +:+ Py.NL +:+
        "            --disk-limits 1024:4096 --logfile " +:+ backup_log args +:+ " -v 3 --stream -o " +:+ tmp_dir +:+ Py.NL +:+
        "            > " +:+ backup_file args +:+ Py.NL +:+
        "        ")
  | Xtrabackup =>
      command +:+ Py.flat (Py.NL +:+
        "            --backup --stream=xbstream --compress --compress-threads=" +:+ Py.str (threads args) +:+ " --parallel=" +:+ Py.str (threads args) +:+ Py.NL +:+
        "            --target-dir=" +:+ backup_dir args +:+ " --tmpdir=" +:+ tmp_dir +:+ " --extra-lsndir=" +:+ history_dir +:+ " " +:+ Py.NL +:+
        "            2>>" +:+ backup_log args +:+ " 1>" +:+ backup_file args +:+ Py.NL +:+
        "        ")
  end.

(** [get_lsn_command] (lines 446-448). *)
Definition get_lsn_command (history_dir : string) : string :=
  Py.NL +:+
  "                grep to_lsn " +:+ path_join history_dir "xtrabackup_checkpoints" +:+ " | sed -r 's@to_lsn = @@g'" +:+ Py.NL +:+
  "            ".

(** The incremental step of the xtrabackup branch (lines 442-452): what
    [args] is afterwards. *)
Definition incremental_lsn (args : Args string) (history_dir : string) : M (Args string) :=
  mkdir history_dir ;;
  there ← path_exists (path_join history_dir "xtrabackup_checkpoints") ;
  if incremental args && there then
    let get_lsn_command := get_lsn_command history_dir in
    debug_log (debug args) get_lsn_command ;;
    resp ← run get_lsn_command None ;
    mret (set_extra args (extra args +:+ " --incremental-lsn=" +:+ out resp))
  else mret args.

(** [process_backup] up to the command it is about to run (lines
    406-463): the command, [tmp_dir], and [args] as the branch left it. *)
Definition process_backup_build (args : Args string) : M (string * string * Args string) :=
  logger Info ("Process backup for mysql server " +:+ host args +:+ ":" +:+ Py.str (port args) +:+ " ...") ;;
  logger Info ("Log into logfile: " +:+ backup_log args) ;;
  logger Info ("Result save into: " +:+ backup_file args) ;;
  connect_args ← get_connect_args args ;
  let command := tool_name (tool args) +:+ " " +:+ connect_args +:+ " " +:+ extra args in
  let tmp_dir := path_join (absolute (backup_dir args)) "tmp" in
  when (bool_decide (tool args ∈ [Mydumper; Xtrabackup])) (mkdir tmp_dir) ;;
  filter_args ← add_filter_args args ;
  '(command, args) ←
    match tool args with
    | Xtrabackup =>
        let history_dir := path_join (absolute (backup_dir args)) "history" in
        args ← incremental_lsn args history_dir ;
        let command :=
          if negb (Py.truthy (login_path args))
          then command +:+ " --password=$MYSQL_PWD" else command in
        mret (backup_command args command filter_args tmp_dir history_dir, args)
    | _ => mret (backup_command args command filter_args tmp_dir "", args)
    end ;
  debug_log (debug args) command ;;
  mret (command, tmp_dir, args).

(** The rest of [process_backup] (lines 465-484): the child is run, a
    failure is reported and cleaned up. *)
Definition process_backup_run (args : Args string) (command tmp_dir : string) : M unit :=
  try_except_KeyboardInterrupt
    (resp ← run command (Some (password args)) ;
     when ((return_code resp =? 0) && bool_decide (tool args ∈ [Mydumper; Xtrabackup]))
       (rmdir tmp_dir) ;;
     when (negb (return_code resp =? 0)) (
       logger Error ("Could not process backup for mysql server: " +:+ host args +:+ ":" +:+ Py.str (port args) +:+ ".") ;;
       (if negb (String.eqb (err resp) "")
        then logger Error ("Got error: " +:+ err resp)
        else logger Error ("Please check logfile " +:+ backup_log args +:+ " for get more error detail.")) ;;
       delete_fail_backup_file args))
    (delete_fail_backup_file (A:=unit) args ;;
     logger Error "") ;;
  logger Info "Backup success.".

(** [process_backup] (lines 406-484); the result is [args] as the call
    leaves the shared namespace. *)
Definition process_backup (args : Args string) : M (Args string) :=
  '(command, tmp_dir, args) ← process_backup_build args ;
  process_backup_run args command tmp_dir ;;
  mret args.

(** [main] (lines 487-495) on the main thread.  The thread started on
    lines 491-492 runs [check_hung] on the same namespace and is not
    joined. *)
Definition main (args : Args (list string)) : M (Args string) :=
  let args := add_extra_args args in
  pre_backup args ;;
  process_backup args.

(** [get_ip_command] (lines 176-179). *)
Definition get_ip_command : string :=
  Py.delete Py.nl (Py.NL +:+
    "            ip address show $(ip r | awk '/default/{print $5}') | grep inet | " +:+ Py.NL +:+
    "            grep -v inet6 | awk -F " +:+ dq +:+ "[ |/]+" +:+ dq +:+ " '{print $3}'" +:+ Py.NL +:+
    "        ").

Definition incremental_warning : string :=
  "last fullback does not exists, ignore args: --incremental".

(** [parse_mysql_args_from_command_line] from line 170 on: the record is
    the namespace as lines 124-168 leave it (options parsed, password
    read, tool alias resolved), [args.extra] being [None] or a list. *)
Definition parse_mysql_args_from_command_line
    (args : Args (option (list string))) : M (Args (list string)) :=
  mkdir (backup_dir args) ;;
  let args := set_backup_log args (path_join (path_join (script_dir E) "logs") (backup_log args)) in
  args ←
    (if String.eqb (backup_file args) "" then
       resp ← run get_ip_command None ;
       let host_ := if return_code resp =? 0 then Py.delete Py.nl (out resp) else host args in
       let datetime_str := now E in
       backup_file_suffix ←
         match tool args with
         | Xtrabackup =>
             let backup_file_suffix := "fullback.xb" in
             if incremental args then
               there ← path_exists
                 (path_join (path_join (absolute (backup_dir args)) "history") "xtrabackup_checkpoints") ;
               if (there : bool) then mret "incremental.xb"
               else logger Warning incremental_warning ;; mret backup_file_suffix
             else mret backup_file_suffix
         | Mydumper => mret "stream"
         | _ => mret "sql.lz4"
         end ;
       mret (set_backup_file args
               (path_join (backup_dir args)
                  (Py.replace "." "_" host_ +:+ "_" +:+ Py.str (port args) +:+ "_" +:+ tool_name (tool args) +:+ "_" +:+
                   datetime_str +:+ "." +:+ backup_file_suffix)))
     else mret args) ;
  mret (set_extra args (default [] (extra args))).

(** The main thread of the script (lines 498-500). *)
Definition script (args : Args (option (list string))) : M (Args string) :=
  command_line_args ← parse_mysql_args_from_command_line args ;
  main command_line_args.

End Script.

(** ** Option parsing (lines 24-168) *)

(** The default of [--threads] (lines 38-39 and 113), from what
    [psutil.cpu_count()] returns. *)
Definition default_threads (cpu_count : Z) : Z :=
  let half_cpus := cpu_count / 2 in
  if 4 <? half_cpus then half_cpus else 3.

(** What [args.password] can hold: a string (the default is the empty
    one) or the list that [nargs='*'] collects. *)
Inductive PyValue := PStr (s : string) | PList (l : list string).

(** Truthiness of such a value. *)
Definition py_truthy (v : PyValue) : bool :=
  match v with
  | PStr s => negb (String.eqb s "")
  | PList l => nonempty l
  end.

(** Truthiness of an attribute that is [None] or a list. *)
Definition list_truthy (o : option (list string)) : bool :=
  match o with
  | Some l => nonempty l
  | None => false
  end.

(** [v[0]]: [None] stands for the [IndexError] of an empty value. *)
Definition py_first (v : PyValue) : option PyValue :=
  match v with
  | PStr (String a _) => Some (PStr (String a ""))
  | PList (x :: _) => Some (PStr x)
  | _ => None
  end.

(** The attributes of the parsed namespace that lines 129-168 read. *)
Module Cli.

Record Namespace := mkNamespace {
  help : bool;
  tool : option string;
  password : PyValue;
  no_pass : bool;
  login_path : option string;
  tables : option (list string);
  base_dir : option string
}.

End Cli.

(** [p.name]: the last component of a path. *)
Definition path_name (p : string) : string := List.last (Py.split "/" p) "".

(** How lines 129-168 end: normally, with [sys.exit], with the
    [IndexError] of [args.password[0]], or interrupted at the password
    prompt. *)
Inductive Outcome (A : Type) :=
| Returns (a : A)
| Exits (code : Z)
| IndexError
| PromptInterrupted.

Arguments Returns {A}. Arguments Exits {A}.
Arguments IndexError {A}. Arguments PromptInterrupted {A}.

Definition required_tool_error : string :=
  "the following arguments are required: --tool".

Definition tables_warning : string :=
  "--tables must set the db_name in front of tb_name. " +:+
  "for example: use --tables test.t1, " +:+
  "not --databases test --tables t1".

(** The password of lines 138-143.  [getpass] is what the operator
    types at the prompt of [getpass.getpass()], [None] when the prompt
    is interrupted. *)
Definition select_password (getpass : option string) (args : Cli.Namespace)
    : Outcome PyValue :=
  if negb (py_truthy (Cli.password args)) && negb (Cli.no_pass args) &&
     negb (Py.truthy (Cli.login_path args))
  then match getpass with
       | Some typed => Returns (PStr typed)
       | None => PromptInterrupted
       end
  else if Cli.no_pass args then Returns (PStr "")
  else if negb (Py.truthy (Cli.login_path args)) then
    match py_first (Cli.password args) with
    | Some p => Returns p
    | None => IndexError
    end
  else Returns (Cli.password args).

(** [parse_mysql_args_from_command_line] from line 129 to line 168, on
    the namespace [parser.parse_args] returns: the password, the tool
    and the path stored in [args.tool].  The help text goes to the
    standard output, which the world does not record. *)
Definition parse_head (getpass : option string) (args : Cli.Namespace) (w : World)
    : Outcome (PyValue * Tool * string) * World :=
  let need_print_help := if Py.truthy (Cli.tool args) then false else true in
  if Cli.help args || need_print_help then (Exits 1, w)
  else if negb (Py.truthy (Cli.tool args)) then
    (Exits 1, (logger Error required_tool_error w).2)
  else
    match select_password getpass args with
    | Returns password =>
        let name := Py.fmt (Cli.tool args) in
        let '(tool_, refused) :=
          if bool_decide (name ∈ ["xbk"; "xtrabackup"]) then (Xtrabackup, false)
          else if bool_decide (name ∈ ["dump"; "mysqldump"]) then (Mysqldump, false)
          else if bool_decide (name ∈ ["pump"; "mysqlpump"]) then (Mysqlpump, false)
          else (Mydumper, Py.truthy (Cli.login_path args)) in
        if refused then
          (Exits 1, (logger Error "mydumper does not support for args --login-path" w).2)
        else
          let w :=
            if String.eqb (tool_name tool_) "mydumper" && list_truthy (Cli.tables args)
            then (logger Warning tables_warning w).2 else w in
          if Py.truthy (Cli.base_dir args) then
            let base_dir := Py.fmt (Cli.base_dir args) in
            if negb (bool_decide (base_dir ∈ fs w)) then
              (Exits 1,
               (logger Error ("Base dir [" +:+ path_name base_dir +:+ "] does not exists.") w).2)
            else (Returns (password, tool_, path_join base_dir (tool_name tool_)), w)
          else (Returns (password, tool_, tool_name tool_), w)
    | Exits code => (Exits code, w)
    | IndexError => (IndexError, w)
    | PromptInterrupted => (PromptInterrupted, w)
    end.

(** ** The process and its watcher thread *)

(** The daemon thread [main] starts once [pre_backup] has returned
    (lines 491-492): [check_hung] on the namespace of the main thread,
    with its own children [Ew] and its own record of what it did.  The
    run given is the longest the thread can make; the process may end
    first. *)
Definition started_watcher (Em Ew : Env) (args : Args (option (list string))) (w : World)
    : option (Result unit * World) :=
  match parse_mysql_args_from_command_line Em args w with
  | (Ok args, w1) =>
      let args := add_extra_args args in
      match pre_backup Em args w1 with
      | (Ok _, w2) => Some (check_hung Ew args (mkWorld (fs w2) [] [] []))
      | _ => None
      end
  | _ => None
  end.

(** How the interpreter ends: with the status of the main thread.  An
    exception that leaves the target of a [threading.Thread], [SystemExit]
    included, ends that thread only, and a daemon thread does not keep
    the process alive. *)
Definition process_status {A B} (main_thread : Result A)
    (daemon_thread : option (Result B)) : option Z :=
  exit_status main_thread.

(** ** The server side of a poll *)

(** A row of [information_schema.processlist]: ID, USER and INFO (the
    statement being executed, [None] for NULL). *)
Record Session := mkSession { sid : N; suser : string; sinfo : option string }.

(** The statement the polling query compares INFO with. *)
Definition lock_statement : string := "FLUSH TABLES WITH READ LOCK".

(** How the client prints an ID with [--skip-column-names]. *)
Definition id_text (n : N) : string := NilEmpty.string_of_uint (N.to_uint n).

Section Server.

(** The server compares strings under its collation. *)
Variable sql_eq : string → string → bool.

(** The [where] clause of the polling query for user [u]. *)
Definition runs_lock_statement (u : string) (s : Session) : bool :=
  match sinfo s with
  | Some q => sql_eq q lock_statement
  | None => false
  end && sql_eq (suser s) u.

(** The IDs the query selects, and what the client prints: one ID per
    line. *)
Definition reported_ids (u : string) (pl : list Session) : list string :=
  map (λ s, id_text (sid s)) (List.filter (runs_lock_statement u) pl).

Definition poll_output (u : string) (pl : list Session) : string :=
  foldr (λ t acc, t +:+ Py.NL +:+ acc) "" (reported_ids u pl).

End Server.

(** ** The shell *)

(** What the shell started by [delegator.run] makes of the references
    [$name] in a command line when the environment gives [name] the
    value [value]; [skip] characters of a reference just replaced are
    still to be passed over. *)
Fixpoint shell_expand (name value : string) (skip : nat) (s : string) : string :=
  match s with
  | EmptyString => EmptyString
  | String a s' =>
      match skip with
      | S k => shell_expand name value k s'
      | O =>
          if String.prefix ("$" +:+ name) s
          then value +:+ shell_expand name value (String.length name) s'
          else String a (shell_expand name value 0 s')
      end
  end.

(** ** Vocabulary of the statements *)

(** [c in s]. *)
Fixpoint has_char (c : ascii) (s : string) : bool :=
  match s with
  | EmptyString => false
  | String a s' => Ascii.eqb a c || has_char c s'
  end.

(** The pure part of [get_connect_args]. *)
Definition connect_args_of (args : Args string) : string :=
  (if Py.truthy (config args) then " --defaults-file=" +:+ Py.fmt (config args) else "") +:+
  (if Py.truthy (socket args) then " --socket=" +:+ Py.fmt (socket args) else "") +:+
  (if Py.truthy (login_path args) then " --login-path=" +:+ Py.fmt (login_path args)
   else " --host=" +:+ host args +:+ " --port=" +:+ Py.str (port args) +:+ " --user=" +:+ user args).

(** The command line [process_backup] has put together before the
    tool-specific text is appended (lines 412 and 454-455). *)
Definition base_command (args : Args string) : string :=
  tool_name (tool args) +:+ " " +:+ connect_args_of args +:+ " " +:+ extra args +:+
  (if bool_decide (tool args = Xtrabackup) && negb (Py.truthy (login_path args))
   then " --password=$MYSQL_PWD" else "").

(** The poll as [delegator.run] sees it. *)
Definition poll_cmd (args : Args string) (ca : string) : Cmd :=
  mkCmd (hang_query args ca) (Some (password args)).

(** The kill of thread [t] as [delegator.run] sees it. *)
Definition kill_cmd (args : Args string) (ca t : string) : Cmd :=
  mkCmd (kill_command_fill ca (extra args) t) (Some (password args)).

(** The error the executor logs for a failed child (line 472). *)
Definition failure_message (args : Args string) : string :=
  "Could not process backup for mysql server: " +:+ host args +:+ ":" +:+ Py.str (port args) +:+ ".".

(** The database flag of the two dump tools. *)
Definition database_flag (t : Tool) : string :=
  match t with
  | Mysqldump => " --databases "
  | Mysqlpump => " --include-databases "
  | _ => ""
  end.

Global Instance Cmd_eq_dec : EqDecision Cmd.
Proof. solve_decision. Defined.

(** How often the command [c] occurs in [cs]. *)
Definition occurrences (c : Cmd) (cs : list Cmd) : nat :=
  length (filter (λ c', c' = c) cs).

(** What one effectful step leaves alone. *)
Definition quiet {A} (m : M A) : Prop :=
  ∀ w, slept (m w).2 = slept w ∧ (m w).1 ≠ Fuel.

(** [m] only adds commands that satisfy [P]. *)
Definition runs_only (P : Cmd → Prop) {A} (m : M A) : Prop :=
  ∀ w, ∃ cs, ran (m w).2 = ran w ++ cs ∧ Forall P cs.

(** A step that only writes log records and whose outcome does not depend
    on the world. *)
Definition logs_only {A} (m : M A) : Prop :=
  (∀ w, fs (m w).2 = fs w ∧ ran (m w).2 = ran w ∧ slept (m w).2 = slept w) ∧
  (∀ w w', (m w).1 = (m w').1).

(** Two calls of [delegator.run] that differ at most in the password
    they put into the environment. *)
Definition cmd_rel (p1 p2 : string) (c1 c2 : Cmd) : Prop :=
  cmd_line c1 = cmd_line c2 ∧
  ((cmd_env c1 = None ∧ cmd_env c2 = None) ∨
   (cmd_env c1 = Some p1 ∧ cmd_env c2 = Some p2)).

(** Two outcomes of the same kind, with results related by [R]. *)
Inductive same_result {A} (R : A → A → Prop) : Result A → Result A → Prop :=
| same_ok a b : R a b → same_result R (Ok a) (Ok b)
| same_raised e : same_result R (Raised e) (Raised e)
| same_fuel : same_result R Fuel Fuel.

(** From worlds with the same files and equally many children so far,
    [m1] and [m2] write the same log records, sleep alike, leave the
    same files, run commands related by [cmd_rel] and end alike. *)
Definition simulates (p1 p2 : string) {A} (R : A → A → Prop) (m1 m2 : M A) : Prop :=
  ∀ w1 w2, fs w1 = fs w2 → length (ran w1) = length (ran w2) →
    ∃ cs1 cs2 l s,
      ran (m1 w1).2 = ran w1 ++ cs1 ∧ ran (m2 w2).2 = ran w2 ++ cs2 ∧
      Forall2 (cmd_rel p1 p2) cs1 cs2 ∧
      log (m1 w1).2 = log w1 ++ l ∧ log (m2 w2).2 = log w2 ++ l ∧
      slept (m1 w1).2 = slept w1 ++ s ∧ slept (m2 w2).2 = slept w2 ++ s ∧
      fs (m1 w1).2 = fs (m2 w2).2 ∧
      same_result R (m1 w1).1 (m2 w2).1.

(** Two namespaces that differ at most in the password. *)
Definition pw_rel (p1 p2 : string) {X} (a b : Args X) : Prop :=
  password a = p1 ∧ b = set_password a p2.

(** A run does not depend on the password: with another password, and
    children that end as before, it runs the same command lines, each
    with no [MYSQL_PWD] or with the password of the run as [MYSQL_PWD],
    writes the same log records, leaves the same files and ends with the
    same status. *)
Definition password_blind {X A} (run : Args X → M A) : Prop :=
  ∀ args p w,
    ∃ cs cs',
      ran (run args w).2 = ran w ++ cs ∧
      ran (run (set_password args p) w).2 = ran w ++ cs' ∧
      map cmd_line cs' = map cmd_line cs ∧
      Forall (λ c, cmd_env c = None ∨ cmd_env c = Some (password args)) cs ∧
      Forall (λ c, cmd_env c = None ∨ cmd_env c = Some p) cs' ∧
      log (run (set_password args p) w).2 = log (run args w).2 ∧
      fs (run (set_password args p) w).2 = fs (run args w).2 ∧
      slept (run (set_password args p) w).2 = slept (run args w).2 ∧
      exit_status (run (set_password args p) w).1 = exit_status (run args w).1.

(** The lookup [check_command] runs for [name]. *)
Definition lookup_cmd (E : Env) (name : string) : Cmd :=
  mkCmd ((if windows E then "where " else "which ") +:+ name) None.

(** The process-table scan of [pre_backup] (lines 307-311). *)
Definition scan_command (E : Env) (args : Args string) : string :=
  let program := tool_name (tool args) +:+ " " +:+ connect_args_of args +:+ " " +:+ extra args in
  if windows E then "tasklist -v | findstr %" +:+ program +:+ "%"
  else "ps -ef | grep -v grep | grep -E '" +:+ program.

(** The two commands of [config_login_path]: the check (or, with
    [--reset], the removal) and the [set] that follows. *)
Definition login_check_cmd (args : Args string) : Cmd :=
  mkCmd
    (if negb (reset args) then
       Py.flat (Py.NL +:+
         "                    mysql_config_editor print -G " +:+ Py.fmt (login_path args) +:+ " | grep password" +:+ Py.NL +:+
         "                ")
     else
       Py.flat (Py.NL +:+
         "                    mysql_config_editor remove -G " +:+ Py.fmt (login_path args) +:+ Py.NL +:+
         "                "))
    None.

Definition login_set_cmd (args : Args string) : Cmd :=
  mkCmd
    (Py.flat (Py.NL +:+
       "                    mysql_config_editor set --login-path=" +:+ Py.fmt (login_path args) +:+ " --host=" +:+ host args +:+ " --password " +:+ Py.NL +:+
       "                    --user=" +:+ user args +:+ " --port=" +:+ Py.str (port args) +:+ Py.NL +:+
       "                ") +:+
     (if Py.truthy (socket args) then " --socket=" +:+ Py.fmt (socket args) else ""))
    None.

(** The table flag of each tool. *)
Definition table_flag (t : Tool) : string :=
  match t with
  | Mysqldump => " --tables "
  | Mysqlpump => " --include-tables "
  | Mydumper => " --tables-list "
  | Xtrabackup => ""
  end.

(** How often [c] occurs in [s]. *)
Fixpoint count_char (c : ascii) (s : string) : nat :=
  match s with
  | EmptyString => O
  | String a s' => ((if Ascii.eqb a c then 1 else 0) + count_char c s')%nat
  end.

(** How [k] children in a row end, the first being the [n]-th child of
    its thread, started on the files [o]. *)
Fixpoint children (E : Env) (n : nat) (o : gset string) (k : nat) : list ShOutcome :=
  match k with
  | O => []
  | S k' => (sh E n o).1 :: children E (S n) (sh E n o).2 k'
  end.

(** No child is ever interrupted. *)
Definition no_interrupt (E : Env) : Prop :=
  ∀ n o, (sh E n o).1 ≠ Interrupted.

(** [m] only adds log records that satisfy [P]. *)
Definition logs_with (P : Level * string → Prop) {A} (m : M A) : Prop :=
  ∀ w, ∃ l, log (m w).2 = log w ++ l ∧ Forall P l.

(** Whenever [m] ends with [sys.exit], the code is [code]. *)
Definition exits_with (code : Z) {A} (m : M A) : Prop :=
  ∀ w, match (m w).1 with
       | Raised (SystemExit c) => c = code
       | Fuel => False
       | _ => True
       end.

(** Whenever [m] returns, it has run the command [c] [n] more times. *)
Definition counts (c : Cmd) (n : nat) {A} (m : M A) : Prop :=
  ∀ w, match (m w).1 with
       | Ok _ => occurrences c (ran (m w).2) = (occurrences c (ran w) + n)%nat
       | _ => True
       end.

(** [p.rmdir()] succeeds on the files [o]: [p] exists and nothing lives
    below it. *)
Definition removable (p : string) (o : gset string) : Prop :=
  p ∈ o ∧ ∀ q, q ∈ o → String.prefix (p +:+ "/") q = false.

(** A log record below or above the warning level. *)
Definition not_a_warning (e : Level * string) : Prop := e.1 ≠ Warning.

(** The one warning the main thread can log, and when. *)
Definition default_name_warning {X} (args : Args X) (e : Level * string) : Prop :=
  e.1 = Warning →
  e = (Warning, incremental_warning) ∧
  backup_file args = "" ∧ tool args = Xtrabackup ∧ incremental args = true.

(** What the watcher may run. *)
Definition watcher_command (args : Args string) (c : Cmd) : Prop :=
  (Py.truthy (login_path args) = true ∧
   (c = login_check_cmd args ∨ c = login_set_cmd args)) ∨
  c = poll_cmd args (connect_args_of args) ∨
  ∃ t, c = kill_cmd args (connect_args_of args) t.

(** ** Inputs of the examples *)

(** Nothing exists, nothing has happened. *)
Definition fresh : World := mkWorld ∅ [] [] [].

(** mysqldump of every database of the local server. *)
Definition dump_args : Args string :=
  mkArgs "localhost" 3306 None "root" "s3cret" None [] [] None Mysqldump
    "/data/backups/mysql3306" "/data/backups/mysql3306/all.sql.lz4"
    "/opt/mysqlbackup/logs/process_mysql_backup.log" "" false false false 3 false false.

(** [args.tool = t]. *)
Definition with_tool {X} (a : Args X) (t : Tool) : Args X :=
  mkArgs (host a) (port a) (socket a) (user a) (password a) (login_path a)
    (databases a) (tables a) (config a) t (backup_dir a)
    (backup_file a) (backup_log a) (extra a) (incremental a) (just_insert a)
    (no_data a) (threads a) (debug a) (reset a).

(** The same with xtrabackup, and with the incremental flag. *)
Definition xbk_args : Args string :=
  set_backup_file (with_tool dump_args Xtrabackup) "/data/backups/mysql3306/full.xb".

Definition xbk_inc : Args string :=
  mkArgs "localhost" 3306 None "root" "s3cret" None [] [] None Xtrabackup
    "/data/backups/mysql3306" "/data/backups/mysql3306/inc.xb"
    "/opt/mysqlbackup/logs/process_mysql_backup.log" "" true false false 3 false false.

(** mydumper of the database [shop]. *)
Definition dumper_shop : Args string :=
  set_filters (set_backup_file (with_tool dump_args Mydumper) "/data/backups/mysql3306/shop.stream") ["shop"] [].

(** The namespace as option parsing leaves it for the tool [t], with
    [--inc] when [inc] and with [--backup-file file] unless [file] is
    empty. *)
Definition parsed (t : Tool) (inc : bool) (file : string) : Args (option (list string)) :=
  mkArgs "localhost" 3306 None "root" "s3cret" None [] [] None t
    "/data/backups/mysql3306" file "process_mysql_backup.log" None inc false false 3 false false.

(** The checkpoint file of an earlier xtrabackup run, and a world in
    which it exists. *)
Definition checkpoints : string := "/data/backups/mysql3306/history/xtrabackup_checkpoints".

Definition after_full_backup : World := mkWorld {[checkpoints]} [] [] [].

(** Every child succeeds, except that the process-table scan, the
    [ps]-th child of the main thread, finds nothing. *)
Definition quiet_server (ps : nat) : Env :=
  mkEnv false "/root" "/opt/mysqlbackup" "20241226_010203"
    (λ n o, (Done (mkResp (if (n =? ps)%nat then 1 else 0) "" ""), o)).

(** A child that fails after it has created the output file. *)
Definition failing_env : Env :=
  mkEnv false "/root" "/opt/mysqlbackup" "20241226_010203"
    (λ n o, (Done (mkResp 1 "" "mysqldump: Got error: 2002"), o ∪ {[backup_file dump_args]})).

(** [grep to_lsn ... | sed ...] over a checkpoint file with the line
    [to_lsn = 12345] prints [12345] and a newline; it is the first child
    of [process_backup], the backup itself the second. *)
Definition lsn_server : Env :=
  mkEnv false "/root" "/opt/mysqlbackup" "20241226_010203"
    (λ n o, (Done (mkResp 0 (if (n =? 0)%nat then "12345" +:+ Py.NL else "") ""), o)).

(** A server the watcher cannot reach: its polls fail. *)
Definition unreachable_server : Env :=
  mkEnv false "/root" "/opt/mysqlbackup" "20241226_010203"
    (λ n o, (Done (mkResp 1 "" "ERROR 2002 (HY000): Can't connect to local MySQL server"), o)).

(** A process list with the backup session stuck on the lock statement
    and one unrelated session. *)
Definition two_sessions : list Session :=
  [mkSession 11 "root" (Some lock_statement);
   mkSession 12 "app" (Some "select sleep(60)")].

(** A server that answers the first poll from [pl]; every child
    succeeds. *)
Definition polled_env (pl : list Session) : Env :=
  mkEnv false "/root" "/opt/mysqlbackup" "20241226_010203"
    (λ n o, (Done (mkResp 0 (if (n =? 0)%nat then poll_output String.eqb "root" pl else "") ""), o)).

(** * Properties *)

Example split_trailing : Py.split Py.nl ("12" +:+ Py.NL +:+ "13" +:+ Py.NL) = ["12"; "13"; ""].
Proof. reflexivity. Qed.

Example split_empty : Py.split Py.nl "" = [""].
Proof. reflexivity. Qed.

Example str_port : Py.str 3306 = "3306" ∧ Py.str 0 = "0" ∧ Py.str (-7) = "-7".
Proof. repeat split; reflexivity. Qed.

(** ** Facts about the string operations *)

Section Strings.

Implicit Types s t u : string.

Lemma app_cons a s t : String a s +:+ t = String a (s +:+ t).
Proof. reflexivity. Qed.

Lemma app_empty_l s : "" +:+ s = s.
Proof. reflexivity. Qed.

Lemma app_empty_r s : s +:+ "" = s.
Proof. induction s as [|a s IH]; [done|]. by rewrite app_cons, IH. Qed.

Lemma app_assoc_s s t u : (s +:+ t) +:+ u = s +:+ t +:+ u.
Proof. induction s as [|a s IH]; [done|]. by rewrite !app_cons, IH. Qed.

Lemma replace_app c d s t :
  Py.replace c d (s +:+ t) = Py.replace c d s +:+ Py.replace c d t.
Proof.
  induction s as [|a s IH]; [done|].
  rewrite app_cons. simpl. by rewrite IH, app_cons.
Qed.

Lemma flat_app s t : Py.flat (s +:+ t) = Py.flat s +:+ Py.flat t.
Proof. apply replace_app. Qed.

Lemma prefix_app s t : String.prefix s (s +:+ t) = true.
Proof.
  induction s as [|a s IH]; [by destruct t|].
  rewrite app_cons. simpl. destruct (ascii_dec a a); [done|congruence].
Qed.

Lemma prefix_split s t : String.prefix s t = true → ∃ u, t = s +:+ u.
Proof.
  revert t. induction s as [|a s IH]; intros t H.
  - by exists t.
  - destruct t as [|b t]; [done|]. simpl in H.
    destruct (ascii_dec a b) as [->|]; [|done].
    destruct (IH _ H) as [u ->]. by exists u.
Qed.

(** [Py.contains] decides [occurs_in]. *)
Lemma contains_spec s t : Py.contains s t = true ↔ occurs_in s t.
Proof.
  split.
  - induction t as [|b t IH]; cbn [Py.contains]; intros H.
    + apply orb_true_iff in H as [H|H]; [|done].
      apply prefix_split in H as [u ->]. by exists "", u.
    + apply orb_true_iff in H as [H|H].
      * apply prefix_split in H as [u ->]. by exists "", u.
      * destruct (IH H) as (pre & post & ->). by exists (String b pre), post.
  - intros (pre & post & ->). induction pre as [|b pre IH].
    + rewrite app_empty_l.
      destruct (s +:+ post) eqn:Heq; cbn [Py.contains]; rewrite <- ?Heq;
        by rewrite prefix_app.
    + rewrite app_cons. cbn [Py.contains]. rewrite IH. apply orb_true_r.
Qed.

Lemma occurs_in_app_r s pre t : occurs_in s t → occurs_in s (pre +:+ t).
Proof.
  intros (p & q & ->). exists (pre +:+ p), q. by rewrite app_assoc_s.
Qed.

Lemma occurs_in_app_l s t post : occurs_in s t → occurs_in s (t +:+ post).
Proof.
  intros (p & q & ->). exists p, (q +:+ post). by rewrite !app_assoc_s.
Qed.

Lemma occurs_in_part s t u : occurs_in s t → occurs_in t u → occurs_in s u.
Proof.
  intros H (p & q & ->). by apply occurs_in_app_r, occurs_in_app_l.
Qed.

Lemma app_not_self s a t : s +:+ String a t ≠ s.
Proof.
  induction s as [|b s IH]; [done|]. rewrite app_cons. intros H. injection H as H. auto.
Qed.

End Strings.

(** ** Extra arguments *)

(** What [add_extra_args] appends after the joined list. *)
Lemma add_extra_args_shape (args : Args (list string)) :
  ∃ added,
    (∀ l, extra (add_extra_args (set_extra args l)) = Py.join "" l +:+ added) ∧
    (added = "" ∨ ∃ t, added = " --" +:+ t).
Proof.
  destruct args as [? ? ? ? ? ? ? ? ? tl ? ? ? ex ? ji nd ? ? ?].
  unfold add_extra_args; cbn [tool just_insert no_data extra set_extra].
  destruct tl, ji, nd; cbn [andb];
    repeat match goal with
    | |- context [bool_decide ?P] =>
        let b := eval vm_compute in (bool_decide P) in
        change (bool_decide P) with b; cbv iota
    end;
    eexists; (split; [intros l; rewrite ?app_assoc_s; try reflexivity;
                      symmetry; apply app_empty_r
                     |first [by left | right; eexists; reflexivity]]).
Qed.


Example add_extra_args_merges_flags :
  extra (add_extra_args
    (mkArgs "localhost" 3306 None "root" "" None [] [] None Mysqldump
       "/data/backups/mysql3306" "/data/backups/mysql3306/a.sql.lz4" "backup.log"
       ["--quick"; "--compact"] false false true 3 false false))
  = "--quick--compact --no-data --skip-lock-tables --skip-add-drop-database --skip-add-drop-table --skip-add-drop-trigger".
Proof. reflexivity. Qed.

(** ** Lines of the poll output *)

Section Lines.

Implicit Types s t : string.

Lemma split_line c s t :
  has_char c s = false → Py.split c (s +:+ String c t) = s :: Py.split c t.
Proof.
  induction s as [|a s IH]; intros H.
  - rewrite app_empty_l. simpl. by rewrite Ascii.eqb_refl.
  - simpl in H. apply orb_false_iff in H as [Ha Hs].
    rewrite app_cons. simpl. by rewrite Ha, (IH Hs).
Qed.

Lemma split_lines c (l : list string) :
  Forall (λ s, has_char c s = false) l →
  Py.split c (foldr (λ t acc, t +:+ String c "" +:+ acc) "" l) = l ++ [""].
Proof.
  induction 1 as [|s l Hs _ IH]; [done|].
  cbn [foldr]. rewrite app_cons, app_empty_l, (split_line c s _ Hs).
  by rewrite IH.
Qed.

Lemma remove_last_empty (l : list string) :
  Forall (λ s, s ≠ "") l → Py.remove "" (l ++ [""]) = Some l.
Proof.
  induction 1 as [|s l Hs _ IH]; [done|].
  cbn [app Py.remove]. apply String.eqb_neq in Hs. by rewrite Hs, IH.
Qed.

Lemma digits_no_newline d : has_char Py.nl (NilEmpty.string_of_uint d) = false.
Proof. induction d; simpl; auto. Qed.

Lemma id_text_no_newline n : has_char Py.nl (id_text n) = false.
Proof. apply digits_no_newline. Qed.

Lemma id_text_inj n m : id_text n = id_text m → n = m.
Proof.
  unfold id_text. intros H. apply DecimalN.Unsigned.to_uint_inj.
  apply (f_equal NilEmpty.uint_of_string) in H.
  rewrite !NilEmpty.usu in H. congruence.
Qed.

Lemma id_text_nonempty n : id_text n ≠ "".
Proof.
  intros H. destruct n as [|p]; [discriminate H|].
  unfold id_text in H. simpl in H.
  apply (f_equal NilEmpty.uint_of_string) in H.
  rewrite NilEmpty.usu in H. simpl in H.
  injection H as H. by apply DecimalPos.Unsigned.to_uint_nonnil in H.
Qed.

End Lines.

(** ** The hang watcher *)

Ltac munfold :=
  unfold mbind, M_bind, mret, M_ret, when, debug_log, logger, run, sleep,
    sys_exit, raise in *.

Lemma kill_thread_ran E args ca t w :
  ran (kill_thread E args ca t w).2 = ran w ++ [kill_cmd args ca t] ∧
  ((kill_thread E args ca t w).1 = Ok () ∨
   (kill_thread E args ca t w).1 = Raised KeyboardInterrupt).
Proof.
  unfold kill_thread. munfold.
  destruct (debug args); cbn;
  destruct (sh E _ _) as [[r|] o]; cbn; try destruct (return_code r =? 0); cbn; auto.
Qed.

Lemma for_each_kill_ran E args ca ids w :
  ∃ kills,
    kills `prefix_of` ids ∧
    ran (for_each ids (kill_thread E args ca) w).2 = ran w ++ map (kill_cmd args ca) kills ∧
    ((for_each ids (kill_thread E args ca) w).1 = Ok () → kills = ids).
Proof.
  revert w. induction ids as [|t ids IH]; intros w.
  - exists []. cbn. by rewrite app_nil_r.
  - cbn [for_each]. unfold mbind, M_bind.
    destruct (kill_thread_ran E args ca t w) as [Hran Hres].
    destruct (kill_thread E args ca t w) as [r w1]. cbn in Hran, Hres.
    destruct Hres as [-> | ->].
    + destruct (IH w1) as (kills & Hpre & Hk & Hok).
      exists (t :: kills). split; [by apply prefix_cons|].
      split; [|intros H; f_equal; auto].
      rewrite Hk, Hran. cbn. by rewrite <- app_assoc.
    + exists [t]. split; [apply prefix_cons, prefix_nil|]. by split.
Qed.

Lemma check_hung_body_ran E args ca cc i w :
  ∃ kills,
    ran (check_hung_body E args ca cc i w).2
      = ran w ++ mkCmd cc (Some (password args)) :: map (kill_cmd args ca) kills ∧
    (kills = [] ∨
     ∃ resp o ids,
       sh E (length (ran w)) (fs w) = (Done resp, o) ∧ return_code resp = 0 ∧ 3 < i ∧
       Py.remove "" (Py.split Py.nl (out resp)) = Some ids ∧
       kills `prefix_of` ids ∧
       ((check_hung_body E args ca cc i w).1 = Ok () → kills = ids)) ∧
    ((check_hung_body E args ca cc i w).1 = Ok () → 3 < i →
     ∃ resp o,
       sh E (length (ran w)) (fs w) = (Done resp, o) ∧ return_code resp = 0 ∧
       Py.remove "" (Py.split Py.nl (out resp)) = Some kills).
Proof.
  unfold check_hung_body, thread_ids_of.
  munfold. destruct (debug args); cbn;
  (destruct (sh E (length (ran w)) (fs w)) as [[resp|] o] eqn:Hsh; cbn;
   [|exists []; split; [done|split; [by left|done]]]);
  (destruct (Z.eqb_spec (return_code resp) 0) as [Hrc|Hrc];
   destruct (Z.ltb_spec 3 i) as [Hi|Hi]; cbn;
   try (exists []; split; [done|split; [by left|intros; try lia; done]]));
  (destruct (Py.remove "" (Py.split Py.nl (out resp))) as [ids|] eqn:Hids; cbn;
   [|exists []; split; [done|split; [by left|done]]]);
  destruct (nonempty ids); cbn;
  match goal with
  | |- context [for_each ids _ ?w1] =>
      destruct (for_each_kill_ran E args ca ids w1) as (kills & Hpre & Hk & Hok)
  end;
  exists kills; rewrite Hk; cbn; rewrite <- app_assoc; cbn;
  (split; [done|split; [right; by exists resp, o, ids|]]);
  intros Hr _; exists resp, o; by rewrite (Hok Hr).
Qed.

Lemma poll_output_lines sql_eq u pl :
  Py.remove "" (Py.split Py.nl (poll_output sql_eq u pl)) = Some (reported_ids sql_eq u pl).
Proof.
  unfold poll_output. rewrite split_lines, remove_last_empty; [done|..];
    unfold reported_ids; apply Forall_map, Forall_forall; intros s _.
  - apply id_text_nonempty.
  - apply id_text_no_newline.
Qed.

Lemma reported_ids_sessions sql_eq u pl t :
  t ∈ reported_ids sql_eq u pl →
  ∃ s, s ∈ pl ∧ t = id_text (sid s) ∧ runs_lock_statement sql_eq u s = true.
Proof.
  unfold reported_ids. intros (s & -> & Hs)%list_elem_of_fmap.
  apply list_elem_of_In, filter_In in Hs as [Hs Hm].
  apply list_elem_of_In in Hs. eauto.
Qed.

Lemma session_of_id (pl : list Session) s s' :
  NoDup (map sid pl) → s ∈ pl → s' ∈ pl → sid s = sid s' → s = s'.
Proof.
  induction pl as [|x pl IH]; intros Hnd Hs Hs' Heq; [by apply elem_of_nil in Hs|].
  cbn in Hnd. apply NoDup_cons in Hnd as [Hx Hnd].
  apply elem_of_cons in Hs as [->|Hs]; apply elem_of_cons in Hs' as [->|Hs']; auto.
  - exfalso. apply Hx. rewrite Heq. by apply list_elem_of_fmap_2.
  - exfalso. apply Hx. rewrite <- Heq. by apply list_elem_of_fmap_2.
Qed.


(** The scenario of the specification: of the two sessions only the one
    in the lock statement is killed. *)
Example watcher_scenario :
  let ca := " --host=localhost --port=3306 --user=root" in
  ran (check_hung_body (polled_env two_sessions) dump_args ca (hang_query dump_args ca) 4 fresh).2
  = [mkCmd (hang_query dump_args ca) (Some "s3cret"); kill_cmd dump_args ca "11"].
Proof. vm_compute. reflexivity. Qed.


(** ** Termination and bound of the watcher *)

Lemma kill_not_poll args ca ex t : kill_command_fill ca ex t ≠ hang_query args ca.
Proof.
  intros H. apply (f_equal (String.get 9)) in H. vm_compute in H. discriminate H.
Qed.

Lemma quiet_bind {A B} (m : M A) (f : A → M B) :
  quiet m → (∀ a, quiet (f a)) → quiet (m ≫= f).
Proof.
  intros Hm Hf w. unfold mbind, M_bind. destruct (Hm w) as [Hs Hr].
  destruct (m w) as [[a| |] w1]; cbn in *; [|done..].
  destruct (Hf a w1) as [Hs' Hr']. by rewrite Hs', Hs.
Qed.

Lemma quiet_ret {A} (a : A) : quiet (mret a).
Proof. done. Qed.

Lemma quiet_logger l msg : quiet (logger l msg).
Proof. done. Qed.

Lemma quiet_debug_log d msg : quiet (debug_log d msg).
Proof. by destruct d. Qed.

Lemma quiet_run E c env : quiet (run E c env).
Proof. intros w. unfold run. by destruct (sh E _ _) as [[r|] o]. Qed.

Lemma quiet_raise {A} e : quiet (raise (A:=A) e).
Proof. done. Qed.

Lemma quiet_when b m : quiet m → quiet (when b m).
Proof. by destruct b. Qed.

Lemma quiet_for_each {A} (l : list A) body :
  (∀ x, quiet (body x)) → quiet (for_each l body).
Proof.
  intros Hb. induction l as [|x l IH]; [done|].
  cbn [for_each]. apply quiet_bind; auto.
Qed.

Create HintDb quiet.
#[local] Hint Resolve quiet_ret quiet_logger quiet_debug_log quiet_run quiet_raise
  quiet_when quiet_for_each : quiet.
#[local] Hint Extern 1 (quiet (_ ≫= _)) => apply quiet_bind; [|intros] : quiet.
#[local] Hint Extern 1 (quiet (if ?b then _ else _)) => destruct b : quiet.
#[local] Hint Extern 1 (quiet (match ?x with _ => _ end)) => destruct x : quiet.

Lemma quiet_kill_thread E args ca t : quiet (kill_thread E args ca t).
Proof. unfold kill_thread. auto 10 with quiet. Qed.

Lemma quiet_check_hung_body E args ca cc i : quiet (check_hung_body E args ca cc i).
Proof.
  unfold check_hung_body, thread_ids_of, sys_exit.
  pose proof (quiet_kill_thread E args ca). auto 12 with quiet.
Qed.

Lemma quiet_config_login_path E args : quiet (config_login_path E args).
Proof. unfold config_login_path. auto 12 with quiet. Qed.

Lemma quiet_get_connect_args E args : quiet (get_connect_args E args).
Proof.
  unfold get_connect_args. pose proof (quiet_config_login_path E args).
  auto 12 with quiet.
Qed.

Lemma occurrences_app c cs cs' :
  occurrences c (cs ++ cs') = (occurrences c cs + occurrences c cs')%nat.
Proof. unfold occurrences. by rewrite filter_app, length_app. Qed.

Lemma occurrences_none c cs : Forall (λ c', c' ≠ c) cs → occurrences c cs = 0%nat.
Proof.
  unfold occurrences. induction 1 as [|c' cs Hc _ IH]; [done|].
  by rewrite filter_cons_False.
Qed.

Section RunsOnly.
Context (P : Cmd → Prop).

Lemma runs_only_bind {A B} (m : M A) (f : A → M B) :
  runs_only P m → (∀ a, runs_only P (f a)) → runs_only P (m ≫= f).
Proof.
  intros Hm Hf w. unfold mbind, M_bind. destruct (Hm w) as (cs & Hcs & HP).
  destruct (m w) as [[a| |] w1]; cbn in *; eauto.
  destruct (Hf a w1) as (cs' & Hcs' & HP'). exists (cs ++ cs').
  rewrite Hcs', Hcs, app_assoc. split; [done|]. by apply Forall_app.
Qed.

Lemma runs_only_pure {A} (m : M A) :
  (∀ w, ran (m w).2 = ran w) → runs_only P m.
Proof. intros H w. exists []. by rewrite app_nil_r. Qed.

Lemma runs_only_run E c env : P (mkCmd c env) → runs_only P (run E c env).
Proof.
  intros H w. exists [mkCmd c env]. unfold run.
  destruct (sh E _ _) as [[r|] o]; cbn; auto.
Qed.

Lemma runs_only_when b m : runs_only P m → runs_only P (when b m).
Proof. destruct b; [done|]. intros _. by apply runs_only_pure. Qed.

End RunsOnly.

Create HintDb runs.
#[local] Hint Resolve runs_only_run runs_only_when : runs.
#[local] Hint Extern 1 (runs_only _ (_ ≫= _)) => apply runs_only_bind; [|intros] : runs.
#[local] Hint Extern 1 (runs_only _ (if ?b then _ else _)) => destruct b : runs.
#[local] Hint Extern 2 (runs_only _ _) => apply runs_only_pure; intros; reflexivity : runs.
#[local] Hint Extern 2 (runs_only _ (debug_log ?d _)) =>
  apply runs_only_pure; intros; destruct d; reflexivity : runs.

Lemma config_login_path_runs E args :
  runs_only (λ c, cmd_env c = None) (config_login_path E args).
Proof. unfold config_login_path. auto 12 with runs. Qed.

Lemma get_connect_args_runs E args :
  runs_only (λ c, cmd_env c = None) (get_connect_args E args).
Proof.
  unfold get_connect_args. pose proof (config_login_path_runs E args).
  auto 12 with runs.
Qed.

Lemma get_connect_args_value E args w ca :
  (get_connect_args E args w).1 = Ok ca → ca = connect_args_of args.
Proof.
  unfold get_connect_args, connect_args_of.
  destruct (Py.truthy (config args)), (Py.truthy (socket args)),
    (Py.truthy (login_path args)); cbn;
    unfold mbind, M_bind, mret, M_ret;
    try destruct (config_login_path E args w) as [[[]| |] w1]; cbn;
    intros H; try discriminate H; injection H as <-;
    rewrite ?app_empty_l, ?app_assoc_s; reflexivity.
Qed.

Lemma kill_cmd_not_poll args ca t : kill_cmd args ca t ≠ poll_cmd args ca.
Proof.
  intros H. apply (f_equal cmd_line) in H. unfold kill_cmd, poll_cmd in H.
  cbn [cmd_line] in H. by apply kill_not_poll in H.
Qed.

Lemma check_hung_body_polls_once E args ca i w :
  occurrences (poll_cmd args ca) (ran (check_hung_body E args ca (hang_query args ca) i w).2)
  = S (occurrences (poll_cmd args ca) (ran w)).
Proof.
  destruct (check_hung_body_ran E args ca (hang_query args ca) i w) as (kills & -> & _).
  rewrite occurrences_app. change (mkCmd _ _ :: ?l) with ([poll_cmd args ca] ++ l).
  rewrite occurrences_app, (occurrences_none _ (map _ _)).
  - unfold occurrences at 2. rewrite filter_cons_True by done. cbn. lia.
  - apply Forall_map, Forall_forall. intros t _. apply kill_cmd_not_poll.
Qed.

Lemma check_hung_loop_bounded E args ca fuel : ∀ i w,
  180 - i ≤ Z.of_nat fuel →
  let rw := check_hung_loop E args ca (hang_query args ca) fuel i w in
  rw.1 ≠ Fuel ∧
  ∃ polls sleeps : nat,
    occurrences (poll_cmd args ca) (ran rw.2)
      = (occurrences (poll_cmd args ca) (ran w) + polls)%nat ∧
    slept rw.2 = slept w ++ replicate sleeps 1 ∧
    (sleeps ≤ polls)%nat ∧ Z.of_nat polls ≤ Z.max 0 (180 - i) ∧
    (rw.1 = Ok () → Z.of_nat polls = Z.max 0 (180 - i) ∧ sleeps = polls).
Proof.
  induction fuel as [|fuel IH]; intros i w Hfuel; cbn [check_hung_loop].
  - destruct (Z.ltb_spec i 180) as [Hi|Hi]; [lia|].
    cbn. split; [done|]. exists 0%nat, 0%nat. rewrite app_nil_r. repeat split; lia.
  - destruct (Z.ltb_spec i 180) as [Hi|Hi].
    2:{ cbn. split; [done|]. exists 0%nat, 0%nat. rewrite app_nil_r. repeat split; lia. }
    unfold mbind, M_bind.
    pose proof (check_hung_body_polls_once E args ca i w) as Hp.
    destruct (quiet_check_hung_body E args ca (hang_query args ca) i w) as [Hs Hf].
    destruct (check_hung_body E args ca (hang_query args ca) i w) as [[[]|e|] w1];
      cbn in Hp, Hs, Hf |- *; [| |done].
    + specialize (IH (i + 1) (mkWorld (fs w1) (log w1) (ran w1) (slept w1 ++ [1]))).
      destruct IH as (HF & n & sl & Hn & Hsl & Hle & Hmax & Hok); [lia|].
      cbn [ran slept] in Hn, Hsl. unfold sleep. cbn. split; [done|].
      exists (S n), (S sl). rewrite <- Hs, Hn, Hp, Hsl, <- app_assoc. cbn.
      split; [lia|split; [done|split; [lia|split; [lia|]]]].
      intros Hr. specialize (Hok Hr). lia.
    + split; [done|]. exists 1%nat, 0%nat. rewrite Hp, Hs, app_nil_r.
      split; [lia|split; [done|split; [lia|split; [lia|done]]]].
Qed.

(** C8. The watcher always ends, and within the bound: counted from the
    world it starts in, it runs the polling query fewer than 180 times
    (179 times when nothing stops it earlier), sleeps one second after
    each iteration it completes and never otherwise, and never polls
    again once the loop variable has reached the bound. *)
Theorem check_hung_bounded E args w :
  let rw := check_hung E args w in
  let poll := poll_cmd args (connect_args_of args) in
  rw.1 ≠ Fuel ∧
  ∃ polls sleeps : nat,
    occurrences poll (ran rw.2) = (occurrences poll (ran w) + polls)%nat ∧
    slept rw.2 = slept w ++ replicate sleeps 1 ∧
    (sleeps ≤ polls)%nat ∧ (polls < 180)%nat ∧
    (rw.1 = Ok () → polls = 179%nat ∧ sleeps = 179%nat).
Proof.
  cbv zeta. unfold check_hung, mbind, M_bind.
  destruct (get_connect_args_runs E args w) as (cs & Hcs & Hnone).
  destruct (quiet_get_connect_args E args w) as [Hs Hf].
  pose proof (get_connect_args_value E args w) as Hca.
  destruct (get_connect_args E args w) as [[ca|e|] w1];
    cbn -[check_hung_loop] in Hcs, Hs, Hf, Hca |- *; [| |done].
  - rewrite <- (Hca _ eq_refl). clear Hca.
    assert (Hpre : occurrences (poll_cmd args ca) (ran w1)
                   = occurrences (poll_cmd args ca) (ran w)).
    { rewrite Hcs, occurrences_app, (occurrences_none _ cs); [lia|].
      eapply Forall_impl; [exact Hnone|]. by intros c Hc ->. }
    set (w2 := (debug_log (debug args) (hang_query args ca) w1).2).
    assert (Hw2 : debug_log (debug args) (hang_query args ca) w1 = (Ok (), w2) ∧
                  ran w2 = ran w1 ∧ slept w2 = slept w1).
    { unfold w2. by destruct (debug args). }
    destruct Hw2 as (-> & Hr2 & Hs2).
    destruct (check_hung_loop_bounded E args ca 180 1 w2) as (HF & n & sl & Hn & Hsl & Hle & Hmax & Hok);
      [lia|].
    split; [done|]. exists n, sl. rewrite Hn, Hsl, Hr2, Hs2, Hpre, Hs.
    split; [done|split; [done|split; [lia|split; [lia|]]]].
    intros Hr. specialize (Hok Hr). lia.
  - split; [done|]. exists 0%nat, 0%nat. rewrite Hs, app_nil_r.
    split; [|split; [done|split; [lia|split; [lia|done]]]].
    rewrite Hcs, occurrences_app, (occurrences_none _ cs); [lia|].
    eapply Forall_impl; [exact Hnone|]. by intros c Hc ->.
Qed.

(** ** The executor *)

Lemma delete_fail_backup_file_spec {A} args w :
  let rw := delete_fail_backup_file (A:=A) args w in
  (rw.1 = Raised (SystemExit 1) ∨ rw.1 = Raised FileNotFoundError) ∧
  (backup_file args ∉ fs rw.2) ∧
  (∀ q, q ≠ backup_file args → (q ∈ fs rw.2 ↔ q ∈ fs w)) ∧
  ran rw.2 = ran w ∧
  (∀ e, e ∈ log w → e ∈ log rw.2).
Proof.
  unfold delete_fail_backup_file, unlink, path_exists. munfold. cbn.
  destruct (decide (backup_file args ∈ fs w)) as [Hin|Hout].
  - rewrite (bool_decide_eq_true_2 _ Hin). cbn.
    assert (Hgone : backup_file args ∉ fs w ∖ {[backup_file args]}).
    { rewrite elem_of_difference, elem_of_singleton. tauto. }
    rewrite (bool_decide_eq_false_2 _ Hgone). cbn.
    split; [by left|]. split; [done|].
    split; [intros q Hq; rewrite elem_of_difference, elem_of_singleton; tauto|].
    split; [done|].
    intros e He. rewrite !elem_of_app. auto.
  - rewrite (bool_decide_eq_false_2 _ Hout). cbn.
    split; [by right|]. split; [done|]. split; [done|]. split; [done|].
    intros e He. rewrite !elem_of_app. auto.
Qed.

(** C5. When the backup child ends with a non-zero return code, the
    executor logs the failure, the main thread ends with [SystemExit(1)]
    or, if there was no output file to remove, with [FileNotFoundError]
    (exit status 1 either way), and the output file does not exist
    afterwards; nothing else the child left behind is touched and no
    further command is run. *)
Theorem failed_backup_is_deleted E args command tmp_dir w resp o :
  sh E (length (ran w)) (fs w) = (Done resp, o) →
  return_code resp ≠ 0 →
  let rw := process_backup_run E args command tmp_dir w in
  (rw.1 = Raised (SystemExit 1) ∨ rw.1 = Raised FileNotFoundError) ∧
  exit_status rw.1 = Some 1 ∧
  (Error, failure_message args) ∈ log rw.2 ∧
  (backup_file args ∉ fs rw.2) ∧
  (∀ q, q ≠ backup_file args → (q ∈ fs rw.2 ↔ q ∈ o)) ∧
  ran rw.2 = ran w ++ [mkCmd command (Some (password args))].
Proof.
  intros Hsh Hrc. cbv zeta.
  unfold process_backup_run, try_except_KeyboardInterrupt.
  unfold mbind, M_bind, when, run. rewrite Hsh.
  apply Z.eqb_neq in Hrc. rewrite Hrc. cbn [andb negb mret M_ret].
  set (w1 := mkWorld o (log w) (ran w ++ [mkCmd command (Some (password args))]) (slept w)).
  set (w2 := (logger Error (failure_message args) w1).2).
  change (logger Error _ w1) with (Ok (), w2).
  set (m := if negb (String.eqb (err resp) "") then _ else _).
  assert (Hm : ∃ l, m w2 = (Ok (), mkWorld (fs w2) (log w2 ++ l) (ran w2) (slept w2))).
  { unfold m. destruct (negb _); eexists; reflexivity. }
  destruct Hm as [l ->].
  set (w3 := mkWorld _ _ _ _).
  destruct (delete_fail_backup_file_spec (A:=unit) args w3) as (Hr & Hfs & Hother & Hran & Hlog).
  destruct (delete_fail_backup_file args w3) as [r w4]. cbn in Hr, Hfs, Hother, Hran, Hlog.
  destruct Hr as [-> | ->]; cbn.
  all: split; [auto|split; [done|split; [|split; [done|split; [done|done]]]]].
  all: apply Hlog; unfold w3, w2, w1; cbn; rewrite !elem_of_app, !list_elem_of_singleton; auto.
Qed.

Lemma failed_backup_is_deleted_witness :
  let resp := mkResp 1 "" "mysqldump: Got error: 2002" in
  let o : gset string := ∅ ∪ {[backup_file dump_args]} in
  let rw := process_backup_run failing_env dump_args "mysqldump" "/data/backups/mysql3306/tmp" fresh in
  sh failing_env (length (ran fresh)) (fs fresh) = (Done resp, o) ∧
  return_code resp ≠ 0 ∧
  (rw.1 = Raised (SystemExit 1) ∨ rw.1 = Raised FileNotFoundError) ∧
  exit_status rw.1 = Some 1 ∧
  (Error, failure_message dump_args) ∈ log rw.2 ∧
  (backup_file dump_args ∉ fs rw.2) ∧
  (∀ q, q ≠ backup_file dump_args → (q ∈ fs rw.2 ↔ q ∈ o)) ∧
  ran rw.2 = ran fresh ++ [mkCmd "mysqldump" (Some (password dump_args))].
Proof.
  intros resp o rw.
  assert (H1 : sh failing_env (length (ran fresh)) (fs fresh) = (Done resp, o)) by reflexivity.
  assert (H2 : return_code resp ≠ 0) by discriminate.
  split; [exact H1|split; [exact H2|]].
  exact (failed_backup_is_deleted failing_env dump_args "mysqldump"
           "/data/backups/mysql3306/tmp" fresh resp o H1 H2).
Defined.

(** ** The command builder *)

Lemma add_filter_args_logs_only args : logs_only (add_filter_args args).
Proof.
  unfold add_filter_args. munfold.
  destruct (nonempty (databases args)), (nonempty (tables args)), (tool args); done.
Qed.

Lemma backup_command_extra args e c f t h :
  backup_command (set_extra args e) c f t h = backup_command args c f t h.
Proof. by destruct args as [? ? ? ? ? ? ? ? ? []]. Qed.

Lemma incremental_lsn_value E args h w a :
  (incremental_lsn E args h w).1 = Ok a →
  a = args ∨ ∃ o, a = set_extra args (extra args +:+ " --incremental-lsn=" +:+ o).
Proof.
  unfold incremental_lsn, mkdir, path_exists. munfold. cbn.
  destruct (incremental args); cbn; [|intros [= <-]; by left].
  destruct (bool_decide _); cbn; [|intros [= <-]; by left].
  destruct (debug args); cbn; destruct (sh E _ _) as [[r|] o]; cbn; try done;
    intros [= <-]; right; by eexists.
Qed.

Lemma process_backup_build_command E args w command tmp_dir a :
  (process_backup_build E args w).1 = Ok (command, tmp_dir, a) →
  ∃ filter_args,
    (add_filter_args args w).1 = Ok filter_args ∧
    tmp_dir = path_join (absolute E (backup_dir args)) "tmp" ∧
    command = backup_command args (base_command args) filter_args tmp_dir
                (if bool_decide (tool args = Xtrabackup)
                 then path_join (absolute E (backup_dir args)) "history" else "") ∧
    (a = args ∨ ∃ o, a = set_extra args (extra args +:+ " --incremental-lsn=" +:+ o)).
Proof.
  unfold process_backup_build.
  unfold mbind at 1 2 3 4, M_bind at 1 2 3 4.
  cbn -[get_connect_args add_filter_args backup_command incremental_lsn].
  set (w1 := mkWorld _ _ _ _).
  pose proof (get_connect_args_value E args w1) as Hca.
  destruct (get_connect_args E args w1) as [[ca| |] w2]; [|done..].
  rewrite (Hca _ eq_refl). clear Hca ca.
  cbn -[add_filter_args backup_command incremental_lsn].
  unfold mbind at 1, M_bind at 1.
  assert (Hw3 : (when (bool_decide (tool args ∈ [Mydumper; Xtrabackup]))
                   (mkdir (absolute E (backup_dir args) +:+ "/" +:+ "tmp")) w2).1 = Ok ())
    by (by destruct (bool_decide _)).
  destruct (when _ _ w2) as [r3 w3]. cbn in Hw3. subst r3.
  unfold mbind at 1, M_bind at 1.
  destruct (add_filter_args_logs_only args) as [_ Hpure].
  rewrite (Hpure w w3).
  destruct (add_filter_args args w3) as [[f| |] w4]; [|done..].
  cbn [fst]. unfold base_command.
  destruct (tool args) eqn:Htool; cbn -[backup_command incremental_lsn].
  1,2,4: unfold mbind, M_bind, mret, M_ret, debug_log;
         destruct (debug args); cbn -[backup_command];
         intros [= <- <- <-]; exists f; rewrite app_empty_r, <- !app_assoc_s; auto.
  unfold mbind, M_bind.
  pose proof (incremental_lsn_value E args (absolute E (backup_dir args) +:+ "/" +:+ "history") w4) as Hinc.
  destruct (incremental_lsn E args _ w4) as [[a'| |] w5]; [|done..].
  specialize (Hinc _ eq_refl).
  assert (Hbc : ∀ c f t h, backup_command a' c f t h = backup_command args c f t h).
  { intros. destruct Hinc as [->|[o ->]]; [done|apply backup_command_extra]. }
  assert (Hlp : login_path a' = login_path args).
  { destruct Hinc as [->|[o ->]]; done. }
  unfold mbind, M_bind, mret, M_ret, debug_log.
  rewrite Hbc, Hlp.
  destruct (debug a'); cbn -[backup_command];
    intros [= <- <- <-]; exists f; (split; [done|split; [done|split; [|done]]]);
    destruct (Py.truthy (login_path args)); cbn -[backup_command];
    rewrite ?app_empty_r, <- ?app_assoc_s; auto.
Qed.

Lemma backup_command_ignores_filter args c f f' t h :
  tool args = Mydumper ∨ tool args = Xtrabackup →
  backup_command args c f t h = backup_command args c f' t h.
Proof. unfold backup_command. by intros [-> | ->]. Qed.

Ltac occurs :=
  repeat first [ by eexists "", _ | apply occurs_in_app_r ].

Lemma backup_command_has_filter args c f t h :
  tool args = Mysqldump ∨ tool args = Mysqlpump →
  occurs_in (Py.flat f) (backup_command args c f t h).
Proof.
  unfold backup_command. intros [-> | ->]; rewrite !flat_app; occurs.
Qed.

(** Without filters the filter arguments are the all-databases flag. *)
Lemma add_filter_args_all_databases args w :
  databases args = [] → tables args = [] →
  add_filter_args args w = (Ok " --all-databases", w).
Proof. unfold add_filter_args. intros -> ->. done. Qed.



(** C2, where the code departs from it: for mydumper with the database
    filter [shop], [add_filter_args] computes the regex flag, but the
    command that is built contains neither the flag nor the database. *)
Theorem mydumper_command_without_filter :
  (add_filter_args dumper_shop fresh).1 = Ok " --regex 'shop\.'" ∧
  ∃ command tmp_dir a,
    (process_backup_build (quiet_server 9) dumper_shop fresh).1 = Ok (command, tmp_dir, a) ∧
    Py.contains "--regex" command = false ∧
    Py.contains "shop\." command = false.
Proof.
  split; [reflexivity|]. eexists _, _, _. split; [vm_compute; reflexivity|]. by vm_compute.
Qed.

(** X16. For mysqldump and mysqlpump with a database filter, the built
    command contains the database flag of the tool followed by the
    databases, separated by spaces. *)
Theorem database_filter_in_command E args w command tmp_dir a :
  nonempty (databases args) = true →
  tool args = Mysqldump ∨ tool args = Mysqlpump →
  (process_backup_build E args w).1 = Ok (command, tmp_dir, a) →
  occurs_in (Py.flat (database_flag (tool args) +:+ Py.join " " (databases args))) command.
Proof.
  intros Hd Htool Hb.
  apply process_backup_build_command in Hb as (f & Hf & -> & -> & _).
  eapply occurs_in_part; [|by apply backup_command_has_filter].
  revert Hf. unfold add_filter_args. munfold. rewrite Hd.
  destruct Htool as [-> | ->]; cbn; destruct (nonempty (tables args)); cbn;
    intros [= <-]; rewrite app_empty_l.
  - rewrite (flat_app _ (" --tables " +:+ _)).
    apply occurs_in_app_l. exists "", "". by rewrite app_empty_r.
  - exists "", "". by rewrite app_empty_r.
  - rewrite (flat_app _ (" --include-tables " +:+ _)).
    apply occurs_in_app_l. exists "", "". by rewrite app_empty_r.
  - exists "", "". by rewrite app_empty_r.
Qed.

Lemma database_filter_in_command_witness :
  let args := set_filters dump_args ["shop"; "crm"] [] in
  ∃ command tmp_dir a,
    nonempty (databases args) = true ∧
    (tool args = Mysqldump ∨ tool args = Mysqlpump) ∧
    (process_backup_build (quiet_server 9) args fresh).1 = Ok (command, tmp_dir, a) ∧
    occurs_in " --databases shop crm" command.
Proof.
  intros args. eexists _, _, _.
  assert (H1 : nonempty (databases args) = true) by reflexivity.
  assert (H2 : tool args = Mysqldump ∨ tool args = Mysqlpump) by (by left).
  split; [exact H1|]. split; [exact H2|].
  split; [vm_compute; reflexivity|].
  refine (database_filter_in_command (quiet_server 9) args fresh _ _ _ H1 H2 _).
  vm_compute. reflexivity.
Defined.

Lemma config_login_path_outcome E args w :
  (config_login_path E args w).1 = Ok () ∨
  (config_login_path E args w).1 = Raised KeyboardInterrupt.
Proof.
  unfold config_login_path. munfold.
  destruct (reset args), (debug args); cbn;
    destruct (sh E _ _) as [[r|] o]; cbn; auto;
    try destruct (return_code r =? 0); cbn; auto;
    destruct (sh E _ _) as [[r'|] o']; cbn; auto.
Qed.

Lemma get_connect_args_outcome E args w :
  (get_connect_args E args w).1 = Ok (connect_args_of args) ∨
  (get_connect_args E args w).1 = Raised KeyboardInterrupt.
Proof.
  unfold get_connect_args, connect_args_of.
  destruct (Py.truthy (config args)), (Py.truthy (socket args)),
    (Py.truthy (login_path args)); cbn;
    unfold mbind, M_bind, mret, M_ret;
    try (destruct (config_login_path_outcome E args w) as [H|H];
         destruct (config_login_path E args w) as [r w1]; cbn in H; subst r);
    cbn; auto; left; f_equal; rewrite ?app_empty_l, ?app_assoc_s; reflexivity.
Qed.

Lemma xtrabackup_rejects_filters E args w :
  tool args = Xtrabackup →
  nonempty (databases args) || nonempty (tables args) = true →
  ((process_backup E args w).1 = Raised (SystemExit 1) ∨
   (process_backup E args w).1 = Raised KeyboardInterrupt) ∧
  ∃ cs, ran (process_backup E args w).2 = ran w ++ cs ∧ Forall (λ c, cmd_env c = None) cs.
Proof.
  intros Htool Hf.
  unfold process_backup, process_backup_build, add_filter_args.
  unfold mbind, M_bind. rewrite Htool.
  assert (Hb : bool_decide (Xtrabackup ∈ [Mydumper; Xtrabackup]) = true) by (by vm_compute).
  rewrite Hb. clear Hb.
  cbn -[get_connect_args backup_command incremental_lsn].
  set (w1 := mkWorld _ _ _ _).
  destruct (get_connect_args_runs E args w1) as (cs & Hcs & Hnone).
  destruct (get_connect_args_outcome E args w1) as [Hca|Hca];
    destruct (get_connect_args E args w1) as [r w2]; cbn in Hcs, Hca; subst r; cbn.
  - destruct (nonempty (databases args)), (nonempty (tables args)); try done; cbn;
      (split; [by left|exists cs; by rewrite Hcs]).
  - split; [by right|]. exists cs. by rewrite Hcs.
Qed.

(** For mydumper the command is the one the other fields determine. *)
Lemma mydumper_command_ignores_filters E args w command tmp_dir a :
  tool args = Mydumper →
  (process_backup_build E args w).1 = Ok (command, tmp_dir, a) →
  command = backup_command (set_filters args [] []) (base_command (set_filters args [] []))
              " --all-databases" tmp_dir "".
Proof.
  intros Htool Hb.
  apply process_backup_build_command in Hb as (f & _ & -> & -> & _).
  rewrite Htool. unfold backup_command, base_command, connect_args_of, set_filters.
  cbn [host port socket user password login_path databases tables config tool
       backup_dir backup_file backup_log extra incremental just_insert no_data
       threads debug reset].
  by rewrite Htool.
Qed.

(** Without a checkpoint file the incremental step changes nothing but
    the history directory: no command is run, [args] stays as it is. *)
Lemma incremental_lsn_without_checkpoint E args h w :
  path_join h "xtrabackup_checkpoints" ∉ fs w →
  incremental_lsn E args h w
  = (Ok args, mkWorld (fs w ∪ {[h]}) (log w) (ran w) (slept w)).
Proof.
  intros Hno. unfold incremental_lsn, mkdir, path_exists. munfold. cbn.
  rewrite bool_decide_eq_false_2, andb_false_r; [done|].
  rewrite elem_of_union, elem_of_singleton. intros [H|H]; [done|].
  by apply app_not_self in H.
Qed.

Ltac by_evaluation := apply (bool_decide_unpack _); vm_compute; exact I.


(** The scenario of the specification: mysqldump, the database [app],
    no backup file given. *)
Example dump_app_scenario :
  let rw := script (quiet_server 3) (set_filters (parsed Mysqldump false "") ["app"] []) fresh in
  (∃ a, rw.1 = Ok a ∧
        backup_file a = "/data/backups/mysql3306/_3306_mysqldump_20241226_010203.sql.lz4") ∧
  Exists (λ c, Py.contains " --databases app " (cmd_line c) = true) (ran rw.2).
Proof.
  cbv zeta. split; [eexists; split; vm_compute; reflexivity|by_evaluation].
Qed.

(** C7, where the code departs from it: with the incremental flag, an
    existing checkpoint file and the LSN 12345 extracted from it,
    [args.extra] ends up holding the incremental-lsn option, but the
    command had been put together from the earlier [args.extra]: the
    backup that runs carries no such option. *)
Theorem incremental_lsn_not_in_command :
  let rw := process_backup lsn_server xbk_inc after_full_backup in
  (∃ a, rw.1 = Ok a ∧ extra a = " --incremental-lsn=12345" +:+ Py.NL) ∧
  map cmd_line (ran rw.2)
    = [get_lsn_command "/data/backups/mysql3306/history";
       backup_command xbk_inc (base_command xbk_inc) ""
         "/data/backups/mysql3306/tmp" "/data/backups/mysql3306/history"] ∧
  Forall (λ c, Py.contains "--incremental-lsn" (cmd_line c) = false) (ran rw.2).
Proof.
  cbv zeta. split; [eexists; split; vm_compute; reflexivity|].
  split; [vm_compute; reflexivity|by_evaluation].
Qed.

(** C6, where the code departs from it: xtrabackup with the incremental
    flag, no checkpoint file and an explicit backup file runs as a full
    backup (no incremental-lsn option, exit status 0) and records no
    warning at all; the warning is recorded only on the path that
    derives the default file name. *)
Theorem incremental_fallback_without_warning :
  let rw := script (quiet_server 2) (parsed Xtrabackup true "/data/backups/mysql3306/inc.xb") fresh in
  (∃ a, rw.1 = Ok a ∧ extra a = "") ∧
  exit_status rw.1 = Some 0 ∧
  Forall (λ c, Py.contains "--incremental-lsn" (cmd_line c) = false) (ran rw.2) ∧
  Forall (λ e, e.1 ≠ Warning) (log rw.2) ∧
  (Warning, incremental_warning)
    ∈ log (script (quiet_server 3) (parsed Xtrabackup true "") fresh).2.
Proof.
  cbv zeta. split; [eexists; split; vm_compute; reflexivity|].
  split; [vm_compute; reflexivity|].
  split; [by_evaluation|]. split; [|by_evaluation].
  vm_compute. repeat constructor; discriminate.
Qed.

(** C4, where the code departs from it: the first poll of the watcher
    fails, the watcher logs the error and raises [SystemExit(1)], which
    ends the daemon thread; the main thread completes the backup and the
    process ends with status 0. *)
Theorem watcher_exit_ends_only_its_thread :
  let args := parsed Mysqldump false "/data/backups/mysql3306/all.sql.lz4" in
  let main_thread := script (quiet_server 2) args fresh in
  ∃ daemon,
    started_watcher (quiet_server 2) unreachable_server args fresh = Some daemon ∧
    daemon.1 = Raised (SystemExit 1) ∧
    log daemon.2
      = [(Error, "Failed to check hang: ERROR 2002 (HY000): Can't connect to local MySQL server")] ∧
    (∃ a, main_thread.1 = Ok a) ∧
    (Info, "Backup success.") ∈ log main_thread.2 ∧
    process_status main_thread.1 (Some daemon.1) = Some 0.
Proof.
  cbv zeta. eexists. split; [vm_compute; reflexivity|].
  split; [reflexivity|]. split; [reflexivity|].
  split; [eexists; vm_compute; reflexivity|].
  split; [by_evaluation|vm_compute; reflexivity].
Qed.

(** ** The password *)

Section Secrecy.

Context (E : Env) (p1 p2 : string).

Local Abbreviation cmd_rel := (cmd_rel p1 p2).
Local Abbreviation sim := (simulates p1 p2).
Local Abbreviation pw_rel := (pw_rel p1 p2).

Lemma sim_bind {A B} (R : A → A → Prop) (S : B → B → Prop) m1 m2 (f1 f2 : A → M B) :
  sim R m1 m2 → (∀ a b, R a b → sim S (f1 a) (f2 b)) → sim S (m1 ≫= f1) (m2 ≫= f2).
Proof.
  intros Hm Hf w1 w2 Hfs Hlen. unfold mbind, M_bind.
  destruct (Hm w1 w2 Hfs Hlen) as (cs1 & cs2 & l & s & Hr1 & Hr2 & Hcs & Hl1 & Hl2 & Hs1 & Hs2 & Hfs' & Hres).
  destruct (m1 w1) as [r1 w1'], (m2 w2) as [r2 w2']. cbn in *.
  destruct Hres as [a b Hab|e|].
  - destruct (Hf a b Hab w1' w2' Hfs') as (cs1' & cs2' & l' & s' & Hr1' & Hr2' & Hcs' & Hl1' & Hl2' & Hs1' & Hs2' & Hfs'' & Hres').
    { rewrite Hr1, Hr2, !length_app. f_equal; [done|]. by eapply Forall2_length. }
    exists (cs1 ++ cs1'), (cs2 ++ cs2'), (l ++ l'), (s ++ s').
    rewrite Hr1', Hr2', Hl1', Hl2', Hs1', Hs2', Hr1, Hr2, Hl1, Hl2, Hs1, Hs2, <- !app_assoc.
    repeat split; try done; try by apply Forall2_app.
  - exists cs1, cs2, l, s. repeat split; try done; try constructor.
  - exists cs1, cs2, l, s. repeat split; try done; try constructor.
Qed.

Lemma sim_bind_eq {A B} (S : B → B → Prop) m1 m2 (f1 f2 : A → M B) :
  sim eq m1 m2 → (∀ a, sim S (f1 a) (f2 a)) → sim S (m1 ≫= f1) (m2 ≫= f2).
Proof. intros Hm Hf. apply (sim_bind eq); [done|]. by intros a b ->. Qed.

(** A step that runs no command and treats equal file systems alike. *)
Lemma sim_local {A} (R : A → A → Prop) (m1 m2 : M A) :
  (∀ w1 w2, fs w1 = fs w2 →
     ∃ l s, ran (m1 w1).2 = ran w1 ∧ ran (m2 w2).2 = ran w2 ∧
            log (m1 w1).2 = log w1 ++ l ∧ log (m2 w2).2 = log w2 ++ l ∧
            slept (m1 w1).2 = slept w1 ++ s ∧ slept (m2 w2).2 = slept w2 ++ s ∧
            fs (m1 w1).2 = fs (m2 w2).2 ∧ same_result R (m1 w1).1 (m2 w2).1) →
  sim R m1 m2.
Proof.
  intros H w1 w2 Hfs _. destruct (H w1 w2 Hfs) as (l & s & -> & -> & ? & ? & ? & ? & ? & ?).
  exists [], [], l, s. rewrite !app_nil_r. repeat split; try done; try constructor.
Qed.

Lemma sim_ret {A} (R : A → A → Prop) a b : R a b → sim R (mret a) (mret b).
Proof.
  intros Hab. apply sim_local. intros w1 w2 Hfs. exists [], []. cbn.
  rewrite !app_nil_r. repeat split; try done; try by constructor.
Qed.

Lemma sim_logger l msg : sim eq (logger l msg) (logger l msg).
Proof.
  apply sim_local. intros w1 w2 Hfs. exists [(l, msg)], []. cbn.
  rewrite !app_nil_r. repeat split; try done; try by constructor.
Qed.

Lemma sim_debug_log d msg : sim eq (debug_log d msg) (debug_log d msg).
Proof. destruct d; [apply sim_logger|by apply sim_ret]. Qed.

Lemma sim_sleep n : sim eq (sleep n) (sleep n).
Proof.
  apply sim_local. intros w1 w2 Hfs. exists [], [n]. cbn.
  rewrite !app_nil_r. repeat split; try done; try by constructor.
Qed.

Lemma sim_raise {A} (R : A → A → Prop) e : sim R (raise e) (raise e).
Proof.
  apply sim_local. intros w1 w2 Hfs. exists [], []. cbn.
  rewrite !app_nil_r. repeat split; try done; try constructor.
Qed.

Lemma sim_mkdir p : sim eq (mkdir p) (mkdir p).
Proof.
  apply sim_local. intros w1 w2 Hfs. exists [], []. cbn.
  rewrite !app_nil_r, Hfs. repeat split; try done; try by constructor.
Qed.

Lemma sim_path_exists p : sim eq (path_exists p) (path_exists p).
Proof.
  apply sim_local. intros w1 w2 Hfs. exists [], []. cbn.
  rewrite !app_nil_r, Hfs. repeat split; try done; try by constructor.
Qed.

Lemma sim_unlink p : sim eq (unlink p) (unlink p).
Proof.
  apply sim_local. intros w1 w2 Hfs. exists [], []. unfold unlink.
  rewrite Hfs. destruct (bool_decide _); cbn; rewrite !app_nil_r, ?Hfs;
    repeat split; try done; by constructor.
Qed.

Lemma sim_rmdir p : sim eq (rmdir p) (rmdir p).
Proof.
  apply sim_local. intros w1 w2 Hfs. exists [], []. unfold rmdir.
  rewrite Hfs. destruct (_ && _); cbn; rewrite !app_nil_r, ?Hfs;
    repeat split; try done; by constructor.
Qed.

Lemma sim_run c e1 e2 :
  (e1 = None ∧ e2 = None) ∨ (e1 = Some p1 ∧ e2 = Some p2) →
  sim eq (run E c e1) (run E c e2).
Proof.
  intros He w1 w2 Hfs Hlen. unfold run. rewrite Hfs, Hlen.
  exists [mkCmd c e1], [mkCmd c e2], [], [].
  destruct (sh E _ _) as [[r|] o]; cbn; rewrite !app_nil_r;
    repeat split; try done; try (by constructor);
    by repeat constructor.
Qed.

Lemma sim_when b m1 m2 : sim eq m1 m2 → sim eq (when b m1) (when b m2).
Proof. destruct b; [done|]. intros _. by apply sim_ret. Qed.

Lemma sim_for_each {A} (l : list A) body1 body2 :
  (∀ x, sim eq (body1 x) (body2 x)) → sim eq (for_each l body1) (for_each l body2).
Proof.
  intros Hb. induction l as [|x l IH]; [by apply sim_ret|].
  cbn [for_each]. apply sim_bind_eq; auto.
Qed.

Lemma sim_try {A} (R : A → A → Prop) b1 b2 h1 h2 :
  sim R b1 b2 → sim R h1 h2 →
  sim R (try_except_KeyboardInterrupt b1 h1) (try_except_KeyboardInterrupt b2 h2).
Proof.
  intros Hb Hh w1 w2 Hfs Hlen. unfold try_except_KeyboardInterrupt.
  destruct (Hb w1 w2 Hfs Hlen) as (cs1 & cs2 & l & s & Hr1 & Hr2 & Hcs & Hl1 & Hl2 & Hs1 & Hs2 & Hfs' & Hres).
  destruct (b1 w1) as [r1 w1'], (b2 w2) as [r2 w2']. cbn in *.
  destruct Hres as [a b Hab|e|].
  - exists cs1, cs2, l, s. repeat split; try done; try by constructor.
  - destruct e; try (exists cs1, cs2, l, s; repeat split; try done; constructor).
    destruct (Hh w1' w2' Hfs') as (cs1' & cs2' & l' & s' & Hr1' & Hr2' & Hcs' & Hl1' & Hl2' & Hs1' & Hs2' & Hfs'' & Hres').
    { rewrite Hr1, Hr2, !length_app. f_equal; [done|]. by eapply Forall2_length. }
    exists (cs1 ++ cs1'), (cs2 ++ cs2'), (l ++ l'), (s ++ s').
    rewrite Hr1', Hr2', Hl1', Hl2', Hs1', Hs2', Hr1, Hr2, Hl1, Hl2, Hs1, Hs2, <- !app_assoc.
    repeat split; try done; try by apply Forall2_app.
  - exists cs1, cs2, l, s. repeat split; try done; try constructor.
Qed.

Create HintDb sim.
#[local] Hint Resolve sim_logger sim_debug_log sim_sleep sim_raise sim_mkdir
  sim_path_exists sim_unlink sim_rmdir sim_when sim_for_each sim_try : sim.
#[local] Hint Extern 1 (sim _ (mret _) (mret _)) => apply sim_ret; reflexivity : sim.
#[local] Hint Extern 1 (sim _ (run _ _ _) (run _ _ _)) => apply sim_run; auto : sim.
#[local] Hint Extern 1 (sim _ (sys_exit _) (sys_exit _)) => apply sim_raise : sim.
#[local] Hint Extern 2 (sim _ (_ ≫= _) (_ ≫= _)) => apply sim_bind_eq; [|intros ?] : sim.
#[local] Hint Extern 3 (sim _ (if ?b then _ else _) _) => destruct b : sim.
#[local] Hint Extern 3 (sim _ (match ?x with _ => _ end) _) => destruct x : sim.

Ltac same_fields Hp :=
  unfold set_password;
  cbn [host port socket user password login_path databases tables config tool
       backup_dir backup_file backup_log extra incremental just_insert no_data
       threads debug reset];
  rewrite ?Hp.

Section Namespace.

Context (args : Args string) (Hp : password args = p1).

Lemma sim_config_login_path :
  sim eq (config_login_path E args) (config_login_path E (set_password args p2)).
Proof. unfold config_login_path. same_fields Hp. auto 20 with sim. Qed.

Lemma sim_get_connect_args :
  sim eq (get_connect_args E args) (get_connect_args E (set_password args p2)).
Proof.
  pose proof sim_config_login_path.
  unfold get_connect_args. same_fields Hp.
  destruct (Py.truthy (login_path args)); auto 20 with sim.
Qed.

Lemma sim_kill_thread ca t :
  sim eq (kill_thread E args ca t) (kill_thread E (set_password args p2) ca t).
Proof. unfold kill_thread. same_fields Hp. auto 20 with sim. Qed.

Lemma sim_check_hung_body ca cc i :
  sim eq (check_hung_body E args ca cc i) (check_hung_body E (set_password args p2) ca cc i).
Proof.
  pose proof sim_kill_thread.
  unfold check_hung_body, thread_ids_of. same_fields Hp. auto 20 with sim.
Qed.

Lemma sim_check_hung_loop ca cc fuel : ∀ i,
  sim eq (check_hung_loop E args ca cc fuel i)
         (check_hung_loop E (set_password args p2) ca cc fuel i).
Proof.
  pose proof sim_check_hung_body.
  induction fuel as [|fuel IH]; intros i; cbn [check_hung_loop].
  - destruct (i <? 180); [|by apply sim_ret].
    apply sim_local. intros w1 w2 Hfs. exists [], []. cbn.
    rewrite !app_nil_r. repeat split; try done; constructor.
  - auto 20 with sim.
Qed.

Lemma sim_check_hung :
  sim eq (check_hung E args) (check_hung E (set_password args p2)).
Proof.
  pose proof sim_get_connect_args. pose proof sim_check_hung_loop.
  unfold check_hung, hang_query. same_fields Hp. auto 20 with sim.
Qed.

Lemma sim_check_command c : sim eq (check_command E c) (check_command E c).
Proof. unfold check_command. auto 20 with sim. Qed.

Lemma sim_pre_backup :
  sim eq (pre_backup E args) (pre_backup E (set_password args p2)).
Proof.
  pose proof sim_get_connect_args. pose proof sim_check_command.
  unfold pre_backup, connect_query. same_fields Hp. auto 30 with sim.
Qed.

Lemma sim_add_filter_args :
  sim eq (add_filter_args args) (add_filter_args (set_password args p2)).
Proof. unfold add_filter_args. same_fields Hp. auto 20 with sim. Qed.

Lemma sim_delete_fail_backup_file {A} (R : A → A → Prop) :
  sim R (delete_fail_backup_file args) (delete_fail_backup_file (set_password args p2)).
Proof.
  unfold delete_fail_backup_file. same_fields Hp.
  repeat (apply sim_bind_eq; [auto with sim|intros ?]). apply sim_raise.
Qed.

Lemma sim_incremental_lsn h :
  sim pw_rel (incremental_lsn E args h) (incremental_lsn E (set_password args p2) h).
Proof.
  unfold incremental_lsn. same_fields Hp.
  apply sim_bind_eq; [auto with sim|intros ?].
  apply sim_bind_eq; [auto with sim|intros there].
  destruct (incremental args && there); [|by apply sim_ret].
  apply sim_bind_eq; [auto with sim|intros ?].
  apply sim_bind_eq; [auto with sim|intros resp].
  by apply sim_ret.
Qed.

Lemma sim_process_backup_run c t :
  sim eq (process_backup_run E args c t) (process_backup_run E (set_password args p2) c t).
Proof.
  pose proof (sim_delete_fail_backup_file (A:=unit) eq).
  unfold process_backup_run. same_fields Hp. auto 30 with sim.
Qed.

End Namespace.

Lemma backup_command_password args c f t h :
  backup_command (set_password args p2) c f t h = backup_command args c f t h.
Proof. by destruct args as [? ? ? ? ? ? ? ? ? []]. Qed.

Lemma sim_process_backup_build args :
  password args = p1 →
  sim (λ x y, x.1 = y.1 ∧ pw_rel x.2 y.2)
    (process_backup_build E args) (process_backup_build E (set_password args p2)).
Proof.
  intros Hp. pose proof (sim_get_connect_args args).
  pose proof (sim_add_filter_args args).
  unfold process_backup_build. same_fields Hp.
  do 4 (apply sim_bind_eq; [solve [auto with sim]|intros ?]). cbv zeta.
  do 2 (apply sim_bind_eq; [solve [auto with sim]|intros ?]).
  fold (set_password args p2).
  apply (sim_bind (λ x y : string * Args string, x.1 = y.1 ∧ pw_rel x.2 y.2)).
  - destruct (tool args) eqn:Htool;
      try (apply sim_ret; cbn [fst snd]; by rewrite backup_command_password).
    apply (sim_bind pw_rel); [by apply sim_incremental_lsn|].
    intros x y [Hx ->]. apply sim_ret. cbn [fst snd].
    rewrite backup_command_password. by same_fields Hx.
  - intros [c x] [c' y] [Hc [Hx Hy]]. cbn in Hc, Hx, Hy. subst c' y. same_fields Hx.
    apply sim_bind_eq; [auto with sim|intros ?]. by apply sim_ret.
Qed.

Lemma sim_process_backup args :
  password args = p1 →
  sim pw_rel (process_backup E args) (process_backup E (set_password args p2)).
Proof.
  intros Hp. unfold process_backup.
  apply (sim_bind (λ x y, x.1 = y.1 ∧ pw_rel x.2 y.2)); [by apply sim_process_backup_build|].
  intros [[c t] x] [[c' t'] y] [Hc [Hx Hy]]. cbn in Hc, Hx, Hy. subst y.
  injection Hc as <- <-.
  apply sim_bind_eq; [by apply sim_process_backup_run|intros ?]. by apply sim_ret.
Qed.

Lemma add_extra_args_password (args : Args (list string)) :
  add_extra_args (set_password args p2) = set_password (add_extra_args args) p2.
Proof. reflexivity. Qed.

Lemma sim_main (args : Args (list string)) :
  password args = p1 →
  sim pw_rel (main E args) (main E (set_password args p2)).
Proof.
  intros Hp. unfold main. rewrite add_extra_args_password.
  apply sim_bind_eq; [by apply sim_pre_backup|intros ?]. by apply sim_process_backup.
Qed.

Lemma sim_parse (args : Args (option (list string))) :
  password args = p1 →
  sim pw_rel (parse_mysql_args_from_command_line E args)
             (parse_mysql_args_from_command_line E (set_password args p2)).
Proof.
  intros Hp. unfold parse_mysql_args_from_command_line. same_fields Hp.
  unfold set_backup_log. same_fields Hp.
  apply sim_bind_eq; [auto with sim|intros ?].
  apply (sim_bind pw_rel).
  - destruct (String.eqb (backup_file args) ""); [|by apply sim_ret].
    apply sim_bind_eq; [auto with sim|intros resp].
    apply sim_bind_eq; [auto 20 with sim|intros ?]. by apply sim_ret.
  - intros x y [Hx ->]. by apply sim_ret.
Qed.

Lemma sim_script (args : Args (option (list string))) :
  password args = p1 →
  sim pw_rel (script E args) (script E (set_password args p2)).
Proof.
  intros Hp. unfold script. apply (sim_bind pw_rel); [by apply sim_parse|].
  intros x y [Hx ->]. by apply sim_main.
Qed.

End Secrecy.

Lemma cmd_rel_lines p1 p2 cs1 cs2 :
  Forall2 (cmd_rel p1 p2) cs1 cs2 →
  map cmd_line cs2 = map cmd_line cs1 ∧
  Forall (λ c, cmd_env c = None ∨ cmd_env c = Some p1) cs1 ∧
  Forall (λ c, cmd_env c = None ∨ cmd_env c = Some p2) cs2.
Proof.
  induction 1 as [|c1 c2 cs1 cs2 [Hl He] _ (IH1 & IH2 & IH3)]; [done|].
  cbn. rewrite IH1, Hl. repeat split; try done; constructor; try done;
    destruct He as [[? ?]|[? ?]]; auto.
Qed.

Lemma same_result_status {A} (R : A → A → Prop) r1 r2 :
  same_result R r1 r2 → exit_status r2 = exit_status r1.
Proof. by destruct 1. Qed.

Lemma sim_password_blind {X A} (run : Args X → M A) :
  (∀ args p, ∃ R, simulates (password args) p R (run args) (run (set_password args p))) →
  password_blind run.
Proof.
  intros H args p w. destruct (H args p) as [R HR].
  destruct (HR w w eq_refl eq_refl)
    as (cs1 & cs2 & l & s & Hr1 & Hr2 & Hcs & Hl1 & Hl2 & Hs1 & Hs2 & Hfs & Hres).
  destruct (cmd_rel_lines _ _ _ _ Hcs) as (Hlines & He1 & He2).
  exists cs1, cs2. rewrite Hl1, Hl2, Hs1, Hs2.
  repeat split; try done. by eapply same_result_status.
Qed.



Example shell_expand_reference :
  shell_expand "MYSQL_PWD" "s3cret" 0 "xtrabackup --password=$MYSQL_PWD --backup"
  = "xtrabackup --password=s3cret --backup".
Proof. reflexivity. Qed.

(** The xtrabackup command names the variable, so the shell puts the
    password on the command line of xtrabackup. *)
Example xtrabackup_command_names_the_variable :
  let command := backup_command xbk_args (base_command xbk_args) " --all-databases"
                   "/data/backups/mysql3306/tmp" "/data/backups/mysql3306/history" in
  Py.contains " --password=$MYSQL_PWD" command = true ∧
  Py.contains (password xbk_args) command = false ∧
  Py.contains (password xbk_args)
    (shell_expand "MYSQL_PWD" (password xbk_args) 0 command) = true.
Proof. vm_compute. done. Qed.

(** * Further properties *)

(** ** Option parsing *)

(** X1. The default of [--threads] is never below 3; it is half the
    CPU count from 10 CPUs on, and it is below half the CPU count
    exactly for 8 and 9 CPUs, where half is 4 and the default is 3. *)
Theorem default_threads_bounds (cpu_count : Z) :
  3 ≤ default_threads cpu_count ∧
  (10 ≤ cpu_count → default_threads cpu_count = cpu_count / 2) ∧
  (default_threads cpu_count < cpu_count / 2 ↔ 8 ≤ cpu_count ≤ 9).
Proof.
  unfold default_threads. cbv zeta.
  pose proof (Z.div_mod cpu_count 2 ltac:(lia)) as Hdm.
  pose proof (Z.mod_pos_bound cpu_count 2 ltac:(lia)) as Hm.
  destruct (Z.ltb_spec 4 (cpu_count / 2)); lia.
Qed.

Lemma split_nonempty c s : Py.split c s ≠ [].
Proof.
  induction s as [|a s IH]; [done|]. simpl.
  destruct (Ascii.eqb a c); [done|]. by destruct (Py.split c s).
Qed.

Lemma split_app_sep c s t :
  Py.split c (s +:+ String c t) = Py.split c s ++ Py.split c t.
Proof.
  induction s as [|a s IH].
  - rewrite app_empty_l. simpl. by rewrite Ascii.eqb_refl.
  - rewrite app_cons. simpl. rewrite IH.
    destruct (Ascii.eqb a c); [done|].
    pose proof (split_nonempty c s). by destruct (Py.split c s).
Qed.

Lemma split_no_sep c s : has_char c s = false → Py.split c s = [s].
Proof.
  induction s as [|a s IH]; [done|]. simpl.
  intros [Ha Hs]%orb_false_iff. by rewrite Ha, (IH Hs).
Qed.

Lemma path_name_join b name :
  has_char "/" name = false → name ≠ "" → path_name (path_join b name) = name.
Proof.
  intros Hn Hne. unfold path_join, path_name.
  destruct name as [|a name]; [done|].
  simpl in Hn. apply orb_false_iff in Hn as [Ha Hn].
  assert (String.prefix "/" (String a name) = false) as ->.
  { cbn [String.prefix]. destruct (ascii_dec "/" a) as [<-|]; [|done].
    by rewrite Ascii.eqb_refl in Ha. }
  change (b +:+ "/" +:+ String a name) with (b +:+ String "/" (String a name)).
  rewrite split_app_sep, (split_no_sep "/" (String a name)).
  - apply List.last_last.
  - simpl. by rewrite Ha, Hn.
Qed.

Lemma path_name_bare name : has_char "/" name = false → path_name name = name.
Proof. intros H. unfold path_name. by rewrite split_no_sep. Qed.

(** X2. When lines 129-168 return, the last component of the path
    stored in [args.tool], which is all the rest of the script reads of
    it, is the name of the resolved tool: an alias is resolved to one of
    the four names, and a base directory, which must exist, never
    reaches a command. *)
Theorem tool_name_whatever_base_dir getpass ns w password tool_ tool_path w' :
  parse_head getpass ns w = (Returns (password, tool_, tool_path), w') →
  path_name tool_path = tool_name tool_ ∧
  Cli.help ns = false ∧ Py.truthy (Cli.tool ns) = true ∧
  (Py.truthy (Cli.base_dir ns) = true → Py.fmt (Cli.base_dir ns) ∈ fs w).
Proof.
  unfold parse_head.
  destruct (Cli.help ns); [done|].
  destruct (Py.truthy (Cli.tool ns)); [|done]. cbn [orb negb].
  destruct (select_password getpass ns) as [pw| | |]; [|done..].
  destruct (if bool_decide _ then _ else _) as [t [|]]; [done|].
  set (w1 := if _ && _ then _ else w).
  assert (Hfs : fs w1 = fs w) by (unfold w1; by destruct (_ && _)).
  destruct (Py.truthy (Cli.base_dir ns)).
  - destruct (bool_decide (Py.fmt (Cli.base_dir ns) ∈ fs w1)) eqn:Hb; [|done]. cbn [negb].
    intros [= <- <- <- <-]. apply bool_decide_eq_true in Hb. rewrite Hfs in Hb.
    split; [|done]. apply path_name_join; by destruct t.
  - intros [= <- <- <- <-]. split; [|done]. apply path_name_bare. by destruct t.
Qed.

Lemma tool_name_whatever_base_dir_witness :
  let ns := Cli.mkNamespace false (Some "xbk") (PList ["s3cret"]) false None None
              (Some "/opt/percona/bin") in
  let w := mkWorld {["/opt/percona/bin"]} [] [] [] in
  parse_head None ns w
    = (Returns (PStr "s3cret", Xtrabackup, "/opt/percona/bin/xtrabackup"), w) ∧
  path_name "/opt/percona/bin/xtrabackup" = tool_name Xtrabackup ∧
  Cli.help ns = false ∧ Py.truthy (Cli.tool ns) = true ∧
  (Py.truthy (Cli.base_dir ns) = true → Py.fmt (Cli.base_dir ns) ∈ fs w).
Proof.
  intros ns w.
  assert (H : parse_head None ns w
              = (Returns (PStr "s3cret", Xtrabackup, "/opt/percona/bin/xtrabackup"), w))
    by (vm_compute; reflexivity).
  split; [exact H|].
  exact (tool_name_whatever_base_dir None ns w _ _ _ _ H).
Defined.

(** X3. Without [--tool] the script exits with status 1 on line 132,
    before anything is logged or asked; the error of lines 134-136 about
    the missing [--tool] is never logged, whatever the options. *)
Theorem required_tool_error_never_logged getpass ns w :
  let rw := parse_head getpass ns w in
  (Py.truthy (Cli.tool ns) = false → rw = (Exits 1, w)) ∧
  ∃ l, log rw.2 = log w ++ l ∧ (Error, required_tool_error) ∉ l.
Proof.
  cbv zeta. unfold parse_head.
  destruct (Cli.help ns); cbn [orb].
  { split; [done|]. exists []. rewrite app_nil_r. split; [done|]. apply not_elem_of_nil. }
  destruct (Py.truthy (Cli.tool ns)); cbn [negb].
  2:{ split; [done|]. exists []. rewrite app_nil_r. split; [done|]. apply not_elem_of_nil. }
  split; [done|].
  destruct (select_password getpass ns) as [pw| | |];
    try (exists []; rewrite app_nil_r; split; [done|]; apply not_elem_of_nil).
  destruct (if bool_decide _ then _ else _) as [t [|]].
  { eexists [_]. split; [reflexivity|]. rewrite list_elem_of_singleton. discriminate. }
  destruct (_ && _); destruct (Py.truthy (Cli.base_dir ns)); cbn;
    try destruct (bool_decide _); cbn; rewrite <- ?app_assoc;
    eexists; (split; [try reflexivity; symmetry; apply app_nil_r|]);
    rewrite ?elem_of_app, ?elem_of_cons, ?elem_of_nil; intros H; decompose [or] H;
    try done; try discriminate;
    match goal with
    | H : (_, _) = (_, _) |- _ =>
        injection H as H; apply (f_equal (String.get 0)) in H; by vm_compute in H
    end.
Qed.

(** X4. [args.password[0]] on line 143 never raises [IndexError].
    When lines 129-168 return, the password is the empty string with
    [--no-pass], a string whenever no login path is given, and the
    parsed value itself, a list when [-p] was given, with a login path
    and without [--no-pass]. *)
Theorem password_never_index_error getpass ns w :
  let rw := parse_head getpass ns w in
  rw.1 ≠ IndexError ∧
  ∀ password tool_ tool_path, rw.1 = Returns (password, tool_, tool_path) →
    (Cli.no_pass ns = true → password = PStr "") ∧
    (Py.truthy (Cli.login_path ns) = false → ∃ s, password = PStr s) ∧
    (Cli.no_pass ns = false → Py.truthy (Cli.login_path ns) = true →
     password = Cli.password ns).
Proof.
  cbv zeta. unfold parse_head.
  destruct (Cli.help ns); cbn [orb]; [by split|].
  destruct (Py.truthy (Cli.tool ns)); cbn [negb]; [|by split].
  assert (Hsel : select_password getpass ns ≠ IndexError ∧
            ∀ pw, select_password getpass ns = Returns pw →
              (Cli.no_pass ns = true → pw = PStr "") ∧
              (Py.truthy (Cli.login_path ns) = false → ∃ s, pw = PStr s) ∧
              (Cli.no_pass ns = false → Py.truthy (Cli.login_path ns) = true →
               pw = Cli.password ns)).
  { unfold select_password.
    destruct (Cli.password ns) as [[|a s]|[|x l]], (Cli.no_pass ns),
      (Py.truthy (Cli.login_path ns)), getpass; cbn;
      (split; [done|]); intros pw [= <-]; repeat split; intros; try done; by eexists. }
  destruct Hsel as [Hne Hpw].
  destruct (select_password getpass ns) as [pw| | |]; [|by split..].
  specialize (Hpw _ eq_refl).
  destruct (if bool_decide _ then _ else _) as [t [|]]; [by split|].
  destruct (_ && _); destruct (Py.truthy (Cli.base_dir ns)); cbn;
    try destruct (bool_decide _); cbn; (split; [done|]); try done;
    by intros ? ? ? [= <- <- <-].
Qed.

(** ** Preflight *)

Lemma get_connect_args_no_login E args w :
  Py.truthy (login_path args) = false →
  get_connect_args E args w = (Ok (connect_args_of args), w).
Proof.
  intros H. unfold get_connect_args, connect_args_of. rewrite H.
  destruct (Py.truthy (config args)), (Py.truthy (socket args)); cbn;
    unfold mret, M_ret; do 2 f_equal; rewrite ?app_empty_l, ?app_assoc_s; reflexivity.
Qed.

Lemma check_command_spec E name w :
  check_command E name w =
  match sh E (length (ran w)) (fs w) with
  | (Done r, o) =>
      if return_code r =? 0
      then (Ok (), mkWorld o (log w) (ran w ++ [lookup_cmd E name]) (slept w))
      else (Raised (SystemExit 1),
            mkWorld o (log w ++ [(Error, "Could not find command: " +:+ name)])
              (ran w ++ [lookup_cmd E name]) (slept w))
  | (Interrupted, o) =>
      (Raised KeyboardInterrupt, mkWorld o (log w) (ran w ++ [lookup_cmd E name]) (slept w))
  end.
Proof.
  unfold check_command, lookup_cmd. munfold.
  destruct (windows E); destruct (sh E _ _) as [[r|] o]; cbn; try done;
    by destruct (return_code r =? 0).
Qed.

Lemma debug_log_spec d msg w :
  debug_log d msg w
  = (Ok (), mkWorld (fs w) (log w ++ (if d then [(Debug, msg)] else [])) (ran w) (slept w)).
Proof. destruct d, w; cbn; by rewrite ?app_nil_r. Qed.

Lemma length_app_one {A} (l : list A) x : length (l ++ [x]) = S (length l).
Proof. rewrite length_app. cbn. lia. Qed.

(** X8. Without a login path, [pre_backup] returns exactly when its
    four children end normally, the lookups of the tool and of [lz4]
    with code 0, the process-table scan with a code other than 0, and
    the connection query with code 0; these four commands, in this
    order, are then all it has run. *)
Theorem pre_backup_passes_iff E args w :
  Py.truthy (login_path args) = false →
  let rw := pre_backup E args w in
  (rw.1 = Ok () ↔
   ∃ r1 r2 r3 r4,
     children E (length (ran w)) (fs w) 4 = [Done r1; Done r2; Done r3; Done r4] ∧
     return_code r1 = 0 ∧ return_code r2 = 0 ∧ return_code r3 ≠ 0 ∧ return_code r4 = 0) ∧
  (rw.1 = Ok () →
   ran rw.2 = ran w ++ [lookup_cmd E (tool_name (tool args)); lookup_cmd E "lz4";
                        mkCmd (scan_command E args) None;
                        mkCmd (connect_query args (connect_args_of args))
                          (Some (password args))]).
Proof.
  intros Hlp. cbv zeta.
  destruct (pre_backup E args w) as [r wf] eqn:Hpb. cbn [fst snd]. revert Hpb.
  unfold pre_backup.
  unfold mbind at 1, M_bind at 1. rewrite check_command_spec.
  cbn [children].
  destruct (sh E (length (ran w)) (fs w)) as [[r1|] o1]; cbn [fst snd].
  2:{ intros [= <- <-]. split; [split; [done|]|done]. intros (? & ? & ? & ? & [=] & _). }
  destruct (Z.eqb_spec (return_code r1) 0) as [H1|H1].
  2:{ intros [= <- <-]. split; [split; [done|]|done].
      by intros (? & ? & ? & ? & [= <- _] & ? & _). }
  unfold mbind at 1, M_bind at 1. rewrite check_command_spec. cbn [ran fs log slept].
  rewrite length_app_one.
  destruct (sh E (S (length (ran w))) o1) as [[r2|] o2]; cbn [fst snd].
  2:{ intros [= <- <-]. split; [split; [done|]|done]. intros (? & ? & ? & ? & [=] & _). }
  destruct (Z.eqb_spec (return_code r2) 0) as [H2|H2].
  2:{ intros [= <- <-]. split; [split; [done|]|done].
      by intros (? & ? & ? & ? & [= _ <- _] & ? & ? & _). }
  unfold mbind at 1, M_bind at 1. rewrite (get_connect_args_no_login _ _ _ Hlp).
  set (sc := if windows E then _ else _).
  assert (sc = scan_command E args) as ->.
  { unfold sc, scan_command. by destruct (windows E). }
  unfold mbind at 1, M_bind at 1. rewrite debug_log_spec. cbn [fs ran log slept].
  unfold mbind at 1, M_bind at 1. unfold run at 1. cbn [fs ran log slept].
  rewrite !length_app_one.
  destruct (sh E (S (S (length (ran w)))) o2) as [[r3|] o3]; cbn [fst snd].
  2:{ intros [= <- <-]. split; [split; [done|]|done]. intros (? & ? & ? & ? & [=] & _). }
  unfold mbind at 1, M_bind at 1. unfold when at 1.
  destruct (Z.eqb_spec (return_code r3) 0) as [H3|H3].
  { cbn. intros [= <- <-]. split; [split; [done|]|done].
    by intros (? & ? & ? & ? & [= _ _ <- _] & ? & ? & ? & _). }
  cbn [mret M_ret].
  unfold mbind at 1, M_bind at 1. rewrite (get_connect_args_no_login _ _ _ Hlp).
  unfold mbind at 1, M_bind at 1. rewrite debug_log_spec. cbn [fs ran log slept].
  unfold mbind at 1, M_bind at 1. unfold run at 1. cbn [fs ran log slept].
  rewrite !length_app_one.
  destruct (sh E (S (S (S (length (ran w))))) o3) as [[r4|] o4]; cbn [fst snd].
  2:{ intros [= <- <-]. split; [split; [done|]|done]. intros (? & ? & ? & ? & [=] & _). }
  unfold when.
  destruct (Z.eqb_spec (return_code r4) 0) as [H4|H4]; cbn; intros [= <- <-].
  - split; [split; [intros _; by exists r1, r2, r3, r4|done]|].
    intros _. cbn. by rewrite <- !app_assoc.
  - split; [split; [done|]|done].
    by intros (? & ? & ? & ? & [= _ _ _ <-] & ? & ? & ? & ?).
Qed.

Lemma pre_backup_passes_iff_witness :
  Py.truthy (login_path dump_args) = false ∧
  (pre_backup (quiet_server 2) dump_args fresh).1 = Ok () ∧
  ran (pre_backup (quiet_server 2) dump_args fresh).2
  = [mkCmd "which mysqldump" None; mkCmd "which lz4" None;
     mkCmd (scan_command (quiet_server 2) dump_args) None;
     mkCmd (connect_query dump_args (connect_args_of dump_args)) (Some "s3cret")].
Proof.
  assert (H : Py.truthy (login_path dump_args) = false) by reflexivity.
  split; [exact H|].
  destruct (pre_backup_passes_iff (quiet_server 2) dump_args fresh H) as [[_ Hback] Hran].
  assert (Hok : (pre_backup (quiet_server 2) dump_args fresh).1 = Ok ()).
  { apply Hback. exists (mkResp 0 "" ""), (mkResp 0 "" ""), (mkResp 1 "" ""), (mkResp 0 "" "").
    repeat split; done. }
  split; [exact Hok|]. exact (Hran Hok).
Defined.

(** X9. When the lookup of the tool fails, [main] logs the error and
    exits with status 1 after that one command; when the lookup of [lz4]
    fails, after these two.  Nothing else is run or changed. *)
Theorem missing_binary_stops_main E (args : Args (list string)) w r o :
  sh E (length (ran w)) (fs w) = (Done r, o) →
  (return_code r ≠ 0 →
   main E args w
   = (Raised (SystemExit 1),
      mkWorld o (log w ++ [(Error, "Could not find command: " +:+ tool_name (tool args))])
        (ran w ++ [lookup_cmd E (tool_name (tool args))]) (slept w))) ∧
  (return_code r = 0 →
   ∀ r' o', sh E (S (length (ran w))) o = (Done r', o') → return_code r' ≠ 0 →
   main E args w
   = (Raised (SystemExit 1),
      mkWorld o' (log w ++ [(Error, "Could not find command: lz4")])
        (ran w ++ [lookup_cmd E (tool_name (tool args)); lookup_cmd E "lz4"]) (slept w))).
Proof.
  intros Hsh.
  assert (Hfirst : check_command E (tool_name (tool args)) w
                   = if return_code r =? 0
                     then (Ok (), mkWorld o (log w)
                                    (ran w ++ [lookup_cmd E (tool_name (tool args))]) (slept w))
                     else (Raised (SystemExit 1),
                           mkWorld o (log w ++ [(Error, "Could not find command: " +:+
                                                        tool_name (tool args))])
                             (ran w ++ [lookup_cmd E (tool_name (tool args))]) (slept w))).
  { by rewrite check_command_spec, Hsh. }
  unfold main, pre_backup.
  change (tool (add_extra_args args)) with (tool args).
  split.
  - intros Hrc%Z.eqb_neq. unfold mbind at 1 2, M_bind at 1 2.
    by rewrite Hfirst, Hrc.
  - intros Hrc%Z.eqb_eq r' o' Hsh' Hrc'%Z.eqb_neq.
    unfold mbind at 1 2, M_bind at 1 2. rewrite Hfirst, Hrc.
    unfold mbind at 1, M_bind at 1. rewrite check_command_spec. cbn [fs ran log slept].
    rewrite length_app_one, Hsh'. cbv beta iota. rewrite Hrc'. by rewrite <- app_assoc.
Qed.

Lemma missing_binary_stops_main_witness :
  let args := set_extra dump_args ([] : list string) in
  sh unreachable_server (length (ran fresh)) (fs fresh)
    = (Done (mkResp 1 "" "ERROR 2002 (HY000): Can't connect to local MySQL server"), ∅) ∧
  main unreachable_server args fresh
  = (Raised (SystemExit 1),
     mkWorld ∅ [(Error, "Could not find command: mysqldump")]
       [mkCmd "which mysqldump" None] []).
Proof.
  intros args.
  assert (H : sh unreachable_server (length (ran fresh)) (fs fresh)
              = (Done (mkResp 1 "" "ERROR 2002 (HY000): Can't connect to local MySQL server"), ∅))
    by reflexivity.
  split; [exact H|].
  apply (proj1 (missing_binary_stops_main unreachable_server args fresh _ _ H)).
  discriminate.
Defined.



Lemma count_char_app c s t :
  count_char c (s +:+ t) = (count_char c s + count_char c t)%nat.
Proof.
  induction s as [|a s IH]; [done|].
  rewrite app_cons. cbn [count_char]. rewrite IH. lia.
Qed.

(** X10. Off Windows, the process-table scan opens a single quote
    before the program text and never closes it: the command has one
    single quote more than the connection and extra arguments put into
    it. *)
Theorem scan_command_unclosed_quote E args :
  windows E = false →
  count_char "'" (scan_command E args)
  = S (count_char "'" (connect_args_of args) + count_char "'" (extra args)).
Proof.
  intros Hw. unfold scan_command. rewrite Hw. cbv zeta.
  rewrite !count_char_app. by destruct (tool args).
Qed.

Lemma scan_command_unclosed_quote_witness :
  windows (quiet_server 2) = false ∧
  count_char "'" (scan_command (quiet_server 2) dump_args) = 1%nat.
Proof.
  assert (H : windows (quiet_server 2) = false) by reflexivity.
  split; [exact H|].
  exact (scan_command_unclosed_quote (quiet_server 2) dump_args H).
Defined.

(** ** More on the watcher *)

Lemma remove_absent x (l : list string) : x ∉ l → Py.remove x l = None.
Proof.
  induction l as [|y l IH]; [done|].
  intros [Hy Hl]%not_elem_of_cons. cbn [Py.remove].
  destruct (String.eqb_spec y x) as [->|_]; [done|]. by rewrite (IH Hl).
Qed.

(** X14. Past the third iteration, a successful poll whose output has
    no empty line among its lines (a single ID without a final newline,
    say) ends the watcher with the [ValueError] of
    [thread_ids.remove('')]: nothing is killed, and only the debug
    lines of the iteration are logged. *)
Theorem poll_output_without_empty_line E args ca cc i w resp o :
  sh E (length (ran w)) (fs w) = (Done resp, o) →
  return_code resp = 0 → 3 < i →
  "" ∉ Py.split Py.nl (out resp) →
  check_hung_body E args ca cc i w
  = (Raised ValueError,
     mkWorld o (log w ++ (if debug args
                          then [(Debug, "Check hang " +:+ Py.str i +:+ " times."); (Debug, cc)]
                          else []))
       (ran w ++ [mkCmd cc (Some (password args))]) (slept w)).
Proof.
  intros Hsh Hrc Hi Hno. unfold check_hung_body, thread_ids_of.
  apply Z.eqb_eq in Hrc. apply Z.ltb_lt in Hi.
  munfold. destruct (debug args); cbn -[Py.remove Py.split]; rewrite Hsh;
    cbn -[Py.remove Py.split]; rewrite Hrc, Hi; cbn -[Py.remove Py.split];
    rewrite (remove_absent _ _ Hno); by rewrite <- ?app_assoc, ?app_nil_r.
Qed.

Lemma poll_output_without_empty_line_witness :
  let E := mkEnv false "/root" "/opt/mysqlbackup" "20241226_010203"
             (λ n o, (Done (mkResp 0 "17" ""), o)) in
  let ca := " --host=localhost --port=3306 --user=root" in
  sh E (length (ran fresh)) (fs fresh) = (Done (mkResp 0 "17" ""), ∅) ∧
  ("" ∉ Py.split Py.nl "17") ∧
  check_hung_body E dump_args ca (hang_query dump_args ca) 4 fresh
  = (Raised ValueError,
     mkWorld ∅ [] [mkCmd (hang_query dump_args ca) (Some "s3cret")] []).
Proof.
  intros E ca.
  assert (H1 : sh E (length (ran fresh)) (fs fresh) = (Done (mkResp 0 "17" ""), ∅))
    by reflexivity.
  assert (H2 : "" ∉ Py.split Py.nl (out (mkResp 0 "17" ""))).
  { cbn. rewrite list_elem_of_singleton. discriminate. }
  split; [exact H1|]. split; [exact H2|].
  refine (poll_output_without_empty_line E dump_args ca (hang_query dump_args ca) 4 fresh
            (mkResp 0 "17" "") ∅ H1 eq_refl _ H2).
  reflexivity.
Defined.

Lemma login_commands E args :
  runs_only (λ c, c = login_check_cmd args ∨ c = login_set_cmd args)
    (config_login_path E args).
Proof.
  intros w. unfold config_login_path, login_check_cmd, login_set_cmd. munfold.
  destruct (reset args), (debug args); cbn;
    destruct (sh E _ _) as [[r|] o]; cbn;
    try (eexists [_]; split; [reflexivity|]; repeat constructor; by left);
    try destruct (return_code r =? 0); cbn;
    try (eexists [_]; split; [reflexivity|]; repeat constructor; by left);
    destruct (Py.truthy (socket args)); cbn;
    destruct (sh E _ _) as [[r'|] o']; cbn; rewrite <- ?app_assoc; cbn;
    (eexists [_; _]; split; [reflexivity|]);
    (constructor; [by left|constructor; [right|constructor]]);
    rewrite ?app_empty_r; reflexivity.
Qed.

Lemma runs_only_weaken (P Q : Cmd → Prop) {A} (m : M A) :
  (∀ c, P c → Q c) → runs_only P m → runs_only Q m.
Proof.
  intros HPQ Hm w. destruct (Hm w) as (cs & Hcs & HP). exists cs.
  split; [done|]. by eapply Forall_impl.
Qed.

Lemma check_hung_loop_runs E args fuel : ∀ i,
  runs_only (watcher_command args)
    (check_hung_loop E args (connect_args_of args)
       (hang_query args (connect_args_of args)) fuel i).
Proof.
  assert (Hbody : ∀ i, runs_only (watcher_command args)
            (check_hung_body E args (connect_args_of args)
               (hang_query args (connect_args_of args)) i)).
  { intros i w.
    destruct (check_hung_body_ran E args (connect_args_of args)
                (hang_query args (connect_args_of args)) i w) as (kills & Hran & _).
    eexists. split; [exact Hran|]. constructor.
    - right. by left.
    - apply Forall_map, Forall_forall. intros t _. right. right. by exists t. }
  induction fuel as [|fuel IH]; intros i; cbn [check_hung_loop];
    destruct (i <? 180); try (apply runs_only_pure; intros; reflexivity).
  apply runs_only_bind; [apply Hbody|intros _].
  apply runs_only_bind; [apply runs_only_pure; intros; reflexivity|intros _]. apply IH.
Qed.


Lemma kill_thread_spec E args ca t w :
  kill_thread E args ca t w =
  let w1 := mkWorld (fs w)
              (log w ++ (if debug args then [(Debug, kill_command_fill ca (extra args) t)] else []))
              (ran w ++ [kill_cmd args ca t]) (slept w) in
  match sh E (length (ran w)) (fs w) with
  | (Done r, o) =>
      (Ok (), mkWorld o
                (log w1 ++ [if return_code r =? 0
                            then (Info, "Successfully kill thread: " +:+ t)
                            else (Error, "Failed to kill thread: " +:+ t)])
                (ran w1) (slept w))
  | (Interrupted, o) => (Raised KeyboardInterrupt, mkWorld o (log w1) (ran w1) (slept w))
  end.
Proof.
  unfold kill_thread, kill_cmd. munfold.
  destruct (debug args); cbn; destruct (sh E _ _) as [[r|] o]; cbn;
    rewrite ?app_nil_r; try done; by destruct (return_code r =? 0).
Qed.

Lemma for_each_kill_all E args ca ids : ∀ w,
  no_interrupt E →
  let rw := for_each ids (kill_thread E args ca) w in
  rw.1 = Ok () ∧
  ran rw.2 = ran w ++ map (kill_cmd args ca) ids ∧
  (∀ e, e ∈ log w → e ∈ log rw.2) ∧
  (∀ t, t ∈ ids → (Info, "Successfully kill thread: " +:+ t) ∈ log rw.2 ∨
                  (Error, "Failed to kill thread: " +:+ t) ∈ log rw.2).
Proof.
  induction ids as [|t ids IH]; intros w HE; cbv zeta.
  - cbn. rewrite app_nil_r. repeat split; try done. intros t Ht. by apply elem_of_nil in Ht.
  - cbn [for_each]. unfold mbind, M_bind. rewrite kill_thread_spec. cbv zeta.
    pose proof (HE (length (ran w)) (fs w)) as Hni.
    destruct (sh E (length (ran w)) (fs w)) as [[r|] o]; [|done].
    set (w1 := mkWorld o _ _ _).
    destruct (IH w1 HE) as (Hok & Hran & Hlog & Hall). cbv zeta in Hok, Hran, Hlog, Hall.
    split; [done|]. split; [|split].
    + rewrite Hran. unfold w1. cbn. by rewrite <- app_assoc.
    + intros e He. apply Hlog. unfold w1. cbn. rewrite !elem_of_app. auto.
    + intros t' [->|Ht']%elem_of_cons; [|by apply Hall].
      destruct (return_code r =? 0); [left|right]; apply Hlog; unfold w1; cbn;
        rewrite !elem_of_app, list_elem_of_singleton; auto.
Qed.

(** X15. When no child is interrupted, an iteration past the third
    whose poll the server answers from the process list [pl] runs one
    kill for every reported ID, in order, and returns: a kill that fails
    is logged as an error and the next one is still run. *)
Theorem failed_kill_does_not_stop_watcher sql_eq E args ca cc i w resp o pl :
  no_interrupt E →
  sh E (length (ran w)) (fs w) = (Done resp, o) →
  return_code resp = 0 → 3 < i →
  out resp = poll_output sql_eq (user args) pl →
  let rw := check_hung_body E args ca cc i w in
  rw.1 = Ok () ∧
  ran rw.2 = ran w ++ mkCmd cc (Some (password args))
                      :: map (kill_cmd args ca) (reported_ids sql_eq (user args) pl) ∧
  (∀ t, t ∈ reported_ids sql_eq (user args) pl →
        (Info, "Successfully kill thread: " +:+ t) ∈ log rw.2 ∨
        (Error, "Failed to kill thread: " +:+ t) ∈ log rw.2).
Proof.
  intros HE Hsh Hrc Hi Hout. cbv zeta.
  destruct (check_hung_body E args ca cc i w) as [rf wf] eqn:Hb. cbn [fst snd]. revert Hb.
  unfold check_hung_body, thread_ids_of.
  apply Z.eqb_eq in Hrc. apply Z.ltb_lt in Hi.
  unfold mbind at 1 2 3, M_bind at 1 2 3. rewrite !debug_log_spec.
  unfold run at 1. cbn [fs ran log slept]. rewrite Hsh. cbv beta iota.
  rewrite Hrc, Hi. cbn [andb]. rewrite Hout, poll_output_lines.
  unfold mbind at 1 2, M_bind at 1 2. cbn [mret M_ret].
  set (m := when _ _).
  match goal with
  | |- context [m ?w0] =>
      assert (Hm : ∃ l, m w0 = (Ok (), mkWorld (fs w0) (log w0 ++ l) (ran w0) (slept w0)))
  end.
  { unfold m, when. destruct (nonempty _); [by eexists [_]|].
    exists []. cbn. by rewrite app_nil_r. }
  destruct Hm as [l ->]. cbn [fs ran log slept].
  match goal with
  | |- context [for_each ?ids ?body ?w0] =>
      destruct (for_each_kill_all E args ca ids w0 HE) as (Hok & Hran & _ & Hall)
  end.
  cbv zeta in Hok, Hran, Hall. cbn [ran] in Hran.
  intros Hb. rewrite Hb in Hok, Hran, Hall. cbn [fst snd] in Hok, Hran, Hall.
  split; [done|]. split; [|done]. rewrite Hran. by rewrite <- app_assoc.
Qed.

Lemma failed_kill_does_not_stop_watcher_witness :
  let E := mkEnv false "/root" "/opt/mysqlbackup" "20241226_010203"
             (λ n o, (Done (mkResp (if (n =? 0)%nat then 0 else 1)
                              (if (n =? 0)%nat
                               then poll_output String.eqb "root" two_sessions else "") ""), o)) in
  let ca := " --host=localhost --port=3306 --user=root" in
  let rw := check_hung_body E dump_args ca (hang_query dump_args ca) 4 fresh in
  no_interrupt E ∧
  rw.1 = Ok () ∧
  ran rw.2 = [mkCmd (hang_query dump_args ca) (Some "s3cret"); kill_cmd dump_args ca "11"] ∧
  (Error, "Failed to kill thread: 11") ∈ log rw.2.
Proof.
  intros E ca rw.
  assert (HE : no_interrupt E) by (intros n o; discriminate).
  split; [exact HE|].
  destruct (failed_kill_does_not_stop_watcher String.eqb E dump_args ca
              (hang_query dump_args ca) 4 fresh
              (mkResp 0 (poll_output String.eqb "root" two_sessions) "") ∅ two_sessions
              HE eq_refl eq_refl eq_refl eq_refl) as (Hok & Hran & Hlog).
  split; [exact Hok|]. split; [exact Hran|].
  destruct (Hlog "11") as [H|H]; [by left| |exact H].
  exfalso. apply (bool_decide_pack _) in H. vm_compute in H. exact H.
Defined.

(** ** More on the executor *)

Lemma delete_fail_backup_file_exact {A} args w :
  delete_fail_backup_file (A:=A) args w =
  if bool_decide (backup_file args ∈ fs w)
  then (Raised (SystemExit 1),
        mkWorld (fs w ∖ {[backup_file args]})
          (log w ++ [(Info, "Deleting backup file: " +:+ backup_file args);
                     (Info, "Delete success.")])
          (ran w) (slept w))
  else (Raised FileNotFoundError,
        mkWorld (fs w)
          (log w ++ [(Info, "Deleting backup file: " +:+ backup_file args)])
          (ran w) (slept w)).
Proof.
  unfold delete_fail_backup_file, unlink, path_exists. munfold. cbn.
  destruct (decide (backup_file args ∈ fs w)) as [Hin|Hout].
  - rewrite (bool_decide_eq_true_2 _ Hin). cbn.
    assert (Hgone : backup_file args ∉ fs w ∖ {[backup_file args]}).
    { rewrite elem_of_difference, elem_of_singleton. tauto. }
    rewrite (bool_decide_eq_false_2 _ Hgone). cbn. by rewrite <- app_assoc.
  - by rewrite (bool_decide_eq_false_2 _ Hout).
Qed.

Lemma process_backup_run_interrupted E args command tmp_dir w o :
  sh E (length (ran w)) (fs w) = (Interrupted, o) →
  process_backup_run E args command tmp_dir w
  = delete_fail_backup_file (A:=unit) args
      (mkWorld o (log w) (ran w ++ [mkCmd command (Some (password args))]) (slept w)).
Proof.
  intros Hsh.
  unfold process_backup_run, try_except_KeyboardInterrupt.
  unfold mbind, M_bind, run. rewrite Hsh. cbv beta iota.
  rewrite !delete_fail_backup_file_exact. cbn [fs log ran slept].
  by destruct (bool_decide _).
Qed.

Lemma process_backup_run_failed E args command tmp_dir w resp o :
  sh E (length (ran w)) (fs w) = (Done resp, o) →
  return_code resp ≠ 0 →
  (process_backup_run E args command tmp_dir w).1 ≠ Ok ().
Proof.
  intros Hsh Hrc%Z.eqb_neq.
  unfold process_backup_run, try_except_KeyboardInterrupt.
  unfold mbind, M_bind, run, when. rewrite Hsh. cbv beta iota. rewrite Hrc.
  cbn [andb negb mret M_ret]. unfold logger at 1. cbv beta iota.
  destruct (negb (String.eqb (err resp) "")); unfold logger at 1; cbv beta iota;
    rewrite delete_fail_backup_file_exact; by destruct (bool_decide _).
Qed.

(** X22. When the operator interrupts the backup child, the executor
    deletes the output file and the main thread ends with
    [SystemExit(1)], or with [FileNotFoundError] when there was no file
    to delete: the exit status is 1, the interrupt is not raised again,
    and neither the empty [logger.exception] record nor the success
    message is logged. *)
Theorem interrupted_backup_is_deleted E args command tmp_dir w o :
  sh E (length (ran w)) (fs w) = (Interrupted, o) →
  let rw := process_backup_run E args command tmp_dir w in
  let deleting := (Info, "Deleting backup file: " +:+ backup_file args) in
  rw = (if bool_decide (backup_file args ∈ o)
        then (Raised (SystemExit 1),
              mkWorld (o ∖ {[backup_file args]})
                (log w ++ [deleting; (Info, "Delete success.")])
                (ran w ++ [mkCmd command (Some (password args))]) (slept w))
        else (Raised FileNotFoundError,
              mkWorld o (log w ++ [deleting])
                (ran w ++ [mkCmd command (Some (password args))]) (slept w))) ∧
  exit_status rw.1 = Some 1.
Proof.
  intros Hsh. cbv zeta.
  rewrite (process_backup_run_interrupted _ _ _ _ _ _ Hsh), delete_fail_backup_file_exact.
  cbn [fs log ran slept]. by destruct (bool_decide _).
Qed.

Lemma interrupted_backup_is_deleted_witness :
  let E := mkEnv false "/root" "/opt/mysqlbackup" "20241226_010203"
             (λ n o, (Interrupted, o ∪ {[backup_file dump_args]})) in
  let rw := process_backup_run E dump_args "mysqldump" "/data/backups/mysql3306/tmp" fresh in
  sh E (length (ran fresh)) (fs fresh) = (Interrupted, ∅ ∪ {[backup_file dump_args]}) ∧
  rw.1 = Raised (SystemExit 1) ∧
  log rw.2 = [(Info, "Deleting backup file: /data/backups/mysql3306/all.sql.lz4");
              (Info, "Delete success.")] ∧
  exit_status rw.1 = Some 1.
Proof.
  intros E rw.
  assert (H : sh E (length (ran fresh)) (fs fresh) = (Interrupted, ∅ ∪ {[backup_file dump_args]}))
    by reflexivity.
  split; [exact H|].
  destruct (interrupted_backup_is_deleted E dump_args "mysqldump"
              "/data/backups/mysql3306/tmp" fresh _ H) as [Hrw Hst].
  cbv zeta in Hrw. fold rw in Hrw, Hst.
  rewrite bool_decide_eq_true_2 in Hrw by (apply elem_of_union_r; by apply elem_of_singleton).
  rewrite Hrw. repeat split.
Defined.

Lemma removable_spec p (o : gset string) :
  bool_decide (p ∈ o) && forallb (λ q, negb (String.prefix (p +:+ "/") q)) (elements o) = true
  ↔ removable p o.
Proof.
  unfold removable. rewrite andb_true_iff, bool_decide_eq_true, forallb_forall.
  split; intros [Hp Hq]; (split; [done|]).
  - intros q Hin. apply negb_true_iff, Hq, list_elem_of_In, elem_of_elements, Hin.
  - intros q Hin. apply negb_true_iff, Hq, elem_of_elements, list_elem_of_In, Hin.
Qed.

Lemma process_backup_run_done E args command tmp_dir w resp o :
  sh E (length (ran w)) (fs w) = (Done resp, o) →
  return_code resp = 0 →
  let w1 := mkWorld o (log w) (ran w ++ [mkCmd command (Some (password args))]) (slept w) in
  process_backup_run E args command tmp_dir w =
  if bool_decide (tool args ∈ [Mydumper; Xtrabackup]) then
    if bool_decide (tmp_dir ∈ o) &&
       forallb (λ q, negb (String.prefix (tmp_dir +:+ "/") q)) (elements o)
    then (Ok (), mkWorld (o ∖ {[tmp_dir]}) (log w ++ [(Info, "Backup success.")])
                   (ran w1) (slept w))
    else (Raised OSError, w1)
  else (Ok (), mkWorld o (log w ++ [(Info, "Backup success.")]) (ran w1) (slept w)).
Proof.
  intros Hsh Hrc%Z.eqb_eq. cbv zeta.
  unfold process_backup_run, try_except_KeyboardInterrupt.
  unfold mbind, M_bind, run, when, rmdir. rewrite Hsh. cbv beta iota. rewrite Hrc.
  cbn [andb negb fs log ran slept mret M_ret].
  destruct (bool_decide (tool args ∈ [Mydumper; Xtrabackup])); cbv beta iota;
    cbn [fs log ran slept]; [|done].
  by destruct (_ && _).
Qed.

(** X20. The executor returns exactly when the backup child ends
    with code 0 and, for mydumper and xtrabackup, the temporary
    directory exists and is empty afterwards; it has then logged the
    success message, run the one command, and removed that directory. *)
Theorem backup_succeeds_iff E args command tmp_dir w :
  let rw := process_backup_run E args command tmp_dir w in
  let stream := bool_decide (tool args ∈ [Mydumper; Xtrabackup]) in
  (rw.1 = Ok () ↔
   ∃ resp o, sh E (length (ran w)) (fs w) = (Done resp, o) ∧ return_code resp = 0 ∧
             (stream = true → removable tmp_dir o)) ∧
  (rw.1 = Ok () →
   log rw.2 = log w ++ [(Info, "Backup success.")] ∧
   ran rw.2 = ran w ++ [mkCmd command (Some (password args))] ∧
   fs rw.2 = (if stream then (sh E (length (ran w)) (fs w)).2 ∖ {[tmp_dir]}
              else (sh E (length (ran w)) (fs w)).2)).
Proof.
  cbv zeta.
  destruct (sh E (length (ran w)) (fs w)) as [[resp|] o] eqn:Hsh.
  - destruct (Z.eq_dec (return_code resp) 0) as [Hrc|Hrc].
    + rewrite (process_backup_run_done E args command tmp_dir w resp o Hsh Hrc). cbv zeta.
      destruct (bool_decide (tool args ∈ [Mydumper; Xtrabackup])).
      * destruct (_ && _) eqn:Hrm; cbn [fst snd].
        -- apply removable_spec in Hrm. split; [|done].
           split; [intros _; by exists resp, o|done].
        -- split; [|done]. split; [done|].
           intros (r' & o' & [= <- <-] & _ & Hrem).
           apply removable_spec in Hrem; [|done]. congruence.
      * cbn [fst snd]. split; [|done]. split; [intros _; by exists resp, o|done].
    + pose proof (process_backup_run_failed E args command tmp_dir w resp o Hsh Hrc) as Hr.
      split; [|done]. split; [done|].
      intros (r' & o' & [= <- <-] & ? & _). done.
  - rewrite (process_backup_run_interrupted _ _ _ _ _ _ Hsh), delete_fail_backup_file_exact.
    destruct (bool_decide _); cbn [fst]; (split; [split; [done|]|done]);
      by intros (? & ? & [=] & _).
Qed.

(** X21. When the child of mydumper or xtrabackup ends with code 0
    but the temporary directory is missing or not empty, the executor
    ends with the [OSError] of [tmp_dir.rmdir()]: the files stay as the
    child left them, the output file included, and nothing is logged. *)
Theorem leftover_tmp_dir_fails_backup E args command tmp_dir w resp o :
  sh E (length (ran w)) (fs w) = (Done resp, o) →
  return_code resp = 0 →
  tool args = Mydumper ∨ tool args = Xtrabackup →
  ¬ removable tmp_dir o →
  process_backup_run E args command tmp_dir w
  = (Raised OSError,
     mkWorld o (log w) (ran w ++ [mkCmd command (Some (password args))]) (slept w)).
Proof.
  intros Hsh Hrc Htool Hno.
  rewrite (process_backup_run_done E args command tmp_dir w resp o Hsh Hrc). cbv zeta.
  assert (bool_decide (tool args ∈ [Mydumper; Xtrabackup]) = true) as ->
    by (destruct Htool as [-> | ->]; by vm_compute).
  destruct (_ && _) eqn:Hrm; [|done]. by apply removable_spec in Hrm.
Qed.

Lemma leftover_tmp_dir_fails_backup_witness :
  let tmp := "/data/backups/mysql3306/tmp" in
  let left := "/data/backups/mysql3306/tmp/shop.orders.sql" in
  let E := mkEnv false "/root" "/opt/mysqlbackup" "20241226_010203"
             (λ n o, (Done (mkResp 0 "" ""), o ∪ {[left]})) in
  let w := mkWorld {[tmp]} [] [] [] in
  sh E (length (ran w)) (fs w) = (Done (mkResp 0 "" ""), {[tmp]} ∪ {[left]}) ∧
  (tool dumper_shop = Mydumper ∨ tool dumper_shop = Xtrabackup) ∧
  ¬ removable tmp ({[tmp]} ∪ {[left]}) ∧
  process_backup_run E dumper_shop "mydumper" tmp w
  = (Raised OSError,
     mkWorld ({[tmp]} ∪ {[left]}) [] [mkCmd "mydumper" (Some "s3cret")] []).
Proof.
  intros tmp left E w.
  assert (H1 : sh E (length (ran w)) (fs w) = (Done (mkResp 0 "" ""), {[tmp]} ∪ {[left]}))
    by reflexivity.
  assert (H2 : tool dumper_shop = Mydumper ∨ tool dumper_shop = Xtrabackup) by (by left).
  assert (H3 : ¬ removable tmp ({[tmp]} ∪ {[left]} : gset string)).
  { intros [_ H]. specialize (H left). discriminate H.
    apply elem_of_union_r. by apply elem_of_singleton. }
  split; [exact H1|]. split; [exact H2|]. split; [exact H3|].
  exact (leftover_tmp_dir_fails_backup E dumper_shop "mydumper" tmp w _ _ H1 eq_refl H2 H3).
Defined.



(** ** What the main thread logs *)

Section LogsWith.
Context (P : Level * string → Prop).

Lemma logs_with_bind {A B} (m : M A) (f : A → M B) :
  logs_with P m → (∀ a, logs_with P (f a)) → logs_with P (m ≫= f).
Proof.
  intros Hm Hf w. unfold mbind, M_bind. destruct (Hm w) as (l & Hl & HP).
  destruct (m w) as [[a| |] w1]; cbn in *; eauto.
  destruct (Hf a w1) as (l' & Hl' & HP'). exists (l ++ l').
  rewrite Hl', Hl, app_assoc. split; [done|]. by apply Forall_app.
Qed.

Lemma logs_with_pure {A} (m : M A) :
  (∀ w, log (m w).2 = log w) → logs_with P m.
Proof. intros H w. exists []. by rewrite app_nil_r. Qed.

Lemma logs_with_logger l msg : P (l, msg) → logs_with P (logger l msg).
Proof. intros H w. exists [(l, msg)]. split; [done|]. by repeat constructor. Qed.

Lemma logs_with_debug_log d msg : P (Debug, msg) → logs_with P (debug_log d msg).
Proof.
  intros H. destruct d; [by apply logs_with_logger|]. by apply logs_with_pure.
Qed.

Lemma logs_with_run E c env : logs_with P (run E c env).
Proof.
  apply logs_with_pure. intros w. unfold run. by destruct (sh E _ _) as [[r|] o].
Qed.

Lemma logs_with_when b m : logs_with P m → logs_with P (when b m).
Proof. destruct b; [done|]. intros _. by apply logs_with_pure. Qed.

Lemma logs_with_for_each {A} (l : list A) body :
  (∀ x, logs_with P (body x)) → logs_with P (for_each l body).
Proof.
  intros Hb. induction l as [|x l IH]; [by apply logs_with_pure|].
  cbn [for_each]. apply logs_with_bind; auto.
Qed.

Lemma logs_with_try {A} (body handler : M A) :
  logs_with P body → logs_with P handler →
  logs_with P (try_except_KeyboardInterrupt body handler).
Proof.
  intros Hb Hh w. unfold try_except_KeyboardInterrupt.
  destruct (Hb w) as (l & Hl & HP).
  destruct (body w) as [[a|[]|] w1]; cbn in *; eauto.
  destruct (Hh w1) as (l' & Hl' & HP'). exists (l ++ l').
  rewrite Hl', Hl, app_assoc. split; [done|]. by apply Forall_app.
Qed.

Lemma logs_with_unlink p : logs_with P (unlink p).
Proof. apply logs_with_pure. intros w. unfold unlink. by destruct (bool_decide _). Qed.

Lemma logs_with_rmdir p : logs_with P (rmdir p).
Proof. apply logs_with_pure. intros w. unfold rmdir. by destruct (_ && _). Qed.

End LogsWith.

Create HintDb logs.
#[local] Hint Resolve logs_with_run logs_with_when logs_with_for_each logs_with_try
  logs_with_unlink logs_with_rmdir : logs.
#[local] Hint Extern 1 (logs_with _ (_ ≫= _)) => apply logs_with_bind; [|intros] : logs.
#[local] Hint Extern 1 (logs_with _ (logger _ _)) => apply logs_with_logger; done : logs.
#[local] Hint Extern 1 (logs_with _ (debug_log _ _)) => apply logs_with_debug_log; done : logs.
#[local] Hint Extern 1 (logs_with _ (if ?b then _ else _)) => destruct b : logs.
#[local] Hint Extern 1 (logs_with _ (match ?x with _ => _ end)) => destruct x : logs.
#[local] Hint Extern 2 (logs_with _ _) => apply logs_with_pure; intros; reflexivity : logs.


Lemma config_login_path_logs E args : logs_with not_a_warning (config_login_path E args).
Proof. unfold config_login_path. auto 12 with logs. Qed.

Lemma get_connect_args_logs E args : logs_with not_a_warning (get_connect_args E args).
Proof.
  unfold get_connect_args. pose proof (config_login_path_logs E args). auto 12 with logs.
Qed.

Lemma check_command_logs E c : logs_with not_a_warning (check_command E c).
Proof. unfold check_command, sys_exit. auto 12 with logs. Qed.

Lemma pre_backup_logs E args : logs_with not_a_warning (pre_backup E args).
Proof.
  unfold pre_backup, sys_exit. pose proof (get_connect_args_logs E args).
  pose proof (check_command_logs E). auto 30 with logs.
Qed.

Lemma add_filter_args_logs args : logs_with not_a_warning (add_filter_args args).
Proof. unfold add_filter_args, sys_exit. auto 20 with logs. Qed.

Lemma delete_fail_backup_file_logs {A} args :
  logs_with not_a_warning (delete_fail_backup_file (A:=A) args).
Proof. unfold delete_fail_backup_file, sys_exit. auto 20 with logs. Qed.

Lemma incremental_lsn_logs E args h : logs_with not_a_warning (incremental_lsn E args h).
Proof. unfold incremental_lsn. auto 20 with logs. Qed.

Lemma process_backup_build_logs E args :
  logs_with not_a_warning (process_backup_build E args).
Proof.
  unfold process_backup_build. pose proof (get_connect_args_logs E args).
  pose proof (add_filter_args_logs args). pose proof (incremental_lsn_logs E args).
  do 6 (apply logs_with_bind; [solve [auto 10 with logs]|intros ?]).
  apply logs_with_bind.
  - destruct (tool args); auto 10 with logs.
  - intros [c' a']. auto 10 with logs.
Qed.

Lemma process_backup_run_logs E args c t :
  logs_with not_a_warning (process_backup_run E args c t).
Proof.
  unfold process_backup_run. pose proof (delete_fail_backup_file_logs (A:=unit) args).
  auto 30 with logs.
Qed.

Lemma process_backup_logs E args : logs_with not_a_warning (process_backup E args).
Proof.
  unfold process_backup. apply logs_with_bind; [apply process_backup_build_logs|].
  intros [[c t] a]. pose proof (process_backup_run_logs E a c t). auto 10 with logs.
Qed.

Lemma main_logs E args : logs_with not_a_warning (main E args).
Proof.
  unfold main. pose proof (pre_backup_logs E (add_extra_args args)).
  pose proof (process_backup_logs E (add_extra_args args)). auto 10 with logs.
Qed.



Lemma logs_with_weaken (P Q : Level * string → Prop) {A} (m : M A) :
  (∀ e, P e → Q e) → logs_with P m → logs_with Q m.
Proof.
  intros HPQ Hm w. destruct (Hm w) as (l & Hl & HP). exists l.
  split; [done|]. by eapply Forall_impl.
Qed.

(** X6. From line 170 on, the main thread logs a warning only while it
    derives the default file name for xtrabackup with [--incremental]:
    every warning record is the one of line 192, and with a backup file
    given no warning is logged at all. *)
Theorem warning_only_for_default_name E (args : Args (option (list string))) w :
  ∃ l, log (script E args w).2 = log w ++ l ∧ Forall (default_name_warning args) l.
Proof.
  revert w. change (logs_with (default_name_warning args) (script E args)).
  assert (Hw : ∀ e, not_a_warning e → default_name_warning args e) by (by intros e He Hw).
  unfold script. apply logs_with_bind.
  2:{ intros a. eapply logs_with_weaken; [exact Hw|apply main_logs]. }
  unfold parse_mysql_args_from_command_line.
  apply logs_with_bind; [by apply logs_with_pure|intros _].
  apply logs_with_bind; [|intros a; by apply logs_with_pure].
  change (backup_file (set_backup_log args _)) with (backup_file args).
  change (tool (set_backup_log args _)) with (tool args).
  change (incremental (set_backup_log args _)) with (incremental args).
  destruct (String.eqb_spec (backup_file args) "") as [Hfile|_];
    [|by apply logs_with_pure].
  apply logs_with_bind; [apply logs_with_run|intros resp].
  apply logs_with_bind; [|intros s; by apply logs_with_pure].
  destruct (tool args) eqn:Htool; try (by apply logs_with_pure).
  destruct (incremental args) eqn:Hinc; [|by apply logs_with_pure].
  apply logs_with_bind; [by apply logs_with_pure|intros there].
  destruct there; [by apply logs_with_pure|].
  apply logs_with_bind; [|intros; by apply logs_with_pure].
  apply logs_with_logger. by intros _.
Qed.



(** ** How the main thread ends *)

Section ExitsWith.
Context (code : Z).

Lemma exits_with_bind {A B} (m : M A) (f : A → M B) :
  exits_with code m → (∀ a, exits_with code (f a)) → exits_with code (m ≫= f).
Proof.
  intros Hm Hf w. unfold mbind, M_bind. specialize (Hm w).
  destruct (m w) as [[a|e|] w1]; cbn in *; [apply Hf|done..].
Qed.

Lemma exits_with_returns {A} (m : M A) :
  (∀ w, ∃ a, (m w).1 = Ok a) → exits_with code m.
Proof. intros H w. by destruct (H w) as [a ->]. Qed.

Lemma exits_with_logger l msg : exits_with code (logger l msg).
Proof. done. Qed.

Lemma exits_with_debug_log d msg : exits_with code (debug_log d msg).
Proof. by destruct d. Qed.

Lemma exits_with_run E c env : exits_with code (run E c env).
Proof. intros w. unfold run. by destruct (sh E _ _) as [[r|] o]. Qed.

Lemma exits_with_sys_exit {A} : exits_with code (sys_exit (A:=A) code).
Proof. done. Qed.

Lemma exits_with_mkdir p : exits_with code (mkdir p).
Proof. done. Qed.

Lemma exits_with_path_exists p : exits_with code (path_exists p).
Proof. done. Qed.

Lemma exits_with_unlink p : exits_with code (unlink p).
Proof. intros w. unfold unlink. by destruct (bool_decide _). Qed.

Lemma exits_with_rmdir p : exits_with code (rmdir p).
Proof. intros w. unfold rmdir. by destruct (_ && _). Qed.

Lemma exits_with_when b m : exits_with code m → exits_with code (when b m).
Proof. by destruct b. Qed.

Lemma exits_with_try {A} (body handler : M A) :
  exits_with code body → exits_with code handler →
  exits_with code (try_except_KeyboardInterrupt body handler).
Proof.
  intros Hb Hh w. unfold try_except_KeyboardInterrupt. specialize (Hb w).
  destruct (body w) as [[a|[]|] w1]; cbn in *; try done. apply Hh.
Qed.

End ExitsWith.

Create HintDb exits.
#[local] Hint Resolve exits_with_logger exits_with_debug_log exits_with_run
  exits_with_sys_exit exits_with_mkdir exits_with_path_exists exits_with_unlink
  exits_with_rmdir exits_with_when exits_with_try : exits.
#[local] Hint Extern 1 (exits_with _ (_ ≫= _)) => apply exits_with_bind; [|intros] : exits.
#[local] Hint Extern 1 (exits_with _ (mret _)) => apply exits_with_returns; by eexists : exits.
#[local] Hint Extern 1 (exits_with _ (if ?b then _ else _)) => destruct b : exits.
#[local] Hint Extern 1 (exits_with _ (match ?x with _ => _ end)) => destruct x : exits.

Lemma config_login_path_exits E args : exits_with 1 (config_login_path E args).
Proof. unfold config_login_path. auto 12 with exits. Qed.

Lemma get_connect_args_exits E args : exits_with 1 (get_connect_args E args).
Proof.
  unfold get_connect_args. pose proof (config_login_path_exits E args). auto 12 with exits.
Qed.

Lemma check_command_exits E c : exits_with 1 (check_command E c).
Proof. unfold check_command. auto 12 with exits. Qed.

Lemma pre_backup_exits E args : exits_with 1 (pre_backup E args).
Proof.
  unfold pre_backup. pose proof (get_connect_args_exits E args).
  pose proof (check_command_exits E). auto 30 with exits.
Qed.

Lemma add_filter_args_exits args : exits_with 1 (add_filter_args args).
Proof. unfold add_filter_args. auto 20 with exits. Qed.

Lemma delete_fail_backup_file_exits {A} args :
  exits_with 1 (delete_fail_backup_file (A:=A) args).
Proof. unfold delete_fail_backup_file. auto 20 with exits. Qed.

Lemma incremental_lsn_exits E args h : exits_with 1 (incremental_lsn E args h).
Proof. unfold incremental_lsn. auto 20 with exits. Qed.

Lemma process_backup_build_exits E args : exits_with 1 (process_backup_build E args).
Proof.
  unfold process_backup_build. pose proof (get_connect_args_exits E args).
  pose proof (add_filter_args_exits args). pose proof (incremental_lsn_exits E args).
  do 6 (apply exits_with_bind; [solve [auto 10 with exits]|intros ?]).
  apply exits_with_bind.
  - destruct (tool args); auto 10 with exits.
  - intros [c' a']. auto 10 with exits.
Qed.

Lemma process_backup_run_exits E args c t : exits_with 1 (process_backup_run E args c t).
Proof.
  unfold process_backup_run. pose proof (delete_fail_backup_file_exits (A:=unit) args).
  auto 30 with exits.
Qed.

Lemma process_backup_exits E args : exits_with 1 (process_backup E args).
Proof.
  unfold process_backup. apply exits_with_bind; [apply process_backup_build_exits|].
  intros [[c t] a]. pose proof (process_backup_run_exits E a c t). auto 10 with exits.
Qed.

Lemma main_exits E args : exits_with 1 (main E args).
Proof.
  unfold main. pose proof (pre_backup_exits E (add_extra_args args)).
  pose proof (process_backup_exits E (add_extra_args args)). auto 10 with exits.
Qed.

Lemma parse_exits E args : exits_with 1 (parse_mysql_args_from_command_line E args).
Proof.
  unfold parse_mysql_args_from_command_line.
  apply exits_with_bind; [auto with exits|intros _].
  apply exits_with_bind; [|auto with exits].
  destruct (String.eqb _ _); [|auto with exits].
  apply exits_with_bind; [auto with exits|intros resp].
  apply exits_with_bind; [|auto with exits].
  destruct (tool _); auto 10 with exits.
Qed.

(** X23. The main thread, from line 170 on, ends the process with
    status 0, 1 or 130: 0 exactly when it returns, 130 exactly when an
    interrupt is not caught, and 1 otherwise; the return code of a child
    is never passed on. *)
Theorem script_exit_status E args w :
  let r := (script E args w).1 in
  (exit_status r = Some 0 ∨ exit_status r = Some 1 ∨ exit_status r = Some 130) ∧
  (exit_status r = Some 0 ↔ ∃ a, r = Ok a) ∧
  (exit_status r = Some 130 ↔ r = Raised KeyboardInterrupt).
Proof.
  cbv zeta.
  assert (H : exits_with 1 (script E args)).
  { unfold script. apply exits_with_bind; [apply parse_exits|intros a; apply main_exits]. }
  specialize (H w).
  destruct (script E args w).1 as [a|[c| | | |]|]; cbn in *; subst; try done;
    (split; [auto|split; split; try done; try (by eexists); by intros [? [=]]]).
Qed.



(** ** The login path *)

(** X11. [config_login_path] runs the check (with [--reset], the
    removal) and then, when the check failed or [--reset] is given, the
    [set] command; it returns whatever code [set] ends with, and only an
    interrupt of [set] stops it. *)
Theorem login_path_set_ignores_result E args w r o :
  sh E (length (ran w)) (fs w) = (Done r, o) →
  let rw := config_login_path E args w in
  let set_needed := negb (return_code r =? 0) || reset args in
  ran rw.2 = ran w ++ login_check_cmd args
                      :: (if set_needed then [login_set_cmd args] else []) ∧
  rw.1 = (if set_needed
          then match (sh E (S (length (ran w))) o).1 with
               | Done _ => Ok ()
               | Interrupted => Raised KeyboardInterrupt
               end
          else Ok ()).
Proof.
  intros Hsh. cbv zeta.
  destruct (config_login_path E args w) as [rf wf] eqn:Hc. cbn [fst snd]. revert Hc.
  unfold config_login_path, login_check_cmd, login_set_cmd.
  unfold mbind at 1 2, M_bind at 1 2. rewrite debug_log_spec.
  unfold run at 1. cbn [fs ran log slept]. rewrite Hsh. cbv beta iota.
  destruct (negb (return_code r =? 0) || reset args); unfold when.
  - unfold mbind, M_bind. rewrite debug_log_spec. unfold logger, run.
    cbn [fs ran log slept]. rewrite length_app_one.
    destruct (sh E (S (length (ran w))) o) as [[r'|] o']; cbn [fst snd mret M_ret];
      intros [= <- <-]; cbn [ran]; rewrite <- app_assoc;
      (split; [|done]); do 3 f_equal;
      destruct (Py.truthy (socket args)); by rewrite ?app_empty_r.
  - cbn [mret M_ret]. by intros [= <- <-].
Qed.

Lemma login_path_set_ignores_result_witness :
  let args := mkArgs "db1" 3306 None "backup" "" (Some "nightly") [] [] None Mysqldump
                "/data/backups/mysql3306" "/data/backups/mysql3306/all.sql.lz4"
                "/opt/mysqlbackup/logs/process_mysql_backup.log" "" false false false 3
                false false in
  let rw := config_login_path unreachable_server args fresh in
  sh unreachable_server (length (ran fresh)) (fs fresh)
    = (Done (mkResp 1 "" "ERROR 2002 (HY000): Can't connect to local MySQL server"), ∅) ∧
  ran rw.2 = [login_check_cmd args; login_set_cmd args] ∧
  rw.1 = Ok ().
Proof.
  intros args rw.
  assert (H : sh unreachable_server (length (ran fresh)) (fs fresh)
              = (Done (mkResp 1 "" "ERROR 2002 (HY000): Can't connect to local MySQL server"), ∅))
    by reflexivity.
  split; [exact H|].
  exact (login_path_set_ignores_result unreachable_server args fresh _ _ H).
Defined.

(** *** How often a command is run *)

Section Counts.
Context (c : Cmd).

Lemma counts_bind (n k : nat) {A B} (m : M A) (f : A → M B) :
  counts c n m → (∀ a, counts c k (f a)) → counts c (n + k) (m ≫= f).
Proof.
  intros Hm Hf w. unfold mbind, M_bind. specialize (Hm w).
  destruct (m w) as [[a|e|] w1]; cbn in *; [|done..].
  specialize (Hf a w1). destruct (f a w1) as [[b|e|] w2]; cbn in *; [|done..].
  rewrite Hf, Hm. lia.
Qed.

Lemma counts_pure {A} (m : M A) : (∀ w, ran (m w).2 = ran w) → counts c 0 m.
Proof. intros H w. destruct (m w).1; [|done..]. rewrite H. lia. Qed.

Lemma counts_never n {A} (m : M A) : (∀ w a, (m w).1 ≠ Ok a) → counts c n m.
Proof. intros H w. specialize (H w). destruct (m w).1 as [a| |]; [|done..]. by destruct (H a). Qed.

Lemma counts_run_other E line env : mkCmd line env ≠ c → counts c 0 (run E line env).
Proof.
  intros Hne w. unfold run. destruct (sh E _ _) as [[r|] o]; cbn [fst snd ran]; [|done].
  rewrite occurrences_app, (occurrences_none c [_]); [lia|]. by repeat constructor.
Qed.

Lemma counts_run_same E : counts c 1 (run E (cmd_line c) (cmd_env c)).
Proof.
  intros w. unfold run. destruct (sh E _ _) as [[r|] o]; cbn [fst snd ran]; [|done].
  rewrite occurrences_app. f_equal. unfold occurrences.
  rewrite filter_cons_True by (by destruct c). done.
Qed.

Lemma counts_when b m : counts c 0 m → counts c 0 (when b m).
Proof. destruct b; [done|]. intros _. by apply counts_pure. Qed.

Lemma counts_try n {A} (body handler : M A) :
  counts c n body → (∀ w a, (handler w).1 ≠ Ok a) →
  counts c n (try_except_KeyboardInterrupt body handler).
Proof.
  intros Hb Hh w. unfold try_except_KeyboardInterrupt. specialize (Hb w).
  destruct (body w) as [[a|[]|] w1]; cbn in *; try done.
  specialize (Hh w1). destruct (handler w1).1 as [a| |]; [|done..]. by destruct (Hh a).
Qed.

End Counts.

Section LoginCounts.
Context (E : Env) (c : Cmd).
Hypothesis c_env : cmd_env c = None.
Hypothesis c_head : String.get 0 (cmd_line c) = Some " "%char.

Lemma counts_env line p : counts c 0 (run E line (Some p)).
Proof. apply counts_run_other. intros H. rewrite <- H in c_env. discriminate c_env. Qed.

Lemma counts_head line env a :
  String.get 0 line = Some a → a ≠ " "%char → counts c 0 (run E line env).
Proof.
  intros Hl Ha. apply counts_run_other. intros H. rewrite <- H in c_head.
  cbn [cmd_line] in c_head. congruence.
Qed.

Lemma counts_exit n {A} (m : M unit) : counts c n (m ;; sys_exit (A:=A) 1).
Proof.
  apply counts_never. intros w a. unfold mbind, M_bind.
  by destruct (m w) as [[[]| |] w1].
Qed.

Lemma counts_debug_log d msg : counts c 0 (debug_log d msg).
Proof. apply counts_pure. intros w. by destruct d. Qed.

Lemma counts_check_command name : counts c 0 (check_command E name).
Proof.
  unfold check_command. apply (counts_bind c 0 0).
  - destruct (windows E); by eapply counts_head.
  - intros resp. apply counts_when, counts_exit.
Qed.

Lemma counts_delete_fail {A} n args : counts c n (delete_fail_backup_file (A:=A) args).
Proof.
  apply counts_never. intros w a. rewrite delete_fail_backup_file_exact.
  by destruct (bool_decide _).
Qed.

Section Args.
Context (args : Args string).
Hypothesis login : Py.truthy (login_path args) = true.
Hypothesis c_login : counts c 1 (config_login_path E args).

Lemma counts_get_connect_args : counts c 1 (get_connect_args E args).
Proof.
  unfold get_connect_args. rewrite login.
  apply (counts_bind c 1 0); [done|]. intros _. by apply counts_pure.
Qed.

Lemma counts_pre_backup : counts c 2 (pre_backup E args).
Proof.
  unfold pre_backup.
  apply (counts_bind c 0 2); [apply counts_check_command|intros _].
  apply (counts_bind c 0 2); [apply counts_check_command|intros _].
  apply (counts_bind c 1 1); [apply counts_get_connect_args|intros ca].
  apply (counts_bind c 0 1); [apply counts_debug_log|intros _].
  apply (counts_bind c 0 1).
  { destruct (windows E); by eapply counts_head. }
  intros resp.
  apply (counts_bind c 0 1); [apply counts_when, counts_exit|intros _].
  apply (counts_bind c 1 0); [apply counts_get_connect_args|intros ca'].
  apply (counts_bind c 0 0); [apply counts_debug_log|intros _].
  apply (counts_bind c 0 0); [apply counts_env|intros resp'].
  apply counts_when, counts_exit.
Qed.

Lemma counts_add_filter_args : counts c 0 (add_filter_args args).
Proof.
  apply counts_pure. intros w. by destruct (add_filter_args_logs_only args) as [H _], (H w) as (_ & ? & _).
Qed.

Lemma counts_incremental_lsn h : counts c 0 (incremental_lsn E args h).
Proof.
  unfold incremental_lsn.
  apply (counts_bind c 0 0); [by apply counts_pure|intros _].
  apply (counts_bind c 0 0); [by apply counts_pure|intros there].
  destruct (incremental args && there); [|by apply counts_pure].
  apply (counts_bind c 0 0); [apply counts_debug_log|intros _].
  apply (counts_bind c 0 0); [|intros; by apply counts_pure].
  by eapply counts_head.
Qed.

Lemma counts_process_backup_build : counts c 1 (process_backup_build E args).
Proof.
  unfold process_backup_build.
  do 3 (apply (counts_bind c 0 1); [by apply counts_pure|intros _]).
  apply (counts_bind c 1 0); [apply counts_get_connect_args|intros ca].
  apply (counts_bind c 0 0).
  { apply counts_when. by apply counts_pure. }
  intros _.
  apply (counts_bind c 0 0); [apply counts_add_filter_args|intros f].
  apply (counts_bind c 0 0).
  - destruct (tool args); try (by apply counts_pure).
    apply (counts_bind c 0 0); [apply counts_incremental_lsn|intros; by apply counts_pure].
  - intros [c' a']. apply (counts_bind c 0 0); [apply counts_debug_log|intros; by apply counts_pure].
Qed.

End Args.

Lemma counts_process_backup_run args command tmp_dir :
  counts c 0 (process_backup_run E args command tmp_dir).
Proof.
  unfold process_backup_run.
  apply (counts_bind c 0 0); [|intros; by apply counts_pure].
  apply counts_try.
  - apply (counts_bind c 0 0); [apply counts_env|intros resp].
    apply (counts_bind c 0 0).
    + apply counts_when, counts_pure. intros w. unfold rmdir. by destruct (_ && _).
    + intros _. apply counts_when.
      apply (counts_bind c 0 0); [by apply counts_pure|intros _].
      apply (counts_bind c 0 0); [|intros _; apply counts_delete_fail].
      destruct (negb _); by apply counts_pure.
  - intros w a. unfold mbind, M_bind. rewrite delete_fail_backup_file_exact.
    by destruct (bool_decide _).
Qed.

Lemma counts_main (args : Args (list string)) :
  Py.truthy (login_path args) = true →
  counts c 1 (config_login_path E (add_extra_args args)) →
  counts c 3 (main E args).
Proof.
  intros Hlp Hc. unfold main.
  apply (counts_bind c 2 1); [by apply counts_pre_backup|intros _].
  unfold process_backup.
  apply (counts_bind c 1 0); [by apply counts_process_backup_build|].
  intros [[command tmp_dir] a].
  apply (counts_bind c 0 0); [apply counts_process_backup_run|intros; by apply counts_pure].
Qed.

End LoginCounts.

Lemma login_check_once E args : counts (login_check_cmd args) 1 (config_login_path E args).
Proof.
  unfold config_login_path.
  apply (counts_bind _ 0 1); [apply counts_pure; intros w; by destruct (debug args)|intros _].
  apply (counts_bind _ 1 0); [apply (counts_run_same (login_check_cmd args))|intros resp].
  apply counts_when.
  apply (counts_bind _ 0 0); [apply counts_pure; intros w; by destruct (debug args)|intros _].
  apply (counts_bind _ 0 0); [by apply counts_pure|intros _].
  apply (counts_bind _ 0 0); [|intros; by apply counts_pure].
  apply counts_run_other. intros H. apply (f_equal cmd_line) in H.
  apply (f_equal (String.get 41)) in H. unfold login_check_cmd in H.
  destruct (Py.truthy (socket args)), (reset args); vm_compute in H; discriminate H.
Qed.

Lemma login_set_line args :
  (let s_command :=
     Py.flat (Py.NL +:+
       "                    mysql_config_editor set --login-path=" +:+ Py.fmt (login_path args) +:+ " --host=" +:+ host args +:+ " --password " +:+ Py.NL +:+
       "                    --user=" +:+ user args +:+ " --port=" +:+ Py.str (port args) +:+ Py.NL +:+
       "                ") in
   if Py.truthy (socket args)
   then s_command +:+ " --socket=" +:+ Py.fmt (socket args)
   else s_command)
  = cmd_line (login_set_cmd args).
Proof.
  unfold login_set_cmd. cbn [cmd_line]. cbv zeta.
  destruct (Py.truthy (socket args)); by rewrite ?app_empty_r.
Qed.

Lemma login_set_once E args :
  reset args = true → counts (login_set_cmd args) 1 (config_login_path E args).
Proof.
  intros Hreset. unfold config_login_path. rewrite Hreset. cbn [negb].
  apply (counts_bind _ 0 1); [apply counts_pure; intros w; by destruct (debug args)|intros _].
  apply (counts_bind _ 0 1).
  { apply counts_run_other. intros H. apply (f_equal cmd_line) in H.
    apply (f_equal (String.get 41)) in H. vm_compute in H. discriminate H. }
  intros resp. rewrite orb_true_r. unfold when. rewrite login_set_line.
  apply (counts_bind _ 0 1); [apply counts_pure; intros w; by destruct (debug args)|intros _].
  apply (counts_bind _ 0 1); [by apply counts_pure|intros _].
  apply (counts_bind _ 1 0); [apply (counts_run_same (login_set_cmd args))|].
  intros; by apply counts_pure.
Qed.

(** X12. With a login path, a run of [main] that returns has checked
    (with [--reset], removed) the login path three times, twice in
    [pre_backup] and once in [process_backup]; with [--reset] it has
    also set it three times. *)
Theorem login_path_checked_three_times E (args : Args (list string)) w :
  Py.truthy (login_path args) = true →
  (∃ a, (main E args w).1 = Ok a) →
  let c := login_check_cmd (add_extra_args args) in
  let s := login_set_cmd (add_extra_args args) in
  occurrences c (ran (main E args w).2) = (occurrences c (ran w) + 3)%nat ∧
  (reset args = true →
   occurrences s (ran (main E args w).2) = (occurrences s (ran w) + 3)%nat).
Proof.
  intros Hlp [a Ha]. cbv zeta. split.
  - pose proof (counts_main E (login_check_cmd (add_extra_args args)) eq_refl) as H.
    specialize (H ltac:(unfold login_check_cmd; by destruct (reset _)) args Hlp
                  (login_check_once E _) w).
    by rewrite Ha in H.
  - intros Hreset.
    pose proof (counts_main E (login_set_cmd (add_extra_args args)) eq_refl) as H.
    specialize (H eq_refl args Hlp
                  (login_set_once E (add_extra_args args) Hreset) w).
    by rewrite Ha in H.
Qed.

Lemma login_path_checked_three_times_witness :
  let args := mkArgs "db1" 3306 None "backup" "" (Some "nightly") [] [] None Mysqldump
                "/data/backups/mysql3306" "/data/backups/mysql3306/all.sql.lz4"
                "/opt/mysqlbackup/logs/process_mysql_backup.log" ([] : list string)
                false false false 3 false false in
  let E := quiet_server 3 in
  Py.truthy (login_path args) = true ∧
  (∃ a, (main E args fresh).1 = Ok a) ∧
  occurrences (login_check_cmd (add_extra_args args)) (ran (main E args fresh).2) = 3%nat.
Proof.
  intros args E.
  assert (H1 : Py.truthy (login_path args) = true) by reflexivity.
  assert (H2 : ∃ a, (main E args fresh).1 = Ok a) by (eexists; vm_compute; reflexivity).
  split; [exact H1|]. split; [exact H2|].
  exact (proj1 (login_path_checked_three_times E args fresh H1 H2)).
Defined.

(** ** More on the command builder *)

(** X19. For xtrabackup with a database or table filter,
    [process_backup] ends with [SystemExit(1)] (or is interrupted while
    the login path is configured) without running a command that
    carries the password; when it exits, the last log record is the
    error about the filter and the temporary directory, created before
    the filter is looked at, exists. *)
Theorem xtrabackup_filter_leaves_tmp_dir E args w :
  tool args = Xtrabackup →
  nonempty (databases args) || nonempty (tables args) = true →
  let rw := process_backup E args w in
  let tmp_dir := path_join (absolute E (backup_dir args)) "tmp" in
  (rw.1 = Raised (SystemExit 1) ∨ rw.1 = Raised KeyboardInterrupt) ∧
  (∃ cs, ran rw.2 = ran w ++ cs ∧ Forall (λ c, cmd_env c = None) cs) ∧
  (rw.1 = Raised (SystemExit 1) →
   tmp_dir ∈ fs rw.2 ∧
   ∃ l, log rw.2 = log w ++ l ++ [(Error, xtrabackup_filter_error)]).
Proof.
  intros Htool Hf. cbv zeta.
  destruct (process_backup E args w) as [rf wf] eqn:Hpb. cbn [fst snd]. revert Hpb.
  unfold process_backup, process_backup_build, add_filter_args.
  unfold mbind, M_bind. rewrite Htool.
  assert (Hb : bool_decide (Xtrabackup ∈ [Mydumper; Xtrabackup]) = true) by (by vm_compute).
  rewrite Hb. clear Hb.
  cbn -[get_connect_args backup_command incremental_lsn].
  set (w1 := mkWorld _ _ _ _).
  destruct (get_connect_args_runs E args w1) as (cs & Hcs & Hnone).
  destruct (get_connect_args_logs E args w1) as (l & Hl & _).
  destruct (get_connect_args_outcome E args w1) as [Hca|Hca];
    destruct (get_connect_args E args w1) as [r w2]; cbn in Hcs, Hca, Hl; subst r; cbn.
  - destruct (nonempty (databases args)), (nonempty (tables args)); try done; cbn;
      intros [= <- <-]; cbn;
      (split; [by left|split; [exists cs; by rewrite Hcs|]]); intros _;
      (split; [apply elem_of_union_r; by apply elem_of_singleton|]);
      rewrite Hl; rewrite <- ?app_assoc; eexists (_ :: _ :: _ :: l); reflexivity.
  - intros [= <- <-]. split; [by right|]. split; [|done]. exists cs. by rewrite Hcs.
Qed.

Lemma xtrabackup_filter_leaves_tmp_dir_witness :
  let args := set_filters xbk_args ["shop"] [] in
  let rw := process_backup (quiet_server 9) args fresh in
  tool args = Xtrabackup ∧
  nonempty (databases args) || nonempty (tables args) = true ∧
  rw.1 = Raised (SystemExit 1) ∧
  ran rw.2 = [] ∧
  "/data/backups/mysql3306/tmp" ∈ fs rw.2.
Proof.
  intros args rw.
  assert (H1 : tool args = Xtrabackup) by reflexivity.
  assert (H2 : nonempty (databases args) || nonempty (tables args) = true) by reflexivity.
  split; [exact H1|]. split; [exact H2|].
  destruct (xtrabackup_filter_leaves_tmp_dir (quiet_server 9) args fresh H1 H2)
    as (_ & _ & Hexit).
  assert (Hr : rw.1 = Raised (SystemExit 1)) by (vm_compute; reflexivity).
  split; [exact Hr|]. split; [vm_compute; reflexivity|].
  exact (proj1 (Hexit Hr)).
Defined.

(** X17. For mysqldump and mysqlpump with a table filter, the built
    command contains the table flag of the tool followed by the tables,
    separated by spaces. *)
Theorem table_filter_in_command E args w command tmp_dir a :
  nonempty (tables args) = true →
  tool args = Mysqldump ∨ tool args = Mysqlpump →
  (process_backup_build E args w).1 = Ok (command, tmp_dir, a) →
  occurs_in (Py.flat (table_flag (tool args) +:+ Py.join " " (tables args))) command.
Proof.
  intros Ht Htool Hb.
  apply process_backup_build_command in Hb as (f & Hf & -> & -> & _).
  eapply occurs_in_part; [|by apply backup_command_has_filter].
  revert Hf. unfold add_filter_args. munfold. rewrite Ht.
  destruct Htool as [-> | ->]; cbn; destruct (nonempty (databases args)); cbn;
    intros [= <-]; rewrite ?app_empty_l.
  - rewrite (flat_app (" --databases " +:+ _)). apply occurs_in_app_r.
    exists "", "". by rewrite app_empty_r.
  - exists "", "". by rewrite app_empty_r.
  - rewrite (flat_app (" --include-databases " +:+ _)). apply occurs_in_app_r.
    exists "", "". by rewrite app_empty_r.
  - exists "", "". by rewrite app_empty_r.
Qed.

Lemma table_filter_in_command_witness :
  let args := set_filters dump_args ["shop"] ["orders"; "items"] in
  ∃ command tmp_dir a,
    nonempty (tables args) = true ∧
    (tool args = Mysqldump ∨ tool args = Mysqlpump) ∧
    (process_backup_build (quiet_server 9) args fresh).1 = Ok (command, tmp_dir, a) ∧
    occurs_in " --tables orders items" command.
Proof.
  intros args. eexists _, _, _.
  assert (H1 : nonempty (tables args) = true) by reflexivity.
  assert (H2 : tool args = Mysqldump ∨ tool args = Mysqlpump) by (by left).
  split; [exact H1|]. split; [exact H2|].
  split; [vm_compute; reflexivity|].
  refine (table_filter_in_command (quiet_server 9) args fresh _ _ _ H1 H2 _).
  vm_compute. reflexivity.
Defined.

Lemma join_suffix sep suf (l : list string) :
  l ≠ [] →
  Py.join (suf +:+ sep) l +:+ suf = Py.join sep (map (λ d, d +:+ suf) l).
Proof.
  induction l as [|x l IH]; [done|]. intros _.
  destruct l as [|y l]; [done|].
  change (Py.join (suf +:+ sep) (x :: y :: l))
    with (x +:+ (suf +:+ sep) +:+ Py.join (suf +:+ sep) (y :: l)).
  change (Py.join sep (map (λ d, d +:+ suf) (x :: y :: l)))
    with ((x +:+ suf) +:+ sep +:+ Py.join sep (map (λ d, d +:+ suf) (y :: l))).
  rewrite <- IH by done. by rewrite !app_assoc_s.
Qed.

(** X18. For mydumper with a database filter, [add_filter_args]
    returns the [--regex] flag with the alternation of the databases,
    each followed by an escaped dot, and then the tables list, if
    any. *)
Theorem mydumper_regex_alternation args w :
  tool args = Mydumper →
  nonempty (databases args) = true →
  ∃ tables_list,
    (add_filter_args args w).1
    = Ok (" --regex '" +:+ Py.join "|" (map (λ d, d +:+ "\.") (databases args)) +:+ "'"
          +:+ tables_list) ∧
    tables_list = (if nonempty (tables args)
                   then " --tables-list " +:+ Py.join "," (tables args) else "").
Proof.
  intros Htool Hd. eexists. split; [|reflexivity].
  unfold add_filter_args. munfold. rewrite Htool, Hd. cbn.
  rewrite <- (join_suffix "|" "\." (databases args)) by (by destruct (databases args)).
  destruct (nonempty (tables args)); cbn; f_equal;
    rewrite ?app_empty_l, ?app_empty_r, ?app_assoc_s; reflexivity.
Qed.

Lemma mydumper_regex_alternation_witness :
  let args := set_filters dumper_shop ["shop"; "crm"] [] in
  tool args = Mydumper ∧ nonempty (databases args) = true ∧
  (add_filter_args args fresh).1 = Ok " --regex 'shop\.|crm\.'".
Proof.
  intros args.
  assert (H1 : tool args = Mydumper) by reflexivity.
  assert (H2 : nonempty (databases args) = true) by reflexivity.
  split; [exact H1|]. split; [exact H2|].
  destruct (mydumper_regex_alternation args fresh H1 H2) as (t & Hr & ->).
  rewrite Hr. reflexivity.
Defined.

(** X7. [add_extra_args] ignores [--just-insert] and [--no-data] for
    xtrabackup and [--just-insert] for mydumper, and without the two
    switches it adds nothing for any tool. *)
Theorem switches_without_effect (args : Args (list string)) :
  (tool args = Xtrabackup → extra (add_extra_args args) = Py.join "" (extra args)) ∧
  (tool args = Mydumper →
   extra (add_extra_args args)
   = Py.join "" (extra args) +:+ (if no_data args then " --no-data --no-locks" else "")) ∧
  (just_insert args = false → no_data args = false →
   extra (add_extra_args args) = Py.join "" (extra args)).
Proof.
  unfold add_extra_args. cbn [extra set_extra].
  split; [|split].
  - by intros ->.
  - intros ->. cbn. destruct (just_insert args), (no_data args); cbn;
      by rewrite ?app_empty_r.
  - intros -> ->. cbn. by destruct (bool_decide _).
Qed.



Lemma app_inv_head_s (s t u : string) : s +:+ t = s +:+ u → t = u.
Proof.
  induction s as [|a s IH]; [done|]. rewrite !app_cons. intros [= H]. auto.
Qed.

(** X24. For xtrabackup without a login path and without filters,
    when no checkpoint file exists, [process_backup] builds the command
    of a full backup whether or not [--incremental] is given: no
    command is run to read an LSN, [args] stays as it is, the temporary
    and the history directory are created, and no warning is logged. *)
Theorem incremental_without_checkpoint_is_full E args w :
  tool args = Xtrabackup →
  Py.truthy (login_path args) = false →
  databases args = [] → tables args = [] →
  let base := absolute E (backup_dir args) in
  let tmp_dir := path_join base "tmp" in
  let history_dir := path_join base "history" in
  path_join history_dir "xtrabackup_checkpoints" ∉ fs w →
  let rw := process_backup_build E args w in
  rw.1 = Ok (backup_command args (base_command args) " --all-databases" tmp_dir history_dir,
             tmp_dir, args) ∧
  ran rw.2 = ran w ∧
  fs rw.2 = fs w ∪ {[tmp_dir]} ∪ {[history_dir]} ∧
  ∃ l, log rw.2 = log w ++ l ∧ Forall not_a_warning l.
Proof.
  intros Htool Hlp Hd Ht. cbv zeta. intros Hno.
  destruct (process_backup_build_logs E args w) as (l & Hl & Hall).
  destruct (process_backup_build E args w) as [rf wf] eqn:Hb. cbn [fst snd] in *.
  revert Hb. unfold process_backup_build.
  unfold mbind at 1 2 3 4, M_bind at 1 2 3 4. unfold logger at 1 2 3. cbv beta iota.
  rewrite (get_connect_args_no_login _ _ _ Hlp). cbv beta iota.
  unfold mbind at 1, M_bind at 1. rewrite Htool.
  assert (Hb : bool_decide (Xtrabackup ∈ [Mydumper; Xtrabackup]) = true) by (by vm_compute).
  rewrite Hb. clear Hb. unfold when, mkdir at 1. cbn [fs log ran slept]. cbv beta iota.
  unfold mbind at 1, M_bind at 1.
  rewrite (add_filter_args_all_databases _ _ Hd Ht). cbv beta iota.
  unfold mbind, M_bind.
  rewrite incremental_lsn_without_checkpoint.
  2:{ cbn [fs]. rewrite elem_of_union, elem_of_singleton. intros [H|H]; [done|].
      unfold path_join in H. cbn [String.prefix] in H.
      destruct (ascii_dec _ _) as [|_] in H; [done|].
      destruct (ascii_dec _ _) as [|_] in H; [done|].
      rewrite !app_assoc_s in H. apply app_inv_head_s in H. discriminate H. }
  cbv beta iota. cbn [mret M_ret login_path].
  rewrite debug_log_spec. cbn [fs log ran slept].
  intros [= <- <-]. cbn [fs ran].
  split; [|split; [done|split; [done|by exists l]]].
  unfold base_command. rewrite Htool, Hlp. cbn [negb].
  assert (bool_decide (Xtrabackup = Xtrabackup) = true) as -> by done.
  cbn [andb]. by rewrite !app_assoc_s.
Qed.

Lemma incremental_without_checkpoint_is_full_witness :
  let rw := process_backup_build (quiet_server 9) xbk_inc fresh in
  tool xbk_inc = Xtrabackup ∧ incremental xbk_inc = true ∧
  Py.truthy (login_path xbk_inc) = false ∧
  databases xbk_inc = [] ∧ tables xbk_inc = [] ∧
  (checkpoints ∉ fs fresh) ∧
  rw.1 = Ok (backup_command xbk_inc (base_command xbk_inc) " --all-databases"
               "/data/backups/mysql3306/tmp" "/data/backups/mysql3306/history",
             "/data/backups/mysql3306/tmp", xbk_inc) ∧
  ran rw.2 = [].
Proof.
  intros rw.
  assert (H1 : tool xbk_inc = Xtrabackup) by reflexivity.
  assert (H2 : Py.truthy (login_path xbk_inc) = false) by reflexivity.
  assert (H3 : databases xbk_inc = []) by reflexivity.
  assert (H4 : tables xbk_inc = []) by reflexivity.
  assert (H5 : checkpoints ∉ fs fresh) by apply not_elem_of_empty.
  split; [exact H1|]. split; [reflexivity|]. split; [exact H2|]. split; [exact H3|].
  split; [exact H4|]. split; [exact H5|].
  destruct (incremental_without_checkpoint_is_full (quiet_server 9) xbk_inc fresh
              H1 H2 H3 H4 H5) as (Hr & Hran & _).
  split; [exact Hr|exact Hran].
Defined.

(** ** The default file name *)

Lemma replace_removes c d s :
  Ascii.eqb d c = false → has_char c (Py.replace c d s) = false.
Proof.
  intros Hdc. induction s as [|a s IH]; [done|]. simpl.
  destruct (Ascii.eqb a c) eqn:Ha; rewrite ?Hdc, ?Ha; by rewrite IH.
Qed.

Ltac name_found :=
  intros [= <- <-]; eexists;
  split; [reflexivity|split; [reflexivity|split; [by apply replace_removes|reflexivity]]].

(** X5. With no backup file given, option parsing names the file
    [<host>_<port>_<tool>_<time>.<suffix>] in the backup directory: the
    host is what the address lookup printed, or [args.host] when it
    failed, with every dot replaced by an underscore; the suffix is
    [sql.lz4] for mysqldump and mysqlpump, [stream] for mydumper and,
    for xtrabackup, [incremental.xb] when [--incremental] is given and
    the checkpoint file exists, [fullback.xb] otherwise. *)
Theorem default_backup_file_name E (args : Args (option (list string))) w resp o :
  backup_file args = "" →
  sh E (length (ran w)) (fs w ∪ {[backup_dir args]}) = (Done resp, o) →
  let checkpoint :=
    path_join (path_join (absolute E (backup_dir args)) "history") "xtrabackup_checkpoints" in
  let host_ := if return_code resp =? 0 then Py.delete Py.nl (out resp) else host args in
  let suffix :=
    match tool args with
    | Xtrabackup =>
        if incremental args && bool_decide (checkpoint ∈ o)
        then "incremental.xb" else "fullback.xb"
    | Mydumper => "stream"
    | _ => "sql.lz4"
    end in
  ∃ a,
    (parse_mysql_args_from_command_line E args w).1 = Ok a ∧
    backup_file a
    = path_join (backup_dir args)
        (Py.replace "." "_" host_ +:+ "_" +:+ Py.str (port args) +:+ "_" +:+
         tool_name (tool args) +:+ "_" +:+ now E +:+ "." +:+ suffix) ∧
    has_char "." (Py.replace "." "_" host_) = false ∧
    ran (parse_mysql_args_from_command_line E args w).2
    = ran w ++ [mkCmd get_ip_command None].
Proof.
  intros Hfile Hsh. cbv zeta.
  destruct (parse_mysql_args_from_command_line E args w) as [rf wf] eqn:Hp.
  cbn [fst snd]. revert Hp.
  unfold parse_mysql_args_from_command_line.
  change (backup_file (set_backup_log args _)) with (backup_file args).
  rewrite Hfile. cbn [String.eqb].
  unfold mbind, M_bind, mkdir, run. cbn [fs ran log slept]. rewrite Hsh. cbv beta iota.
  cbn [tool incremental set_backup_log backup_dir host port].
  destruct (tool args); cbn [mret M_ret]; try name_found.
  destruct (incremental args); cbn [andb mret M_ret]; [|name_found].
  unfold path_exists. cbn [fs].
  destruct (bool_decide _); cbn [logger mret M_ret]; name_found.
Qed.

Lemma default_backup_file_name_witness :
  let E := mkEnv false "/root" "/opt/mysqlbackup" "20241226_010203"
             (λ n o, (Done (mkResp 0 ("10.0.0.5" +:+ Py.NL) ""), o)) in
  let args := parsed Mydumper false "" in
  backup_file args = "" ∧
  sh E (length (ran fresh)) (fs fresh ∪ {[backup_dir args]})
    = (Done (mkResp 0 ("10.0.0.5" +:+ Py.NL) ""), ∅ ∪ {[backup_dir args]}) ∧
  ∃ a,
    (parse_mysql_args_from_command_line E args fresh).1 = Ok a ∧
    backup_file a = "/data/backups/mysql3306/10_0_0_5_3306_mydumper_20241226_010203.stream".
Proof.
  intros E args.
  assert (H1 : backup_file args = "") by reflexivity.
  assert (H2 : sh E (length (ran fresh)) (fs fresh ∪ {[backup_dir args]})
               = (Done (mkResp 0 ("10.0.0.5" +:+ Py.NL) ""), ∅ ∪ {[backup_dir args]}))
    by reflexivity.
  split; [exact H1|]. split; [exact H2|].
  destruct (default_backup_file_name E args fresh _ _ H1 H2) as (a & Ha & Hf & _).
  exists a. split; [exact Ha|]. rewrite Hf. reflexivity.
Defined.
